(** * SX127x radio driver (src/main/io/sx127x.c): shallow embedding and
      verification of its frequency, errata, RSSI and configuration paths.

    The driver is written for the ESP32 (ESP-IDF / FreeRTOS headers), an
    ILP32 target: [int], [long] and [unsigned long] are 32 bits wide, [float]
    is IEEE-754 binary32 and [double] is binary64.  Integers are modelled as
    [Z] with the C conversions written out; floating point is modelled with
    the executable IEEE-754 specification [SpecFloat]. *)

From Stdlib Require Import Reals Lra.
From Stdlib Require Import ZArith List Bool Lia.
From Stdlib Require Import Floats.SpecFloat.
Import ListNotations.

Local Open Scope Z_scope.

(** ** Machine integers *)

Module Int.

Definition UINT32_MOD : Z := 2 ^ 32.
Definition LONG_MIN : Z := - 2 ^ 31.
Definition LONG_MAX : Z := 2 ^ 31 - 1.

(** Conversion to an unsigned type of the given width (C 6.3.1.3p2). *)
Definition to_uint8 (x : Z) : Z := x mod 256.
Definition to_uint32 (x : Z) : Z := x mod UINT32_MOD.

(** Conversion of a byte to [int8_t] (two's complement reading). *)
Definition to_int8 (x : Z) : Z :=
  let b := x mod 256 in if b <? 128 then b else b - 256.

(** The usual two-argument macros of util/macros.h (the header is not part
    of the translated file; they have their conventional meaning). *)
Definition MIN (a b : Z) : Z := if a <? b then a else b.
Definition MAX (a b : Z) : Z := if a >? b then a else b.

End Int.

(** ** IEEE-754 arithmetic *)

Module Float.

(** A format is given by its precision and the exponent of its infinities. *)
Record format := { prec : Z; emax : Z }.

Definition binary32 : format := {| prec := 24; emax := 128 |}.
Definition binary64 : format := {| prec := 53; emax := 1024 |}.

Section Ops.
Variable fmt : format.

(** Integer to floating conversion, round to nearest, ties to even. *)
Definition of_Z (n : Z) : spec_float :=
  binary_normalize (prec fmt) (emax fmt) n 0 false.

Definition mul (x y : spec_float) : spec_float :=
  SFmul (prec fmt) (emax fmt) x y.
Definition div (x y : spec_float) : spec_float :=
  SFdiv (prec fmt) (emax fmt) x y.
Definition add (x y : spec_float) : spec_float :=
  SFadd (prec fmt) (emax fmt) x y.

(** A decimal literal [n / d] (with [d] positive) rounded to the format. *)
Definition literal (n d : Z) : spec_float := div (of_Z n) (of_Z d).
End Ops.

(** Integer part of a finite value, rounding toward zero (the C conversion
    from a floating type to an integer type, 6.3.1.4p1). *)
Definition trunc (x : spec_float) : option Z :=
  match x with
  | S754_zero _ => Some 0
  | S754_finite s m e =>
      let a := match e with
               | Zneg p => Zpos m / 2 ^ Zpos p
               | _ => Zpos m * 2 ^ e
               end in
      Some (if s then - a else a)
  | _ => None
  end.

(** Nearest integer of a finite value, ties to even (the default rounding
    direction used by [lrintf]). *)
Definition nearest_even (x : spec_float) : option Z :=
  match x with
  | S754_zero _ => Some 0
  | S754_finite s m e =>
      let a := match e with
               | Zneg p =>
                   let q := Zpos m / 2 ^ Zpos p in
                   let r := Zpos m mod 2 ^ Zpos p in
                   match 2 * r ?= 2 ^ Zpos p with
                   | Lt => q
                   | Gt => q + 1
                   | Eq => if Z.even q then q else q + 1
                   end
               | _ => Zpos m * 2 ^ e
               end in
      Some (if s then - a else a)
  | _ => None
  end.

End Float.

(** [SX127X_FSK_FREQ_STEP], the double literal 61.03515625 = 15625 / 256. *)
Definition SX127X_FSK_FREQ_STEP : spec_float :=
  Float.literal Float.binary64 15625 256.
Definition SX127X_FXOSC : Z := 32000000.

(** ** Register map and constants (the [#define]s of the driver) *)

Definition REG_FIFO : Z := 0x00.
Definition REG_OP_MODE : Z := 0x01.
Definition REG_FRF_MSB : Z := 0x06.
Definition REG_FRF_MID : Z := 0x07.
Definition REG_FRF_LSB : Z := 0x08.
Definition REG_FSK_RSSI_VALUE : Z := 0x11.
Definition REG_FSK_RX_BW : Z := 0x12.
Definition REG_FSK_RX_AFC_BW : Z := 0x13.
Definition REG_LORA_FIFO_ADDR_PTR : Z := 0x0d.
Definition REG_LORA_IRQ_FLAGS : Z := 0x12.
Definition REG_LORA_PKT_SNR_VALUE : Z := 0x19.
Definition REG_LORA_PKT_RSSI_VALUE : Z := 0x1a.
Definition REG_LORA_MODEM_CONFIG_2 : Z := 0x1e.
Definition REG_LORA_PPM_CORRECTION : Z := 0x27.
Definition REG_LORA_DETECTION_OPTIMIZE : Z := 0x31.
Definition REG_LORA_DETECTION_BW500_OPTIMIZE_1 : Z := 0x36.
Definition REG_LORA_DETECTION_THRESHOLD : Z := 0x37.
Definition REG_LORA_DETECTION_BW500_OPTIMIZE_2 : Z := 0x3A.

Definition MODE_LORA : Z := 0x80.
Definition MODE_SLEEP : Z := 0x00.
Definition MODE_STDBY : Z := 0x01.
Definition MODE_TX : Z := 0x03.
Definition MODE_RX_CONTINUOUS : Z := 0x05.

Definition IRQ_RX_DONE_MASK : Z := 0x40.
Definition RX_FIFO_ADDR : Z := 0.

Definition DIO0_TRIGGER_RX_DONE : Z := 1.
Definition DIO0_TRIGGER_TX_DONE : Z := 2.

Definition SX127X_RX_SENSITIVITY_BW500_WORKAROUND_NONE : Z := 0.
Definition SX127X_RX_SENSITIVITY_BW500_WORKAROUND_HIGH_BAND : Z := 1.
Definition SX127X_RX_SENSITIVITY_BW500_WORKAROUND_LOW_BAND : Z := 2.

(** ** Driver state ([sx127x->state]) *)

Inductive sx127x_op_mode_e : Set :=
| SX127X_OP_MODE_FSK
| SX127X_OP_MODE_LORA.

(** The nine bandwidth steps named by the driver. *)
Inductive sx127x_lora_signal_bw_e : Set :=
| SX127X_LORA_SIGNAL_BW_7_8
| SX127X_LORA_SIGNAL_BW_10_4
| SX127X_LORA_SIGNAL_BW_15_6
| SX127X_LORA_SIGNAL_BW_20_8
| SX127X_LORA_SIGNAL_BW_31_25
| SX127X_LORA_SIGNAL_BW_41_7
| SX127X_LORA_SIGNAL_BW_62_5
| SX127X_LORA_SIGNAL_BW_250
| SX127X_LORA_SIGNAL_BW_500.

Definition is_bw_500 (b : sx127x_lora_signal_bw_e) : bool :=
  match b with SX127X_LORA_SIGNAL_BW_500 => true | _ => false end.

Definition is_lora (m : sx127x_op_mode_e) : bool :=
  match m with SX127X_OP_MODE_LORA => true | SX127X_OP_MODE_FSK => false end.

Record fsk_state : Type := mk_fsk {
  fsk_freq : Z;            (* unsigned long *)
  fsk_payload_length : Z;  (* uint8_t *)
  fsk_rx_bandwidth : Z     (* unsigned *)
}.

Record lora_state : Type := mk_lora {
  lora_freq : Z;                             (* unsigned long *)
  lora_ppm_correction : Z;                   (* int8_t *)
  lora_payload_length : Z;                   (* uint8_t *)
  lora_signal_bw : sx127x_lora_signal_bw_e;
  lora_sf : Z;                               (* int *)
  lora_bw_workaround : Z                     (* uint8_t *)
}.

Record sx127x_state : Type := mk_state {
  mode : Z;                      (* uint8_t, last value written to REG_OP_MODE *)
  op_mode : sx127x_op_mode_e;
  rx_done : bool;
  tx_done : bool;
  dio0_trigger : Z;
  callback : Z;                  (* function pointer, 0 is NULL *)
  callback_data : Z;
  fsk : fsk_state;
  lora : lora_state
}.

(** The driver instance together with the chip behind the SPI bus:
    [regs] is the chip's register file as read over SPI, [fifo] the bytes a
    burst read of [REG_FIFO] delivers, [spi_writes] the register writes issued
    so far (oldest first) and [clock] the monotonic microsecond clock. *)
Record device : Type := mk_device {
  state : sx127x_state;
  regs : Z -> Z;
  fifo : list Z;
  spi_writes : list (Z * Z);
  clock : Z
}.

Definition with_state (d : device) (s : sx127x_state) : device :=
  mk_device s (regs d) (fifo d) (spi_writes d) (clock d).

Definition with_mode (s : sx127x_state) (m : Z) : sx127x_state :=
  mk_state m (op_mode s) (rx_done s) (tx_done s) (dio0_trigger s)
           (callback s) (callback_data s) (fsk s) (lora s).

Definition with_rx_done (s : sx127x_state) (b : bool) : sx127x_state :=
  mk_state (mode s) (op_mode s) b (tx_done s) (dio0_trigger s)
           (callback s) (callback_data s) (fsk s) (lora s).

Definition with_fsk (s : sx127x_state) (f : fsk_state) : sx127x_state :=
  mk_state (mode s) (op_mode s) (rx_done s) (tx_done s) (dio0_trigger s)
           (callback s) (callback_data s) f (lora s).

Definition with_lora (s : sx127x_state) (l : lora_state) : sx127x_state :=
  mk_state (mode s) (op_mode s) (rx_done s) (tx_done s) (dio0_trigger s)
           (callback s) (callback_data s) (fsk s) l.

Definition with_fsk_freq (f : fsk_state) (v : Z) : fsk_state :=
  mk_fsk v (fsk_payload_length f) (fsk_rx_bandwidth f).

Definition with_fsk_rx_bandwidth (f : fsk_state) (v : Z) : fsk_state :=
  mk_fsk (fsk_freq f) (fsk_payload_length f) v.

Definition with_lora_freq (l : lora_state) (v : Z) : lora_state :=
  mk_lora v (lora_ppm_correction l) (lora_payload_length l)
          (lora_signal_bw l) (lora_sf l) (lora_bw_workaround l).

Definition with_lora_ppm_correction (l : lora_state) (v : Z) : lora_state :=
  mk_lora (lora_freq l) v (lora_payload_length l)
          (lora_signal_bw l) (lora_sf l) (lora_bw_workaround l).

Definition with_lora_sf (l : lora_state) (v : Z) : lora_state :=
  mk_lora (lora_freq l) (lora_ppm_correction l) (lora_payload_length l)
          (lora_signal_bw l) v (lora_bw_workaround l).

Definition with_lora_bw_workaround (l : lora_state) (v : Z) : lora_state :=
  mk_lora (lora_freq l) (lora_ppm_correction l) (lora_payload_length l)
          (lora_signal_bw l) (lora_sf l) v.

(** ** The driver monad

    Driver functions run on a [device]; [None] means that the call does not
    return: a fatal abort ([UNREACHABLE()]), or a polling loop that ran out of
    the fuel given to it. *)

Definition M (A : Type) : Type := device -> option (A * device).

Definition ret {A} (a : A) : M A := fun d => Some (a, d).

Definition bind {A B} (c : M A) (k : A -> M B) : M B :=
  fun d => match c d with
           | Some (a, d') => k a d'
           | None => None
           end.

Definition fatal {A} : M A := fun _ => None.

Notation "x <- c ;; k" := (bind c (fun x => k))
  (at level 61, c at next level, right associativity).
Notation "c ;; k" := (bind c (fun _ => k))
  (at level 61, right associativity).

Definition get_state : M sx127x_state := fun d => Some (state d, d).
Definition put_state (s : sx127x_state) : M unit :=
  fun d => Some (tt, with_state d s).
Definition modify_state (f : sx127x_state -> sx127x_state) : M unit :=
  fun d => Some (tt, with_state d (f (state d))).

Definition when (b : bool) (c : M unit) : M unit := if b then c else ret tt.

(** Final device and result of a call. *)
Definition exec {A} (c : M A) (d : device) : option device :=
  match c d with Some (_, d') => Some d' | None => None end.

(** ** SPI register transport *)

Definition sx127x_read_reg (addr : Z) : M Z :=
  fun d => Some (regs d addr, d).

Definition sx127x_write_reg (addr value : Z) : M unit :=
  fun d =>
    let v := Int.to_uint8 value in
    Some (tt, mk_device (state d)
                        (fun a => if a =? addr then v else regs d a)
                        (fifo d)
                        (spi_writes d ++ [(addr, v)])
                        (clock d)).

(** Burst read of [n] bytes from the data buffer. *)
Definition spi_read_fifo (n : Z) : M (list Z) :=
  fun d =>
    Some (firstn (Z.to_nat n) (fifo d),
          mk_device (state d) (regs d) (skipn (Z.to_nat n) (fifo d))
                    (spi_writes d) (clock d)).

(** [time_micros_now()]: the clock is read and time moves on. *)
Definition time_micros_now : M Z :=
  fun d =>
    Some (clock d,
          mk_device (state d) (regs d) (fifo d) (spi_writes d) (clock d + 1)).

(** ** Mode controller *)

Definition sx127x_set_mode (m : Z) : M unit :=
  st <- get_state ;;
  when (negb (mode st =? m))
       (sx127x_write_reg REG_OP_MODE m ;;
        modify_state (fun s => with_mode s m)).

Definition sx127x_sleep : M unit :=
  st <- get_state ;;
  let m := Z.lor (Z.land (mode st) MODE_LORA) MODE_SLEEP in
  sx127x_set_mode m.

Definition sx127x_idle : M unit :=
  st <- get_state ;;
  let m := Z.lor (Z.land (mode st) MODE_LORA) MODE_STDBY in
  sx127x_set_mode m.

Definition sx127x_prepare_write : M unit :=
  st <- get_state ;;
  match op_mode st with
  | SX127X_OP_MODE_FSK => sx127x_sleep
  | SX127X_OP_MODE_LORA =>
      let m := Int.to_uint8 (Z.land (mode st) (Z.lnot MODE_LORA)) in
      when (negb (m =? MODE_SLEEP) && negb (m =? MODE_STDBY)) sx127x_idle
  end.

(** [link_quality], in C integer arithmetic (division truncates). *)
Definition link_quality (min_dbm max_dbm dbm : Z) : Z :=
  Z.quot (100 * (max_dbm - min_dbm) * (max_dbm - min_dbm)
          - (max_dbm - dbm) * (25 * (max_dbm - min_dbm) + 75 * (max_dbm - dbm)))
         ((max_dbm - min_dbm) * (max_dbm - min_dbm)).

(** ** Conversions between the integer and floating types *)

(** [(uint32_t) x] for a double [x].  The conversion is only defined by C for
    finite values whose integer part fits; [0] stands for the other cases,
    which the driver never reaches (see [fsk_frf_value]). *)
Definition double_to_uint32 (x : spec_float) : Z :=
  match Float.trunc x with
  | Some n => Int.to_uint32 n
  | None => 0
  end.

(** Conversion of a floating value to [int]; the operands of the driver are
    finite and a few hundred in magnitude. *)
Definition float_to_int (x : spec_float) : Z :=
  match Float.trunc x with
  | Some n => n
  | None => 0
  end.

(** The nearest integer when it is representable as a [long]. *)
Definition lrintf_defined (x : spec_float) : option Z :=
  match Float.nearest_even x with
  | Some n =>
      if (Int.LONG_MIN <=? n) && (n <=? Int.LONG_MAX) then Some n else None
  | None => None
  end.

(** ** Bandwidth-500 errata workaround *)

Definition sx127x_apply_bw500_sensitivity_workaround : M unit :=
  st <- get_state ;;
  let workaround :=
    if is_bw_500 (lora_signal_bw (lora st))
       && (lora_freq (lora st) >=? 862000000)
       && (lora_freq (lora st) <=? 1020000000)
    then SX127X_RX_SENSITIVITY_BW500_WORKAROUND_HIGH_BAND
    else if is_bw_500 (lora_signal_bw (lora st))
            && (lora_freq (lora st) >=? 410000000)
            && (lora_freq (lora st) <=? 525000000)
    then SX127X_RX_SENSITIVITY_BW500_WORKAROUND_LOW_BAND
    else SX127X_RX_SENSITIVITY_BW500_WORKAROUND_NONE in
  when (negb (workaround =? lora_bw_workaround (lora st)))
       ((if workaround =? SX127X_RX_SENSITIVITY_BW500_WORKAROUND_NONE then
           sx127x_write_reg REG_LORA_DETECTION_BW500_OPTIMIZE_1 0x03
         else if workaround =? SX127X_RX_SENSITIVITY_BW500_WORKAROUND_HIGH_BAND then
           sx127x_write_reg REG_LORA_DETECTION_BW500_OPTIMIZE_1 0x02 ;;
           sx127x_write_reg REG_LORA_DETECTION_BW500_OPTIMIZE_2 0x64
         else if workaround =? SX127X_RX_SENSITIVITY_BW500_WORKAROUND_LOW_BAND then
           sx127x_write_reg REG_LORA_DETECTION_BW500_OPTIMIZE_1 0x02 ;;
           sx127x_write_reg REG_LORA_DETECTION_BW500_OPTIMIZE_2 0x7F
         else ret tt) ;;
        modify_state
          (fun s => with_lora s (with_lora_bw_workaround (lora s) workaround))).

(** ** Frequency synthesizer *)

(** The empty [do { } while (time_micros_now() < deadline)] loop. *)
Fixpoint spin_until (fuel : nat) (deadline : Z) : M unit :=
  match fuel with
  | O => fatal
  | S fuel' =>
      t <- time_micros_now ;;
      if t <? deadline then spin_until fuel' deadline else ret tt
  end.

Definition PLL_LOCK_FUEL : nat := 64.

(** The FSK tuning word [(uint32_t)(freq / SX127X_FSK_FREQ_STEP)]. *)
Definition fsk_frf (freq : Z) : Z :=
  double_to_uint32
    (Float.div Float.binary64 (Float.of_Z Float.binary64 freq)
               SX127X_FSK_FREQ_STEP).

(** The LoRa tuning word [((uint64_t)freq << 19) / SX127X_FXOSC]. *)
Definition lora_frf (freq : Z) : Z :=
  Z.shiftl freq 19 / SX127X_FXOSC.

(** The operand of [lrintf]:
    [0.95f * (error / ((float)freq / 1000000))], in single precision. *)
Definition ppm_operand (freq error : Z) : spec_float :=
  let f32 := Float.binary32 in
  Float.mul f32 (Float.literal f32 95 100)
    (Float.div f32 (Float.of_Z f32 error)
       (Float.div f32 (Float.of_Z f32 freq) (Float.of_Z f32 1000000))).

Section Frequency.

(** What [lrintf] returns when the rounded value is not representable as a
    [long] or the operand is infinite or not a number: C leaves the result
    unspecified (7.12.9.5), so it is a parameter of the model. *)
Variable lrintf_unspecified : spec_float -> Z.

Definition lrintf (x : spec_float) : Z :=
  match lrintf_defined x with
  | Some n => n
  | None => lrintf_unspecified x
  end.

Definition ppm_correction_of (freq error : Z) : Z :=
  Int.MIN (Int.MAX (lrintf (ppm_operand freq error)) (-128)) 127.

Definition sx127x_set_frequency (freq error : Z) : M unit :=
  let freq := Int.to_uint32 (freq - error) in
  st <- get_state ;;
  frf <- match op_mode st with
         | SX127X_OP_MODE_FSK =>
             if negb (freq =? fsk_freq (fsk st)) then
               modify_state (fun s => with_fsk s (with_fsk_freq (fsk s) freq)) ;;
               ret (fsk_frf freq)
             else ret 0
         | SX127X_OP_MODE_LORA =>
             if negb (freq =? lora_freq (lora st)) then
               modify_state (fun s => with_lora s (with_lora_freq (lora s) freq)) ;;
               ret (lora_frf freq)
             else ret 0
         end ;;
  when (frf >? 0)
       (sx127x_prepare_write ;;
        sx127x_write_reg REG_FRF_MSB (Z.shiftr frf 16) ;;
        sx127x_write_reg REG_FRF_MID (Z.shiftr frf 8) ;;
        sx127x_write_reg REG_FRF_LSB (Z.shiftr frf 0) ;;
        now <- time_micros_now ;;
        spin_until PLL_LOCK_FUEL (now + 50)) ;;
  st <- get_state ;;
  when (is_lora (op_mode st))
       (let ppm_correction := ppm_correction_of freq error in
        when (negb (ppm_correction =? lora_ppm_correction (lora st)))
             (sx127x_prepare_write ;;
              sx127x_write_reg REG_LORA_PPM_CORRECTION ppm_correction ;;
              modify_state
                (fun s => with_lora s
                            (with_lora_ppm_correction (lora s) ppm_correction))) ;;
        sx127x_apply_bw500_sensitivity_workaround).

End Frequency.

(** ** Signal quality *)

Definition sx127x_lora_min_rssi : M Z :=
  st <- get_state ;;
  if lora_freq (lora st) >? 700000 then ret (-157) else ret (-164).

Definition sx127x_rx_sensitivity : M Z :=
  st <- get_state ;;
  match op_mode st with
  | SX127X_OP_MODE_FSK => ret (-95)
  | SX127X_OP_MODE_LORA =>
      if is_bw_500 (lora_signal_bw (lora st)) then
        let sf := lora_sf (lora st) in
        if sf =? 6 then ret (-109)
        else if sf =? 7 then ret (-114)
        else if sf =? 8 then ret (-117)
        else if sf =? 9 then ret (-120)
        else if sf =? 10 then ret (-123)
        else if sf =? 11 then ret (-125)
        else if sf =? 12 then ret (-128)
        else ret 0
      else ret 0
  end.

(** The three arms of the LoRa RSSI computation, as the C expressions:
    [min_rssi + (16 / 15.0) * raw_rssi] in double,
    [min_rssi + raw_rssi + snr_value * 0.25f] in float, and the integer sum. *)
Definition rssi_snr_nonneg (min_rssi raw_rssi : Z) : Z :=
  let f64 := Float.binary64 in
  float_to_int
    (Float.add f64 (Float.of_Z f64 min_rssi)
       (Float.mul f64 (Float.literal f64 16 15) (Float.of_Z f64 raw_rssi))).

Definition rssi_snr_neg (min_rssi raw_rssi snr_value : Z) : Z :=
  let f32 := Float.binary32 in
  float_to_int
    (Float.add f32 (Float.of_Z f32 (min_rssi + raw_rssi))
       (Float.mul f32 (Float.of_Z f32 snr_value) (Float.literal f32 25 100))).

(** [sx127x_rssi]: the result is the returned RSSI together with the values
    stored through the [snr] and [lq] pointers. *)
Definition sx127x_rssi : M (Z * Z * Z) :=
  rx_sensitivity <- sx127x_rx_sensitivity ;;
  st <- get_state ;;
  r <- match op_mode st with
       | SX127X_OP_MODE_FSK =>
           v <- sx127x_read_reg REG_FSK_RSSI_VALUE ;;
           let rssi_value := Z.quot v (-2) in
           let snr_value := (- rx_sensitivity + rssi_value) * 4 in
           ret (0, rssi_value, snr_value)
       | SX127X_OP_MODE_LORA =>
           rx0 <- sx127x_read_reg REG_LORA_PKT_SNR_VALUE ;;
           rx1 <- sx127x_read_reg REG_LORA_PKT_RSSI_VALUE ;;
           let snr_value := Int.to_int8 rx0 in
           let raw_rssi := Int.to_uint8 rx1 in
           min_rssi <- sx127x_lora_min_rssi ;;
           let rssi_value :=
             if snr_value >=? 0 then rssi_snr_nonneg min_rssi raw_rssi
             else if snr_value <? 0 then rssi_snr_neg min_rssi raw_rssi snr_value
             else min_rssi + raw_rssi in
           ret (1, rssi_value, snr_value)
       end ;;
  let '(rssi_max_dbm, rssi_value, snr_value) := r in
  let lq :=
    Int.MAX 0 (Int.MIN (link_quality rx_sensitivity rssi_max_dbm rssi_value) 100) in
  ret (rssi_value, snr_value, lq).

(** ** TX/RX pipeline: [sx127x_read] *)

Section Read.

(** The forward-error-correction codec of util/fec.h is an external
    collaborator: its size macro and decoder are parameters. *)
Variable FEC_ENCODED_SIZE : Z -> Z.
Variable fec_decode : list Z -> Z -> Z -> list Z.

(** The result is the content left in the caller's buffer and the returned
    length. *)
Definition sx127x_read (size : Z) : M (list Z * Z) :=
  st <- get_state ;;
  ptr_size <- (if is_lora (op_mode st) then
                 sx127x_prepare_write ;;
                 sx127x_write_reg REG_LORA_FIFO_ADDR_PTR RX_FIFO_ADDR ;;
                 ret size
               else ret (FEC_ENCODED_SIZE size)) ;;
  data <- spi_read_fifo ptr_size ;;
  modify_state (fun s => with_rx_done s false) ;;
  st <- get_state ;;
  match op_mode st with
  | SX127X_OP_MODE_FSK => ret (fec_decode data ptr_size size, size)
  | SX127X_OP_MODE_LORA =>
      sx127x_write_reg REG_LORA_IRQ_FLAGS IRQ_RX_DONE_MASK ;;
      ret (data, size)
  end.

End Read.

Definition sx127x_is_rx_done : M bool :=
  st <- get_state ;; ret (rx_done st).

(** ** FSK bandwidth lookup *)

Definition fsk_bandwidths : list (Z * Z) :=
  [ (2600, 0x17); (3100, 0x0F); (3900, 0x07); (5200, 0x16); (6300, 0x0E);
    (7800, 0x06); (10400, 0x15); (12500, 0x0D); (15600, 0x05); (20800, 0x14);
    (25000, 0x0C); (31300, 0x04); (41700, 0x13); (50000, 0x0B); (62500, 0x03);
    (83333, 0x12); (100000, 0x0A); (125000, 0x02); (166700, 0x11);
    (200000, 0x09); (250000, 0x01);
    (300000, 0x00) (* Invalid Bandwidth *) ].

Definition bandwidth_hz (ii : nat) : Z := fst (nth ii fsk_bandwidths (0, 0)).
Definition bandwidth_reg_value (ii : nat) : Z := snd (nth ii fsk_bandwidths (0, 0)).

(** The [for] loop started at index [ii] with [n] iterations left; running off
    the end reaches [UNREACHABLE()]. *)
Fixpoint fsk_bandwidth_scan (n ii : nat) (hz : Z) : option Z :=
  match n with
  | O => None
  | S n' =>
      if (hz >=? bandwidth_hz ii) && (hz <? bandwidth_hz (S ii))
      then Some (bandwidth_reg_value ii)
      else fsk_bandwidth_scan n' (S ii) hz
  end.

Definition sx127x_get_fsk_bandwidth_reg_value (hz : Z) : option Z :=
  fsk_bandwidth_scan (length fsk_bandwidths - 1) 0 hz.

Definition sx127x_set_fsk_rx_bandwidth (hz : Z) : M unit :=
  sx127x_prepare_write ;;
  match sx127x_get_fsk_bandwidth_reg_value hz with
  | Some v =>
      sx127x_write_reg REG_FSK_RX_BW v ;;
      modify_state (fun s => with_fsk s (with_fsk_rx_bandwidth (fsk s) hz))
  | None => fatal
  end.

Definition sx127x_set_fsk_rx_afc_bandwidth (hz : Z) : M unit :=
  sx127x_prepare_write ;;
  match sx127x_get_fsk_bandwidth_reg_value hz with
  | Some v => sx127x_write_reg REG_FSK_RX_AFC_BW v
  | None => fatal
  end.

(** ** LoRa spreading factor *)

Definition sx127x_set_lora_spreading_factor (sf : Z) : M unit :=
  sx127x_prepare_write ;;
  let sf := if sf <? 6 then 6 else if sf >? 12 then 12 else sf in
  (if sf =? 6 then
     sx127x_write_reg REG_LORA_DETECTION_OPTIMIZE 0xc5 ;;
     sx127x_write_reg REG_LORA_DETECTION_THRESHOLD 0x0c
   else
     sx127x_write_reg REG_LORA_DETECTION_OPTIMIZE 0xc3 ;;
     sx127x_write_reg REG_LORA_DETECTION_THRESHOLD 0x0a) ;;
  r <- sx127x_read_reg REG_LORA_MODEM_CONFIG_2 ;;
  sx127x_write_reg REG_LORA_MODEM_CONFIG_2
                   (Z.lor (Z.land r 0x0f) (Z.land (Z.shiftl sf 4) 0xf0)) ;;
  modify_state (fun s => with_lora s (with_lora_sf (lora s) sf)).

(** ** Specification-side definitions *)

(** The classification of the errata note, following the specification:
    high band iff 500 kHz and 862..1020 MHz, low band iff 500 kHz and
    410..525 MHz, none otherwise. *)
Inductive bw500_class : Set :=
| Bw500None
| Bw500HighBand
| Bw500LowBand.

Definition spec_bw500_class (bw : sx127x_lora_signal_bw_e) (freq : Z) : bw500_class :=
  if is_bw_500 bw && (862000000 <=? freq) && (freq <=? 1020000000)
  then Bw500HighBand
  else if is_bw_500 bw && (410000000 <=? freq) && (freq <=? 525000000)
  then Bw500LowBand
  else Bw500None.

Definition bw500_class_code (c : bw500_class) : Z :=
  match c with
  | Bw500None => SX127X_RX_SENSITIVITY_BW500_WORKAROUND_NONE
  | Bw500HighBand => SX127X_RX_SENSITIVITY_BW500_WORKAROUND_HIGH_BAND
  | Bw500LowBand => SX127X_RX_SENSITIVITY_BW500_WORKAROUND_LOW_BAND
  end.

Definition spec_bw500_writes (c : bw500_class) : list (Z * Z) :=
  match c with
  | Bw500None => [(0x36, 0x03)]
  | Bw500HighBand => [(0x36, 0x02); (0x3A, 0x64)]
  | Bw500LowBand => [(0x36, 0x02); (0x3A, 0x7F)]
  end.

(** The class a device's cached LoRa state falls into. *)
Definition device_bw500_class (d : device) : bw500_class :=
  spec_bw500_class (lora_signal_bw (lora (state d))) (lora_freq (lora (state d))).

(** ** Sample devices *)

Definition sample_state (om : sx127x_op_mode_e) (m : Z) (freq : Z)
           (bw : sx127x_lora_signal_bw_e) : sx127x_state :=
  mk_state m om false false 0 0 0 (mk_fsk freq 0 0) (mk_lora freq 0 0 bw 7 0).

Definition sample_device (s : sx127x_state) (r : Z -> Z) : device :=
  mk_device s r [] [] 0.

(** A LoRa-mode chip in standby, tuned to [freq], all registers zero. *)
Definition lora_device (freq : Z) : device :=
  sample_device (sample_state SX127X_OP_MODE_LORA 0x81 freq SX127X_LORA_SIGNAL_BW_500)
                (fun _ => 0).

(** An FSK-mode chip in sleep, tuned to [freq], all registers zero. *)
Definition fsk_device (freq : Z) : device :=
  sample_device (sample_state SX127X_OP_MODE_FSK 0x00 freq SX127X_LORA_SIGNAL_BW_500)
                (fun _ => 0).

(** ** The two halves of [sx127x_set_frequency]

    The function first retunes the synthesizer and then, in LoRa mode,
    refreshes the PPM correction and the errata registers.  The halves are
    named here so that each can be specified on its own;
    [set_frequency_blocks] shows that their sequence is the function. *)

Definition retune (frf : Z) : M unit :=
  sx127x_prepare_write ;;
  sx127x_write_reg REG_FRF_MSB (Z.shiftr frf 16) ;;
  sx127x_write_reg REG_FRF_MID (Z.shiftr frf 8) ;;
  sx127x_write_reg REG_FRF_LSB (Z.shiftr frf 0) ;;
  now <- time_micros_now ;;
  spin_until PLL_LOCK_FUEL (now + 50).

Definition tune_block (freq : Z) : M unit :=
  st <- get_state ;;
  frf <- match op_mode st with
         | SX127X_OP_MODE_FSK =>
             if negb (freq =? fsk_freq (fsk st)) then
               modify_state (fun s => with_fsk s (with_fsk_freq (fsk s) freq)) ;;
               ret (fsk_frf freq)
             else ret 0
         | SX127X_OP_MODE_LORA =>
             if negb (freq =? lora_freq (lora st)) then
               modify_state (fun s => with_lora s (with_lora_freq (lora s) freq)) ;;
               ret (lora_frf freq)
             else ret 0
         end ;;
  when (frf >? 0) (retune frf).

Definition ppm_block (lrintf_unspecified : spec_float -> Z) (freq error : Z) : M unit :=
  st <- get_state ;;
  when (is_lora (op_mode st))
       (let ppm_correction := ppm_correction_of lrintf_unspecified freq error in
        when (negb (ppm_correction =? lora_ppm_correction (lora st)))
             (sx127x_prepare_write ;;
              sx127x_write_reg REG_LORA_PPM_CORRECTION ppm_correction ;;
              modify_state
                (fun s => with_lora s
                            (with_lora_ppm_correction (lora s) ppm_correction))) ;;
        sx127x_apply_bw500_sensitivity_workaround).

(** The word selected by the active modulation scheme, and the cached
    frequency it is compared with. *)
Definition tuning_word (om : sx127x_op_mode_e) (freq : Z) : Z :=
  match om with
  | SX127X_OP_MODE_FSK => fsk_frf freq
  | SX127X_OP_MODE_LORA => lora_frf freq
  end.

Definition cached_freq (s : sx127x_state) : Z :=
  match op_mode s with
  | SX127X_OP_MODE_FSK => fsk_freq (fsk s)
  | SX127X_OP_MODE_LORA => lora_freq (lora s)
  end.

(** The three frequency-register writes for a tuning word. *)
Definition frf_writes (frf : Z) : list (Z * Z) :=
  [ (REG_FRF_MSB, Int.to_uint8 (Z.shiftr frf 16));
    (REG_FRF_MID, Int.to_uint8 (Z.shiftr frf 8));
    (REG_FRF_LSB, Int.to_uint8 (Z.shiftr frf 0)) ].

(** Writes that only touch the mode register. *)
Definition mode_writes (ws : list (Z * Z)) : Prop :=
  Forall (fun w => fst w = REG_OP_MODE) ws.

(** Writes that touch none of the three frequency registers. *)
Definition no_frf_writes (ws : list (Z * Z)) : Prop :=
  Forall (fun w => fst w <> REG_FRF_MSB /\ fst w <> REG_FRF_MID /\
                   fst w <> REG_FRF_LSB) ws.

(** The effective frequency, after the [unsigned long] subtraction. *)
Definition effective_freq (freq error : Z) : Z := Int.to_uint32 (freq - error).

(** ** Specification-side roundings *)

(** [round(0.95 * error / (freq / 1000000))] over the rationals, that is the
    nearest integer of [950000 * error / freq], halves rounded up; [freq] is
    positive. *)
Definition spec_ppm_exact (freq error : Z) : Z :=
  (2 * 950000 * error + freq) / (2 * freq).

Definition spec_clamp_int8 (x : Z) : Z := Z.max (-128) (Z.min 127 x).

(** [round(freq / 61.03515625)], the nearest integer of [freq * 256 / 15625]
    (15625 is odd, so there are no halves). *)
Definition spec_fsk_word_rounded (freq : Z) : Z :=
  (2 * freq * 256 + 15625) / (2 * 15625).

(** The value [lrintf] is given in the sample runs where C leaves it
    unspecified (never reached there). *)
Definition lrintf_zero : spec_float -> Z := fun _ => 0.

(** A LoRa-mode chip tuned to 868 MHz whose last packet was received with
    SNR byte 0 and packet-RSSI byte 100. *)
Definition lora_device_rssi_100 : device :=
  sample_device (sample_state SX127X_OP_MODE_LORA 0x81 868000000 SX127X_LORA_SIGNAL_BW_500)
                (fun a => if a =? REG_LORA_PKT_RSSI_VALUE then 100 else 0).

(** The writes a call leaves in the log, when it returns. *)
Definition writes_of (c : M unit) (d : device) : option (list (Z * Z)) :=
  option_map spi_writes (exec c d).

(** ** Predicates used in the statements *)

(** Everything of the driver state except the power-mode cache. *)
Definition same_config (s s' : sx127x_state) : Prop :=
  op_mode s' = op_mode s /\ rx_done s' = rx_done s /\ tx_done s' = tx_done s /\
  dio0_trigger s' = dio0_trigger s /\ callback s' = callback s /\
  callback_data s' = callback_data s /\ fsk s' = fsk s /\ lora s' = lora s.

(** A step that may only rewrite the mode register. *)
Definition mode_step (d d' : device) : Prop :=
  same_config (state d) (state d') /\
  fifo d' = fifo d /\ clock d' = clock d /\
  (forall a, a <> REG_OP_MODE -> regs d' a = regs d a) /\
  (d' = d \/
   spi_writes d' = spi_writes d ++ [(REG_OP_MODE, mode (state d'))]).

(** Writes to the two errata registers only. *)
Definition errata_writes (ws : list (Z * Z)) : Prop :=
  Forall (fun w => fst w = REG_LORA_DETECTION_BW500_OPTIMIZE_1 \/
                   fst w = REG_LORA_DETECTION_BW500_OPTIMIZE_2) ws.

(** What the retuning half does. *)
Record tune_post (f : Z) (d d1 : device) : Prop := {
  tune_op_mode : op_mode (state d1) = op_mode (state d);
  tune_fsk :
    fsk (state d1) =
    if is_lora (op_mode (state d)) then fsk (state d)
    else with_fsk_freq (fsk (state d)) f;
  tune_lora :
    lora (state d1) =
    if is_lora (op_mode (state d)) then with_lora_freq (lora (state d)) f
    else lora (state d);
  tune_unchanged : f = cached_freq (state d) -> d1 = d;
  tune_silent :
    tuning_word (op_mode (state d)) f <= 0 -> spi_writes d1 = spi_writes d;
  tune_writes :
    f <> cached_freq (state d) -> 0 < tuning_word (op_mode (state d)) f ->
    exists pre,
      mode_writes pre /\
      spi_writes d1 =
      spi_writes d ++ pre ++ frf_writes (tuning_word (op_mode (state d)) f)
}.

(** What the LoRa half does with the PPM correction [p] it computes. *)
Record ppm_post (p : Z) (d d2 : device) : Prop := {
  ppm_op_mode : op_mode (state d2) = op_mode (state d);
  ppm_fsk : fsk (state d2) = fsk (state d);
  ppm_fsk_mode : op_mode (state d) = SX127X_OP_MODE_FSK -> d2 = d;
  ppm_lora :
    op_mode (state d) = SX127X_OP_MODE_LORA ->
    lora (state d2) =
      with_lora_bw_workaround (with_lora_ppm_correction (lora (state d)) p)
        (bw500_class_code (device_bw500_class d));
  ppm_unchanged :
    op_mode (state d) = SX127X_OP_MODE_LORA ->
    p = lora_ppm_correction (lora (state d)) ->
    bw500_class_code (device_bw500_class d) = lora_bw_workaround (lora (state d)) ->
    d2 = d;
  ppm_writes :
    exists ws,
      spi_writes d2 = spi_writes d ++ ws /\ no_frf_writes ws /\
      (op_mode (state d) = SX127X_OP_MODE_LORA ->
       p <> lora_ppm_correction (lora (state d)) ->
       In (REG_LORA_PPM_CORRECTION, Int.to_uint8 p) ws) /\
      (p = lora_ppm_correction (lora (state d)) ->
       Forall (fun w => fst w <> REG_LORA_PPM_CORRECTION) ws)
}.


(** ** Real values of floating-point numbers *)

(** The magnitude [m * 2^e] and the value of a finite number. *)
Definition mag (m : positive) (e : Z) : R :=
  (IZR (Zpos m) * powerRZ 2 e)%R.

Definition B2R (x : spec_float) : R :=
  match x with
  | S754_finite s m e => if s then (- mag m e)%R else mag m e
  | _ => 0%R
  end.

(** A normal binary32 number: 24-digit mantissa, exponent in range. *)
Definition normal32 (m : positive) (e : Z) (lo hi : Z) : Prop :=
  2 ^ 23 <= Zpos m < 2 ^ 24 /\ lo <= e <= hi.

(** [x] approximates [y] with relative error at most [eps]. *)
Definition rel_close (eps x y : R) : Prop :=
  (Rabs (x - y) <= eps * y)%R.

(** The unit roundoffs used below: 2^-23 and 2^-22. *)
Definition u23 : R := (/ 8388608)%R.
Definition u22 : R := (/ 4194304)%R.

(** * The rest of the driver

    The remaining functions of sx127x.c, over the same device model. *)

(** ** Further registers and constants *)

Definition REG_PA_CONFIG : Z := 0x09.
Definition REG_LNA : Z := 0x0c.
Definition REG_DIO_MAPPING_1 : Z := 0x40.
Definition REG_DIO_MAPPING_2 : Z := 0x41.
Definition REG_VERSION : Z := 0x42.
Definition REG_PA_DAC : Z := 0x4d.

Definition REG_FSK_BITRATE_MSB : Z := 0x02.
Definition REG_FSK_BITRATE_LSB : Z := 0x03.
Definition REG_FSK_FDEV_MSB : Z := 0x04.
Definition REG_FSK_FDEV_LSB : Z := 0x05.
Definition REG_FSK_RX_CONFIG : Z := 0x0d.
Definition REG_FSK_RSSI_THRES : Z := 0x10.
Definition REG_FSK_PREAMBLE_DETECT : Z := 0x1f.
Definition REG_FSK_PREAMBLE_MSB : Z := 0x25.
Definition REG_FSK_PREAMBLE_LSB : Z := 0x26.
Definition REG_FSK_SYNC_CONFIG : Z := 0x27.
Definition REG_FSK_SYNC_VALUE_1 : Z := 0x28.
Definition REG_FSK_SYNC_VALUE_2 : Z := 0x29.
Definition REG_FSK_SYNC_VALUE_3 : Z := 0x2a.
Definition REG_FSK_SYNC_VALUE_4 : Z := 0x2b.
Definition REG_FSK_PACKET_CONFIG_1 : Z := 0x30.
Definition REG_FSK_PAYLOAD_LENGTH : Z := 0x32.
Definition REG_FSK_FIFO_THRESH : Z := 0x35.
Definition REG_FSK_IRQ_FLAGS_1 : Z := 0x3e.

Definition REG_LORA_FIFO_TX_BASE_ADDR : Z := 0x0e.
Definition REG_LORA_FIFO_RX_BASE_ADDR : Z := 0x0f.
Definition REG_LORA_MODEM_CONFIG_1 : Z := 0x1d.
Definition REG_LORA_PREAMBLE_MSB : Z := 0x20.
Definition REG_LORA_PREAMBLE_LSB : Z := 0x21.
Definition REG_LORA_PAYLOAD_LENGTH : Z := 0x22.
Definition REG_LORA_MODEM_CONFIG_3 : Z := 0x26.
Definition REG_LORA_FEI_MSB : Z := 0x28.
Definition REG_LORA_FEI_MID : Z := 0x29.
Definition REG_LORA_FEI_LSB : Z := 0x2A.
Definition REG_LORA_SYNC_WORD : Z := 0x39.

Definition PA_BOOST : Z := 0x80.

Definition IRQ_FSK_MODE_READY : Z := Z.shiftl 1 7.
Definition IRQ_TX_DONE_MASK : Z := 0x08.

Definition DIO0_BIT_OFFSET : Z := 6.
Definition DIO0_LORA_RX_DONE : Z := Z.shiftl 0 DIO0_BIT_OFFSET.
Definition DIO0_LORA_TX_DONE : Z := Z.shiftl 1 DIO0_BIT_OFFSET.
Definition DIO0_LORA_NONE : Z := Z.shiftl 3 DIO0_BIT_OFFSET.
Definition DIO0_FSK_PAYLOAD_READY : Z := Z.shiftl 0 DIO0_BIT_OFFSET.
Definition DIO0_FSK_PACKET_SENT : Z := DIO0_FSK_PAYLOAD_READY.
Definition DIO0_FSK_NONE : Z := Z.shiftl 2 DIO0_BIT_OFFSET.

Definition TX_FIFO_ADDR : Z := 0x80.
Definition SX127X_EXPECTED_VERSION : Z := 18.

(** Conversions to [uint16_t] and [int32_t]. *)
Definition to_uint16 (x : Z) : Z := x mod 65536.
Definition to_int32 (x : Z) : Z :=
  let w := x mod 2 ^ 32 in if w <? 2 ^ 31 then w else w - 2 ^ 32.

(** ** Further field updates *)

Definition with_op_mode (s : sx127x_state) (om : sx127x_op_mode_e) : sx127x_state :=
  mk_state (mode s) om (rx_done s) (tx_done s) (dio0_trigger s)
           (callback s) (callback_data s) (fsk s) (lora s).

Definition with_tx_done (s : sx127x_state) (b : bool) : sx127x_state :=
  mk_state (mode s) (op_mode s) (rx_done s) b (dio0_trigger s)
           (callback s) (callback_data s) (fsk s) (lora s).

Definition with_dio0_trigger (s : sx127x_state) (t : Z) : sx127x_state :=
  mk_state (mode s) (op_mode s) (rx_done s) (tx_done s) t
           (callback s) (callback_data s) (fsk s) (lora s).

Definition with_callback (s : sx127x_state) (cb data : Z) : sx127x_state :=
  mk_state (mode s) (op_mode s) (rx_done s) (tx_done s) (dio0_trigger s)
           cb data (fsk s) (lora s).

Definition with_fsk_payload_length (f : fsk_state) (v : Z) : fsk_state :=
  mk_fsk (fsk_freq f) v (fsk_rx_bandwidth f).

Definition with_lora_payload_length (l : lora_state) (v : Z) : lora_state :=
  mk_lora (lora_freq l) (lora_ppm_correction l) v
          (lora_signal_bw l) (lora_sf l) (lora_bw_workaround l).

Definition with_lora_signal_bw (l : lora_state) (v : sx127x_lora_signal_bw_e) : lora_state :=
  mk_lora (lora_freq l) (lora_ppm_correction l) (lora_payload_length l)
          v (lora_sf l) (lora_bw_workaround l).

Definition op_mode_eqb (a b : sx127x_op_mode_e) : bool :=
  match a, b with
  | SX127X_OP_MODE_FSK, SX127X_OP_MODE_FSK => true
  | SX127X_OP_MODE_LORA, SX127X_OP_MODE_LORA => true
  | _, _ => false
  end.

(** ** SPI burst write to the data buffer

    One transaction addressed to [REG_FIFO]: the chip does not advance the
    address on that register, so every byte of the payload is a write to it. *)
Definition spi_write_fifo (bytes : list Z) : M unit :=
  fun d =>
    Some (tt, mk_device (state d) (regs d) (fifo d)
                        (spi_writes d ++
                         map (fun b => (REG_FIFO, Int.to_uint8 b)) bytes)
                        (clock d)).

(** ** Interrupt line and FSK set-up *)

Definition sx127x_disable_dio0 : M unit :=
  modify_state (fun s => with_dio0_trigger s 0) ;;
  st <- get_state ;;
  let reg := match op_mode st with
             | SX127X_OP_MODE_FSK => DIO0_FSK_NONE
             | SX127X_OP_MODE_LORA => DIO0_LORA_NONE
             end in
  sx127x_write_reg REG_DIO_MAPPING_1 reg.

Definition sx127x_set_fsk_parameters : M unit :=
  sx127x_write_reg REG_FSK_RX_CONFIG (Z.lor 0x08 0x06) ;;
  sx127x_write_reg REG_FSK_PREAMBLE_DETECT
                   (Z.lor (Z.lor (Z.shiftl 1 7) (Z.shiftl 1 5)) 10) ;;
  sx127x_write_reg REG_FSK_RSSI_THRES 0xFF ;;
  sx127x_write_reg REG_FSK_SYNC_CONFIG
                   (Z.lor (Z.lor (Z.lor (Z.shiftl 2 5) (Z.shiftl 0 5)) (Z.shiftl 1 4))
                          0x03) ;;
  sx127x_write_reg REG_FSK_SYNC_VALUE_1 0x69 ;;
  sx127x_write_reg REG_FSK_SYNC_VALUE_2 0x81 ;;
  sx127x_write_reg REG_FSK_SYNC_VALUE_3 0x7E ;;
  sx127x_write_reg REG_FSK_SYNC_VALUE_4 0x96 ;;
  sx127x_write_reg REG_FSK_PACKET_CONFIG_1 (Z.shiftl 1 5).

(** The polling loop
    [while (sx127x_read_reg(REG_FSK_IRQ_FLAGS_1) & ~IRQ_FSK_MODE_READY) { }].
    In this chip model only writes change the register file, so a poll that
    does not succeed at once uses up its fuel. *)
Fixpoint sx127x_fsk_wait_for_mode_ready_loop (fuel : nat) : M unit :=
  match fuel with
  | O => fatal
  | S fuel' =>
      v <- sx127x_read_reg REG_FSK_IRQ_FLAGS_1 ;;
      if negb (Z.land (Int.to_uint8 v) (Z.lnot IRQ_FSK_MODE_READY) =? 0)
      then sx127x_fsk_wait_for_mode_ready_loop fuel'
      else ret tt
  end.

Definition MODE_READY_FUEL : nat := 64.

Definition sx127x_fsk_wait_for_mode_ready : M unit :=
  sx127x_fsk_wait_for_mode_ready_loop MODE_READY_FUEL.

(** ** Modulation scheme *)

Definition sx127x_set_op_mode (om : sx127x_op_mode_e) : M unit :=
  st <- get_state ;;
  when (negb (op_mode_eqb (op_mode st) om))
       (sx127x_set_mode (Z.lor (Z.land (mode st) MODE_LORA) MODE_SLEEP) ;;
        match om with
        | SX127X_OP_MODE_FSK =>
            sx127x_set_mode MODE_SLEEP ;;
            sx127x_set_fsk_parameters
        | SX127X_OP_MODE_LORA =>
            sx127x_set_mode (Z.lor MODE_LORA MODE_SLEEP)
        end ;;
        modify_state (fun s => with_op_mode s om)).

(** ** Output power *)

(** [sx127x->output_type] is a field of the driver instance outside
    [sx127x->state]; it is never written by the driver and is passed to the
    functions that read it.  The third constructor stands for any value that
    is none of the two enumerators (the [default] arm of the switch). *)
Inductive sx127x_output_type_e : Set :=
| SX127X_OUTPUT_RFO
| SX127X_OUTPUT_PA_BOOST
| SX127X_OUTPUT_other.

Definition sx127x_set_tx_power (output_type : sx127x_output_type_e) (level : Z)
  : M unit :=
  sx127x_prepare_write ;;
  r <- match output_type with
       | SX127X_OUTPUT_RFO =>
           let level := if level <? 0 then 0
                        else if level >? 14 then 14 else level in
           ret (Z.lor 0x70 level, 0x84)
       | SX127X_OUTPUT_PA_BOOST =>
           let '(level, pa_dac) :=
             if level <? 2 then (2, 0x84)
             else if level >? 17 then (17, 0x87) else (level, 0x84) in
           ret (Z.lor PA_BOOST (level - 2), pa_dac)
       | SX127X_OUTPUT_other => fatal
       end ;;
  let '(pa_config, pa_dac) := r in
  sx127x_write_reg REG_PA_CONFIG pa_config ;;
  sx127x_write_reg REG_PA_DAC pa_dac.

(** ** Completion flags, callback and the interrupt task *)

Definition sx127x_is_tx_done : M bool :=
  st <- get_state ;; ret (tx_done st).

Definition sx127x_set_callback (cb data : Z) : M unit :=
  modify_state (fun s => with_callback s cb data).

Inductive air_radio_callback_reason_e : Set :=
| AIR_RADIO_CALLBACK_REASON_RX_DONE
| AIR_RADIO_CALLBACK_REASON_TX_DONE.

Section CallbackTask.

(** Calling the registered function pointer with the radio, the reason and
    the user data: the callee is user code. *)
Variable call_callback : Z -> air_radio_callback_reason_e -> Z -> M unit.

(** One turn of the task's endless loop, from the notification given by the
    interrupt handler on. *)
Definition sx127x_callback_task : M unit :=
  st <- get_state ;;
  if dio0_trigger st =? DIO0_TRIGGER_RX_DONE then
    modify_state (fun s => with_rx_done s true) ;;
    st <- get_state ;;
    when (negb (callback st =? 0))
         (call_callback (callback st) AIR_RADIO_CALLBACK_REASON_RX_DONE
                        (callback_data st))
  else if dio0_trigger st =? DIO0_TRIGGER_TX_DONE then
    modify_state (fun s => with_tx_done s true) ;;
    st <- get_state ;;
    when (negb (callback st =? 0))
         (call_callback (callback st) AIR_RADIO_CALLBACK_REASON_TX_DONE
                        (callback_data st))
  else ret tt.

End CallbackTask.

(** ** TX/RX pipeline: payload size, [sx127x_send], continuous receive *)

Section Transmit.

(** The codec of util/fec.h again: the size macro, and the encoder, which
    yields the content of the output buffer and the count it returns. *)
Variable FEC_ENCODED_SIZE : Z -> Z.
Variable fec_encode : list Z -> Z -> Z -> list Z * Z.

(** The parameter is a [uint8_t]. *)
Definition sx127x_set_payload_size (size : Z) : M unit :=
  let size := Int.to_uint8 size in
  st <- get_state ;;
  match op_mode st with
  | SX127X_OP_MODE_FSK =>
      let size := Int.to_uint8 (FEC_ENCODED_SIZE size) in
      when (negb (fsk_payload_length (fsk st) =? size))
           (sx127x_prepare_write ;;
            sx127x_write_reg REG_FSK_PAYLOAD_LENGTH size ;;
            modify_state
              (fun s => with_fsk s (with_fsk_payload_length (fsk s) size)))
  | SX127X_OP_MODE_LORA =>
      when (negb (lora_payload_length (lora st) =? size))
           (sx127x_prepare_write ;;
            sx127x_write_reg REG_LORA_PAYLOAD_LENGTH size ;;
            modify_state
              (fun s => with_lora s (with_lora_payload_length (lora s) size)))
  end.

(** [buf] holds the caller's bytes, of which the first [size] are sent. *)
Definition sx127x_send (buf : list Z) (size : Z) : M unit :=
  st <- get_state ;;
  ptr <- match op_mode st with
         | SX127X_OP_MODE_FSK =>
             sx127x_sleep ;;
             let '(data, ptr_size) := fec_encode buf size (FEC_ENCODED_SIZE size) in
             sx127x_fsk_wait_for_mode_ready ;;
             ret (firstn (Z.to_nat ptr_size) data)
         | SX127X_OP_MODE_LORA =>
             sx127x_idle ;;
             sx127x_write_reg REG_LORA_FIFO_ADDR_PTR TX_FIFO_ADDR ;;
             ret (firstn (Z.to_nat size) buf)
         end ;;
  spi_write_fifo ptr ;;
  sx127x_set_payload_size size ;;
  modify_state (fun s => with_dio0_trigger (with_tx_done s false)
                                           DIO0_TRIGGER_TX_DONE) ;;
  st <- get_state ;;
  match op_mode st with
  | SX127X_OP_MODE_FSK =>
      sx127x_write_reg REG_DIO_MAPPING_1 DIO0_FSK_PACKET_SENT ;;
      sx127x_write_reg REG_FSK_FIFO_THRESH (Z.shiftl 1 7) ;;
      sx127x_set_mode MODE_TX
  | SX127X_OP_MODE_LORA =>
      sx127x_write_reg REG_LORA_IRQ_FLAGS IRQ_TX_DONE_MASK ;;
      sx127x_write_reg REG_DIO_MAPPING_1 DIO0_LORA_TX_DONE ;;
      sx127x_set_mode (Z.lor MODE_LORA MODE_TX)
  end.

End Transmit.

Definition sx127x_enable_continous_rx : M unit :=
  modify_state (fun s => with_dio0_trigger (with_rx_done s false)
                                           DIO0_TRIGGER_RX_DONE) ;;
  st <- get_state ;;
  match op_mode st with
  | SX127X_OP_MODE_FSK =>
      sx127x_idle ;;
      sx127x_fsk_wait_for_mode_ready ;;
      sx127x_write_reg REG_DIO_MAPPING_1 DIO0_FSK_PAYLOAD_READY ;;
      sx127x_set_mode MODE_RX_CONTINUOUS ;;
      st <- get_state ;;
      sx127x_write_reg REG_FSK_FIFO_THRESH
                       (Z.lor (Z.shiftl 1 7) (fsk_payload_length (fsk st)))
  | SX127X_OP_MODE_LORA =>
      sx127x_prepare_write ;;
      sx127x_write_reg REG_DIO_MAPPING_1 DIO0_LORA_RX_DONE ;;
      sx127x_set_mode (Z.lor MODE_LORA MODE_RX_CONTINUOUS)
  end.

(** ** Bring-up

    [sx127x_init], from the reset pulse on: the GPIO, SPI-bus and task set-up
    calls act on nothing this model holds.  [dio5_clk_output] is the build
    option [CONFIG_RAVEN_DIO5_CLK_OUTPUT]. *)
Definition sx127x_init (output_type : sx127x_output_type_e)
           (dio5_clk_output : bool) : M unit :=
  modify_state (fun s => with_rx_done (with_tx_done s false) false) ;;
  modify_state (fun s => with_fsk s (with_fsk_freq (fsk s) 0)) ;;
  modify_state (fun s => with_lora s (with_lora_freq (lora s) 0)) ;;
  modify_state (fun s => with_lora s (with_lora_ppm_correction (lora s) 0)) ;;
  version <- sx127x_read_reg REG_VERSION ;;
  (if Int.to_uint8 version =? SX127X_EXPECTED_VERSION then ret tt else fatal) ;;
  m <- sx127x_read_reg REG_OP_MODE ;;
  modify_state (fun s => with_mode s (Int.to_uint8 m)) ;;
  st <- get_state ;;
  modify_state
    (fun s => with_op_mode s (if negb (Z.land (mode st) MODE_LORA =? 0)
                              then SX127X_OP_MODE_LORA else SX127X_OP_MODE_FSK)) ;;
  modify_state
    (fun s => with_fsk s (with_fsk_payload_length (fsk s) 0)) ;;
  modify_state
    (fun s => with_lora s (with_lora_payload_length (lora s) 0)) ;;
  modify_state (fun s => with_callback s 0 (callback_data s)) ;;
  sx127x_sleep ;;
  sx127x_write_reg REG_LORA_FIFO_TX_BASE_ADDR TX_FIFO_ADDR ;;
  sx127x_write_reg REG_LORA_FIFO_RX_BASE_ADDR RX_FIFO_ADDR ;;
  lna <- sx127x_read_reg REG_LNA ;;
  sx127x_write_reg REG_LNA (Z.lor lna 0x03) ;;
  sx127x_write_reg REG_LORA_MODEM_CONFIG_3 0x04 ;;
  when dio5_clk_output
       (dio_mapping_2 <- sx127x_read_reg REG_DIO_MAPPING_2 ;;
        sx127x_write_reg REG_DIO_MAPPING_2 (Z.lor dio_mapping_2 (Z.shiftl 1 5))) ;;
  sx127x_set_tx_power output_type 17 ;;
  sx127x_idle ;;
  sx127x_disable_dio0.

(** [sx127x_shutdown]; driving the reset line is outside the model. *)
Definition sx127x_shutdown : M unit := sx127x_idle.

(** ** Frequency error indicator *)

Definition sx127x_get_lora_signal_bw_khz (sbw : sx127x_lora_signal_bw_e)
  : spec_float :=
  let f32 := Float.binary32 in
  match sbw with
  | SX127X_LORA_SIGNAL_BW_7_8 => Float.literal f32 78 10
  | SX127X_LORA_SIGNAL_BW_10_4 => Float.literal f32 104 10
  | SX127X_LORA_SIGNAL_BW_15_6 => Float.literal f32 156 10
  | SX127X_LORA_SIGNAL_BW_20_8 => Float.literal f32 208 10
  | SX127X_LORA_SIGNAL_BW_31_25 => Float.literal f32 3125 100
  | SX127X_LORA_SIGNAL_BW_41_7 => Float.literal f32 4127 100
  | SX127X_LORA_SIGNAL_BW_62_5 => Float.literal f32 625 10
  | SX127X_LORA_SIGNAL_BW_250 => Float.of_Z f32 250
  | SX127X_LORA_SIGNAL_BW_500 => Float.of_Z f32 500
  end.

(** The 24 bits read from the three indicator registers, with the code's
    extension of a 20-bit two's complement value to [int32_t]. *)
Definition lora_fei_value (b0 b1 b2 : Z) : Z :=
  let err := Z.lor (Z.lor (Z.shiftl (Int.to_uint8 b0) 16)
                          (Z.shiftl (Int.to_uint8 b1) 8))
                   (Int.to_uint8 b2) in
  if negb (Z.land err 0x80000 =? 0)
  then to_int32 (Z.lor err 0xfff00000)
  else err.

(** [err * bw * ((float)(1L << 24) / (float)SX127X_FXOSC / 500.0)]: the first
    product and the first quotient are single precision, the division by the
    double literal and the last product are double precision (a [float]
    operand is a [double] of the same value), and the result is converted to
    [int]. *)
Definition lora_fei_hz (err : Z) (bw : spec_float) : Z :=
  let f32 := Float.binary32 in
  let f64 := Float.binary64 in
  float_to_int
    (Float.mul f64
       (Float.mul f32 (Float.of_Z f32 err) bw)
       (Float.div f64
          (Float.div f32 (Float.of_Z f32 (Z.shiftl 1 24))
                         (Float.of_Z f32 SX127X_FXOSC))
          (Float.literal f64 500 1))).

Definition sx127x_frequency_error : M Z :=
  st <- get_state ;;
  match op_mode st with
  | SX127X_OP_MODE_FSK => ret 0
  | SX127X_OP_MODE_LORA =>
      b0 <- sx127x_read_reg REG_LORA_FEI_MSB ;;
      b1 <- sx127x_read_reg REG_LORA_FEI_MID ;;
      b2 <- sx127x_read_reg REG_LORA_FEI_LSB ;;
      let err := lora_fei_value b0 b1 b2 in
      let bw := sx127x_get_lora_signal_bw_khz (lora_signal_bw (lora st)) in
      ret (lora_fei_hz err bw)
  end.

(** ** FSK deviation, bit rate and preamble *)

(** Conversion of a [double] to [float], round to nearest, ties to even. *)
Definition double_to_float (x : spec_float) : spec_float :=
  match x with
  | S754_finite s m e =>
      binary_normalize 24 128 (if s then Zneg m else Zpos m) e s
  | _ => x
  end.

Section FskRates.

Variable lrintf_unspecified : spec_float -> Z.

(** [uint16_t dev = lrintf(hz / SX127X_FSK_FREQ_STEP)]: a double quotient,
    converted to the [float] that [lrintf] takes. *)
Definition fsk_fdev_value (hz : Z) : Z :=
  to_uint16
    (lrintf lrintf_unspecified
       (double_to_float
          (Float.div Float.binary64 (Float.of_Z Float.binary64 hz)
                     SX127X_FSK_FREQ_STEP))).

Definition sx127x_set_fsk_fdev (hz : Z) : M unit :=
  sx127x_prepare_write ;;
  let dev := fsk_fdev_value hz in
  sx127x_write_reg REG_FSK_FDEV_MSB (Z.shiftr dev 8) ;;
  sx127x_write_reg REG_FSK_FDEV_LSB (Z.land dev 0xff).

(** [uint16_t br = lrintf((float)SX127X_FXOSC / bps)]. *)
Definition fsk_bitrate_value (bps : Z) : Z :=
  to_uint16
    (lrintf lrintf_unspecified
       (Float.div Float.binary32 (Float.of_Z Float.binary32 SX127X_FXOSC)
                  (Float.of_Z Float.binary32 bps))).

Definition sx127x_set_fsk_bitrate (bps : Z) : M unit :=
  sx127x_prepare_write ;;
  let br := fsk_bitrate_value bps in
  sx127x_write_reg REG_FSK_BITRATE_MSB (Z.shiftr br 8) ;;
  sx127x_write_reg REG_FSK_BITRATE_LSB (Z.land br 0xff).

End FskRates.

Definition sx127x_set_fsk_preamble_length (length : Z) : M unit :=
  sx127x_prepare_write ;;
  let len := to_uint16 length in
  sx127x_write_reg REG_FSK_PREAMBLE_MSB (Z.shiftr len 8) ;;
  sx127x_write_reg REG_FSK_PREAMBLE_LSB (Z.land len 0xff).

(** ** LoRa modem configuration *)

Section LoraEnums.

(** The integer values of the enumerators of sx127x.h (the header is not
    among the translated files). *)
Variable lora_signal_bw_value : sx127x_lora_signal_bw_e -> Z.
Variable SX127X_LORA_CODING_RATE_4_5 : Z.
Variable SX127X_LORA_CODING_RATE_4_8 : Z.

Definition sx127x_set_lora_signal_bw (sbw : sx127x_lora_signal_bw_e) : M unit :=
  sx127x_prepare_write ;;
  let sbw :=
    if lora_signal_bw_value sbw <? lora_signal_bw_value SX127X_LORA_SIGNAL_BW_7_8
    then SX127X_LORA_SIGNAL_BW_7_8
    else if lora_signal_bw_value sbw >? lora_signal_bw_value SX127X_LORA_SIGNAL_BW_500
    then SX127X_LORA_SIGNAL_BW_500
    else sbw in
  reg <- sx127x_read_reg REG_LORA_MODEM_CONFIG_1 ;;
  let reg := Int.to_uint8 (Z.lor (Z.land (Int.to_uint8 reg) 0x0f)
                                 (Z.shiftl (lora_signal_bw_value sbw) 4)) in
  sx127x_write_reg REG_LORA_MODEM_CONFIG_1 reg ;;
  modify_state (fun s => with_lora s (with_lora_signal_bw (lora s) sbw)) ;;
  sx127x_apply_bw500_sensitivity_workaround.

(** The rate is passed by its integer value. *)
Definition sx127x_set_lora_coding_rate (rate : Z) : M unit :=
  sx127x_prepare_write ;;
  let rate :=
    if rate <? SX127X_LORA_CODING_RATE_4_5 then SX127X_LORA_CODING_RATE_4_5
    else if rate >? SX127X_LORA_CODING_RATE_4_8 then SX127X_LORA_CODING_RATE_4_8
    else rate in
  reg <- sx127x_read_reg REG_LORA_MODEM_CONFIG_1 ;;
  let reg := Int.to_uint8 (Z.lor (Z.land (Int.to_uint8 reg) 0xf1)
                                 (Z.shiftl rate 1)) in
  sx127x_write_reg REG_LORA_MODEM_CONFIG_1 reg.

End LoraEnums.

Definition sx127x_set_lora_preamble_length (length : Z) : M unit :=
  sx127x_prepare_write ;;
  sx127x_write_reg REG_LORA_PREAMBLE_MSB (Z.shiftr length 8) ;;
  sx127x_write_reg REG_LORA_PREAMBLE_LSB (Z.shiftr length 0).

Definition sx127x_set_lora_crc (crc : bool) : M unit :=
  sx127x_prepare_write ;;
  reg <- sx127x_read_reg REG_LORA_MODEM_CONFIG_2 ;;
  let reg := Int.to_uint8 reg in
  let reg := if crc then Z.lor reg 0x04 else Z.land reg 0xfb in
  sx127x_write_reg REG_LORA_MODEM_CONFIG_2 reg.

Inductive sx127x_lora_header_e : Set :=
| SX127X_LORA_HEADER_IMPLICIT
| SX127X_LORA_HEADER_EXPLICIT.

Definition sx127x_set_lora_header_mode (hm : sx127x_lora_header_e) : M unit :=
  reg <- sx127x_read_reg REG_LORA_MODEM_CONFIG_1 ;;
  let reg := Int.to_uint8 reg in
  let reg := match hm with
             | SX127X_LORA_HEADER_IMPLICIT => Z.lor reg 0x01
             | SX127X_LORA_HEADER_EXPLICIT => Z.land reg 0xfe
             end in
  sx127x_write_reg REG_LORA_MODEM_CONFIG_1 reg.

(** The parameter is a [uint8_t]. *)
Definition sx127x_set_lora_sync_word (sw : Z) : M unit :=
  let sw := Int.to_uint8 sw in
  let sw := if sw =? 0 then 1 else if sw =? 0x34 then 0x35 else sw in
  sx127x_write_reg REG_LORA_SYNC_WORD sw.

(** ** Specification-side definitions for the rest of the driver *)

(** The nine register writes of [sx127x_set_fsk_parameters], as bytes. *)
Definition fsk_parameter_writes : list (Z * Z) :=
  [ (REG_FSK_RX_CONFIG, 0x0E); (REG_FSK_PREAMBLE_DETECT, 0xAA);
    (REG_FSK_RSSI_THRES, 0xFF); (REG_FSK_SYNC_CONFIG, 0x53);
    (REG_FSK_SYNC_VALUE_1, 0x69); (REG_FSK_SYNC_VALUE_2, 0x81);
    (REG_FSK_SYNC_VALUE_3, 0x7E); (REG_FSK_SYNC_VALUE_4, 0x96);
    (REG_FSK_PACKET_CONFIG_1, 0x20) ].

(** A write of the mode register, left out when the cache already holds the
    value. *)
Definition mode_write_unless_cached (cached m : Z) : list (Z * Z) :=
  if cached =? m then [] else [(REG_OP_MODE, m)].

(** The sleep mode of a modulation scheme. *)
Definition sleep_mode_of (om : sx127x_op_mode_e) : Z :=
  match om with
  | SX127X_OP_MODE_FSK => MODE_SLEEP
  | SX127X_OP_MODE_LORA => Z.lor MODE_LORA MODE_SLEEP
  end.

(** The payload length the chip is given for a packet of [size] bytes. *)
Definition wire_payload_length (FEC_ENCODED_SIZE : Z -> Z)
           (om : sx127x_op_mode_e) (size : Z) : Z :=
  match om with
  | SX127X_OP_MODE_FSK => Int.to_uint8 (FEC_ENCODED_SIZE (Int.to_uint8 size))
  | SX127X_OP_MODE_LORA => Int.to_uint8 size
  end.

Definition cached_payload_length (s : sx127x_state) : Z :=
  match op_mode s with
  | SX127X_OP_MODE_FSK => fsk_payload_length (fsk s)
  | SX127X_OP_MODE_LORA => lora_payload_length (lora s)
  end.

Definition payload_length_reg (om : sx127x_op_mode_e) : Z :=
  match om with
  | SX127X_OP_MODE_FSK => REG_FSK_PAYLOAD_LENGTH
  | SX127X_OP_MODE_LORA => REG_LORA_PAYLOAD_LENGTH
  end.

(** The device after [sx127x_set_mode] was asked for the mode byte [m]. *)
Definition in_mode (m : Z) (d : device) : device :=
  if mode (state d) =? m then d
  else mk_device (with_mode (state d) m)
                 (fun a => if a =? REG_OP_MODE then m else regs d a)
                 (fifo d)
                 (spi_writes d ++ [(REG_OP_MODE, m)])
                 (clock d).

(** The modes in which the chip's registers can be written, as the write
    gate tests them in LoRa mode. *)
Definition writable_mode (m : Z) : bool :=
  let m := Int.to_uint8 (Z.land m (Z.lnot MODE_LORA)) in
  (m =? MODE_SLEEP) || (m =? MODE_STDBY).

(** The device after the write gate. *)
Definition write_gate (d : device) : device :=
  match op_mode (state d) with
  | SX127X_OP_MODE_FSK => in_mode (Z.land (mode (state d)) MODE_LORA) d
  | SX127X_OP_MODE_LORA =>
      if writable_mode (mode (state d)) then d
      else in_mode (Z.land (mode (state d)) MODE_LORA + 1) d
  end.

(** The device after [sx127x_set_payload_size] for a packet of [size]
    bytes. *)
Definition payload_length_set (FEC_ENCODED_SIZE : Z -> Z) (size : Z) (d : device)
  : device :=
  let n := wire_payload_length FEC_ENCODED_SIZE (op_mode (state d)) size in
  if cached_payload_length (state d) =? n then d
  else
    let d0 := write_gate d in
    mk_device
      (match op_mode (state d) with
       | SX127X_OP_MODE_FSK =>
           with_fsk (state d0) (with_fsk_payload_length (fsk (state d0)) n)
       | SX127X_OP_MODE_LORA =>
           with_lora (state d0) (with_lora_payload_length (lora (state d0)) n)
       end)
      (fun a => if a =? payload_length_reg (op_mode (state d)) then n
                else regs d0 a)
      (fifo d0)
      (spi_writes d0 ++ [(payload_length_reg (op_mode (state d)), n)])
      (clock d0).

(** The device when the interrupt task has set the flag of a completed
    reception or transmission. *)
Definition rx_flagged (d : device) : device :=
  with_state d (with_rx_done (state d) true).
Definition tx_flagged (d : device) : device :=
  with_state d (with_tx_done (state d) true).

(** The mode-register write of the write gate, if any. *)
Definition gate_writes (s : sx127x_state) : list (Z * Z) :=
  match op_mode s with
  | SX127X_OP_MODE_FSK =>
      mode_write_unless_cached (mode s) (Z.land (mode s) MODE_LORA)
  | SX127X_OP_MODE_LORA =>
      if writable_mode (mode s) then []
      else mode_write_unless_cached (mode s) (Z.land (mode s) MODE_LORA + 1)
  end.

(** The receiver is armed: the flag is down, the interrupt line stands for a
    completed reception, and a turn of the interrupt task raises the flag
    and then calls the registered callback, if there is one. *)
Definition rx_armed (d d' : device) : Prop :=
  rx_done (state d') = false /\
  dio0_trigger (state d') = DIO0_TRIGGER_RX_DONE /\
  tx_done (state d') = tx_done (state d) /\
  op_mode (state d') = op_mode (state d) /\
  callback (state d') = callback (state d) /\
  callback_data (state d') = callback_data (state d) /\
  fsk (state d') = fsk (state d) /\
  lora (state d') = lora (state d) /\
  forall call_callback : Z -> air_radio_callback_reason_e -> Z -> M unit,
    sx127x_callback_task call_callback d' =
    if callback (state d) =? 0 then Some (tt, rx_flagged d')
    else call_callback (callback (state d)) AIR_RADIO_CALLBACK_REASON_RX_DONE
                       (callback_data (state d)) (rx_flagged d').

(** The PA configuration byte [sx127x_init] programs for 17 dBm. *)
Definition init_pa_config (output_type : sx127x_output_type_e) : Z :=
  match output_type with
  | SX127X_OUTPUT_RFO => 0x7E
  | _ => 0x8F
  end.

(** The driver state [sx127x_init] leaves, for the mode byte [m0] read from
    the chip: everything is reset but the fields it does not assign. *)
Definition init_state (m0 : Z) (s : sx127x_state) : sx127x_state :=
  mk_state (Z.land m0 MODE_LORA + 1)
           (if Z.land m0 MODE_LORA =? 0 then SX127X_OP_MODE_FSK
            else SX127X_OP_MODE_LORA)
           false false 0 0 (callback_data s)
           (mk_fsk 0 0 (fsk_rx_bandwidth (fsk s)))
           (mk_lora 0 0 0 (lora_signal_bw (lora s)) (lora_sf (lora s))
                    (lora_bw_workaround (lora s))).

(** ** Specification-side signal quality *)

(** The floor selected by [sx127x_lora_min_rssi] for a stored frequency. *)
Definition lora_rssi_floor (freq : Z) : Z :=
  if freq >? 700000 then -157 else -164.

(** The LoRa packet strength over the rationals, truncated toward zero:
    [floor + 16/15 * raw] for a non-negative SNR byte and
    [floor + raw + snr / 4] for a negative one. *)
Definition spec_lora_rssi (floor raw snr : Z) : Z :=
  if 0 <=? snr then Z.quot (16 * raw + 15 * floor) 15
  else Z.quot (4 * (floor + raw) + snr) 4.

(** The sensitivity table of [sx127x_rx_sensitivity] for LoRa mode. *)
Definition spec_lora_sensitivity (bw : sx127x_lora_signal_bw_e) (sf : Z) : Z :=
  if is_bw_500 bw then
    if sf =? 6 then -109 else if sf =? 7 then -114 else if sf =? 8 then -117
    else if sf =? 9 then -120 else if sf =? 10 then -123
    else if sf =? 11 then -125 else if sf =? 12 then -128 else 0
  else 0.

Definition spec_link_quality (sens max_dbm rssi : Z) : Z :=
  Z.max 0 (Z.min 100 (link_quality sens max_dbm rssi)).

(** ** The driver's interface as data

    The public functions of the driver (all but [sx127x_init], which is run
    once), with their arguments, and a sequence of calls run one after the
    other; results are dropped. *)

Inductive api_call : Type :=
| Call_set_frequency (freq error : Z)
| Call_set_payload_size (size : Z)
| Call_sleep
| Call_idle
| Call_set_op_mode (op_mode : sx127x_op_mode_e)
| Call_set_tx_power (level : Z)
| Call_send (buf : list Z) (size : Z)
| Call_read (size : Z)
| Call_enable_continous_rx
| Call_is_tx_done
| Call_is_rx_done
| Call_set_callback (cb data : Z)
| Call_frequency_error
| Call_rx_sensitivity
| Call_rssi
| Call_shutdown
| Call_set_fsk_fdev (hz : Z)
| Call_set_fsk_bitrate (bps : Z)
| Call_set_fsk_rx_bandwidth (hz : Z)
| Call_set_fsk_rx_afc_bandwidth (hz : Z)
| Call_set_fsk_preamble_length (length : Z)
| Call_set_lora_spreading_factor (sf : Z)
| Call_set_lora_signal_bw (sbw : sx127x_lora_signal_bw_e)
| Call_set_lora_coding_rate (rate : Z)
| Call_set_lora_preamble_length (length : Z)
| Call_set_lora_crc (crc : bool)
| Call_set_lora_header_mode (hm : sx127x_lora_header_e)
| Call_set_lora_sync_word (sw : Z)
| Call_lora_min_rssi.

Section Api.

(** What the driver takes from its surroundings: the unspecified results of
    [lrintf], the codec, the enumerator values of sx127x.h and the output
    type the instance is configured with. *)
Variable lrintf_unspecified : spec_float -> Z.
Variable FEC_ENCODED_SIZE : Z -> Z.
Variable fec_encode : list Z -> Z -> Z -> list Z * Z.
Variable fec_decode : list Z -> Z -> Z -> list Z.
Variable lora_signal_bw_value : sx127x_lora_signal_bw_e -> Z.
Variable SX127X_LORA_CODING_RATE_4_5 : Z.
Variable SX127X_LORA_CODING_RATE_4_8 : Z.
Variable output_type : sx127x_output_type_e.

Definition run_call (c : api_call) : M unit :=
  match c with
  | Call_set_frequency freq error =>
      sx127x_set_frequency lrintf_unspecified freq error
  | Call_set_payload_size size => sx127x_set_payload_size FEC_ENCODED_SIZE size
  | Call_sleep => sx127x_sleep
  | Call_idle => sx127x_idle
  | Call_set_op_mode om => sx127x_set_op_mode om
  | Call_set_tx_power level => sx127x_set_tx_power output_type level
  | Call_send buf size => sx127x_send FEC_ENCODED_SIZE fec_encode buf size
  | Call_read size => sx127x_read FEC_ENCODED_SIZE fec_decode size ;; ret tt
  | Call_enable_continous_rx => sx127x_enable_continous_rx
  | Call_is_tx_done => sx127x_is_tx_done ;; ret tt
  | Call_is_rx_done => sx127x_is_rx_done ;; ret tt
  | Call_set_callback cb data => sx127x_set_callback cb data
  | Call_frequency_error => sx127x_frequency_error ;; ret tt
  | Call_rx_sensitivity => sx127x_rx_sensitivity ;; ret tt
  | Call_rssi => sx127x_rssi ;; ret tt
  | Call_shutdown => sx127x_shutdown
  | Call_set_fsk_fdev hz => sx127x_set_fsk_fdev lrintf_unspecified hz
  | Call_set_fsk_bitrate bps => sx127x_set_fsk_bitrate lrintf_unspecified bps
  | Call_set_fsk_rx_bandwidth hz => sx127x_set_fsk_rx_bandwidth hz
  | Call_set_fsk_rx_afc_bandwidth hz => sx127x_set_fsk_rx_afc_bandwidth hz
  | Call_set_fsk_preamble_length length => sx127x_set_fsk_preamble_length length
  | Call_set_lora_spreading_factor sf => sx127x_set_lora_spreading_factor sf
  | Call_set_lora_signal_bw sbw =>
      sx127x_set_lora_signal_bw lora_signal_bw_value sbw
  | Call_set_lora_coding_rate rate =>
      sx127x_set_lora_coding_rate SX127X_LORA_CODING_RATE_4_5
                                  SX127X_LORA_CODING_RATE_4_8 rate
  | Call_set_lora_preamble_length length => sx127x_set_lora_preamble_length length
  | Call_set_lora_crc crc => sx127x_set_lora_crc crc
  | Call_set_lora_header_mode hm => sx127x_set_lora_header_mode hm
  | Call_set_lora_sync_word sw => sx127x_set_lora_sync_word sw
  | Call_lora_min_rssi => sx127x_lora_min_rssi ;; ret tt
  end.

Fixpoint run_calls (cs : list api_call) : M unit :=
  match cs with
  | [] => ret tt
  | c :: cs' => run_call c ;; run_calls cs'
  end.

End Api.

(** The power-mode cache agrees with the chip and with the modulation
    scheme: it holds a byte, the mode register holds the same byte, and its
    LoRa bit is set exactly in LoRa mode. *)
Definition mode_inv (d : device) : Prop :=
  0 <= mode (state d) < 256 /\
  regs d REG_OP_MODE = mode (state d) /\
  Z.land (mode (state d)) MODE_LORA
  = if is_lora (op_mode (state d)) then MODE_LORA else 0.

(** A command keeps an invariant in modulation scheme [om] when every run
    that starts in a state of the invariant with that scheme, and returns,
    ends in such a state. *)
Definition keeps (I : device -> Prop) (om : sx127x_op_mode_e) {A} (c : M A)
  : Prop :=
  forall d a d',
    I d -> op_mode (state d) = om -> c d = Some (a, d') ->
    I d' /\ op_mode (state d') = om.

(** A chip as the datasheet describes it after reset: silicon version 0x12,
    the mode register at FSK standby with the low-frequency bit (0x09), every
    other register zero, behind a driver instance that was never set up. *)
Definition reset_chip : device :=
  sample_device (sample_state SX127X_OP_MODE_FSK 0x00 0 SX127X_LORA_SIGNAL_BW_500)
                (fun a => if a =? REG_VERSION then 0x12
                          else if a =? REG_OP_MODE then 0x09 else 0).

(** ** Invariants and their footprint *)

(** [leads P Q om c]: every run of [c] that starts in modulation scheme [om]
    in a state of [P], and returns, ends in a state of [Q] in the same
    scheme.  [keeps] is the case of one invariant on both sides. *)
Definition leads (P Q : device -> Prop) (om : sx127x_op_mode_e) {A} (c : M A)
  : Prop :=
  forall d a d',
    P d -> op_mode (state d) = om -> c d = Some (a, d') ->
    Q d' /\ op_mode (state d') = om.

(** An invariant has the footprint ([fr], [watched]) when it survives every
    change of the device that relates the driver states by [fr] and leaves
    the registers selected by [watched] as they were. *)
Record footprint (I : device -> Prop)
       (fr : sx127x_state -> sx127x_state -> Prop) (watched : Z -> bool)
  : Prop := {
  fp_refl : forall s, fr s s;
  fp_keep : forall d d',
      fr (state d) (state d') ->
      (forall a, watched a = true -> regs d' a = regs d a) ->
      I d -> I d'
}.

Definition mode_frame (s s' : sx127x_state) : Prop :=
  mode s' = mode s /\ op_mode s' = op_mode s.

Definition mode_watched (a : Z) : bool := a =? REG_OP_MODE.

(** The errata registers hold what the cached class calls for. *)
Definition errata_regs (d : device) : Prop :=
  forall c,
    lora_bw_workaround (lora (state d)) = bw500_class_code c ->
    forall a v, In (a, v) (spec_bw500_writes c) -> regs d a = v.

(** The errata workaround is in step: the cached class is the class of the
    cached bandwidth and frequency, and the errata registers hold the values
    of that class. *)
Definition errata_inv (d : device) : Prop :=
  lora_bw_workaround (lora (state d)) = bw500_class_code (device_bw500_class d) /\
  errata_regs d.

Definition errata_watched (a : Z) : bool :=
  (a =? REG_LORA_DETECTION_BW500_OPTIMIZE_1)
  || (a =? REG_LORA_DETECTION_BW500_OPTIMIZE_2).

Definition errata_cache_frame (s s' : sx127x_state) : Prop :=
  lora_bw_workaround (lora s') = lora_bw_workaround (lora s).

Definition errata_frame (s s' : sx127x_state) : Prop :=
  lora_bw_workaround (lora s') = lora_bw_workaround (lora s) /\
  lora_freq (lora s') = lora_freq (lora s) /\
  lora_signal_bw (lora s') = lora_signal_bw (lora s).

(** A LoRa chip at 868 MHz with 250 kHz bandwidth whose errata register is
    at its value for no workaround. *)
Definition lora_device_bw250 : device :=
  sample_device (sample_state SX127X_OP_MODE_LORA 0x81 868000000
                              SX127X_LORA_SIGNAL_BW_250)
                (fun a => if a =? REG_LORA_DETECTION_BW500_OPTIMIZE_1
                          then 0x03 else if a =? REG_OP_MODE then 0x81 else 0).

(** The bandwidth codes of the datasheet's modem-configuration register,
    as one possible numbering of the enumerators. *)
Definition datasheet_bw_code (b : sx127x_lora_signal_bw_e) : Z :=
  match b with
  | SX127X_LORA_SIGNAL_BW_7_8 => 0
  | SX127X_LORA_SIGNAL_BW_10_4 => 1
  | SX127X_LORA_SIGNAL_BW_15_6 => 2
  | SX127X_LORA_SIGNAL_BW_20_8 => 3
  | SX127X_LORA_SIGNAL_BW_31_25 => 4
  | SX127X_LORA_SIGNAL_BW_41_7 => 5
  | SX127X_LORA_SIGNAL_BW_62_5 => 6
  | SX127X_LORA_SIGNAL_BW_250 => 8
  | SX127X_LORA_SIGNAL_BW_500 => 9
  end.

(** A session that changes bandwidth, modulation scheme and frequency. *)
Definition sample_calls : list api_call :=
  [ Call_set_lora_signal_bw SX127X_LORA_SIGNAL_BW_500;
    Call_set_op_mode SX127X_OP_MODE_FSK;
    Call_set_frequency 433000000 0;
    Call_set_op_mode SX127X_OP_MODE_LORA;
    Call_set_frequency 433000000 0;
    Call_enable_continous_rx ].

(** The interface with an identity codec, the datasheet's bandwidth codes
    and coding rates 1 to 4, on the PA_BOOST pin. *)
Definition sample_run_calls : list api_call -> M unit :=
  run_calls (fun _ => 0) (fun n => n) (fun buf _ n => (buf, n))
            (fun buf _ _ => buf) datasheet_bw_code 1 4 SX127X_OUTPUT_PA_BOOST.

(** * Verification *)

(** ** Basic facts about the transport and the mode controller *)

Lemma same_config_refl s : same_config s s.
Proof. unfold same_config; tauto. Qed.

Lemma mode_step_refl d : mode_step d d.
Proof. unfold mode_step; auto 10 using same_config_refl. Qed.

Lemma land_mode_lora x : Z.land x MODE_LORA = 0 \/ Z.land x MODE_LORA = 128.
Proof.
  unfold MODE_LORA. change 128 with (2 ^ 7).
  destruct (Z.testbit x 7) eqn:B; [right | left]; apply Z.bits_inj'; intros n Hn;
    rewrite Z.land_spec, Z.pow2_bits_eqb by lia.
  - destruct (7 =? n) eqn:E; [apply Z.eqb_eq in E; subst n; rewrite B; reflexivity
                             | apply andb_false_r].
  - rewrite Z.bits_0. destruct (7 =? n) eqn:E; [apply Z.eqb_eq in E; subst n; rewrite B; reflexivity
                             | apply andb_false_r].
Qed.

Lemma set_mode_step m d :
  0 <= m < 256 ->
  exists d', sx127x_set_mode m d = Some (tt, d') /\ mode_step d d' /\
             mode (state d') = m.
Proof.
  intros Hm. unfold sx127x_set_mode, bind, get_state, when.
  destruct (mode (state d) =? m) eqn:E; cbn.
  - exists d. apply Z.eqb_eq in E. auto using mode_step_refl.
  - eexists. split; [reflexivity |]. split; [| reflexivity].
    unfold mode_step, same_config; cbn. repeat split; auto.
    + intros a Ha. destruct (a =? REG_OP_MODE) eqn:Ea;
        [apply Z.eqb_eq in Ea; contradiction | reflexivity].
    + right. unfold Int.to_uint8. rewrite Z.mod_small by lia. reflexivity.
Qed.

Lemma sleep_step d :
  exists d', sx127x_sleep d = Some (tt, d') /\ mode_step d d'.
Proof.
  unfold sx127x_sleep, bind, get_state.
  destruct (set_mode_step (Z.lor (Z.land (mode (state d)) MODE_LORA) MODE_SLEEP) d)
    as (d' & E & S & _).
  - destruct (land_mode_lora (mode (state d))) as [H | H]; rewrite H; unfold MODE_SLEEP, MODE_STDBY; simpl; lia.
  - exists d'; auto.
Qed.

Lemma idle_step d :
  exists d', sx127x_idle d = Some (tt, d') /\ mode_step d d'.
Proof.
  unfold sx127x_idle, bind, get_state.
  destruct (set_mode_step (Z.lor (Z.land (mode (state d)) MODE_LORA) MODE_STDBY) d)
    as (d' & E & S & _).
  - destruct (land_mode_lora (mode (state d))) as [H | H]; rewrite H; unfold MODE_SLEEP, MODE_STDBY; simpl; lia.
  - exists d'; auto.
Qed.

(** The write gate always returns, and touches nothing but the power mode. *)
Lemma prepare_write_step d :
  exists d', sx127x_prepare_write d = Some (tt, d') /\ mode_step d d'.
Proof.
  unfold sx127x_prepare_write, bind, get_state, when.
  destruct (op_mode (state d)).
  - apply sleep_step.
  - destruct (_ && _).
    + apply idle_step.
    + exists d. split; [reflexivity | apply mode_step_refl].
Qed.

(** ** Bandwidth-500 errata re-evaluation *)

Lemma spec_bw500_class_high bw freq :
  spec_bw500_class bw freq = Bw500HighBand <->
  bw = SX127X_LORA_SIGNAL_BW_500 /\ 862000000 <= freq <= 1020000000.
Proof.
  unfold spec_bw500_class.
  destruct (862000000 <=? freq) eqn:A, (freq <=? 1020000000) eqn:B,
           (410000000 <=? freq) eqn:C, (freq <=? 525000000) eqn:D;
    destruct bw; cbn; split; intros H; try discriminate; try lia;
      try (split; [reflexivity | lia]); try reflexivity;
      destruct H as [H _]; discriminate.
Qed.

Lemma spec_bw500_class_low bw freq :
  spec_bw500_class bw freq = Bw500LowBand <->
  bw = SX127X_LORA_SIGNAL_BW_500 /\ 410000000 <= freq <= 525000000.
Proof.
  unfold spec_bw500_class.
  destruct (862000000 <=? freq) eqn:A, (freq <=? 1020000000) eqn:B,
           (410000000 <=? freq) eqn:C, (freq <=? 525000000) eqn:D;
    destruct bw; cbn; split; intros H; try discriminate; try lia;
      try (split; [reflexivity | lia]); try reflexivity;
      destruct H as [H _]; discriminate.
Qed.

Lemma spec_bw500_class_none bw freq :
  spec_bw500_class bw freq = Bw500None <->
  ~ (bw = SX127X_LORA_SIGNAL_BW_500 /\
     (862000000 <= freq <= 1020000000 \/ 410000000 <= freq <= 525000000)).
Proof.
  unfold spec_bw500_class.
  destruct (862000000 <=? freq) eqn:A, (freq <=? 1020000000) eqn:B,
           (410000000 <=? freq) eqn:C, (freq <=? 525000000) eqn:D;
    destruct bw; cbn; split; intros H; try discriminate; try reflexivity;
      try (intros [E _]; discriminate);
      try (intros [_ E]; lia);
      try (exfalso; apply H; split; [reflexivity | lia]).
Qed.

(** The class computed by the code is the class of the specification. *)
Lemma workaround_code_is_spec_class bw freq :
  (if is_bw_500 bw && (freq >=? 862000000) && (freq <=? 1020000000)
   then SX127X_RX_SENSITIVITY_BW500_WORKAROUND_HIGH_BAND
   else if is_bw_500 bw && (freq >=? 410000000) && (freq <=? 525000000)
        then SX127X_RX_SENSITIVITY_BW500_WORKAROUND_LOW_BAND
        else SX127X_RX_SENSITIVITY_BW500_WORKAROUND_NONE)
  = bw500_class_code (spec_bw500_class bw freq).
Proof.
  unfold spec_bw500_class. rewrite !Z.geb_leb.
  destruct (is_bw_500 bw), (862000000 <=? freq), (freq <=? 1020000000),
           (410000000 <=? freq), (freq <=? 525000000); reflexivity.
Qed.

(** C1.  The errata re-evaluation classifies the cached LoRa state into
    none / high band / low band exactly as specified (high band iff 500 kHz
    and 862..1020 MHz, low band iff 500 kHz and 410..525 MHz, none
    otherwise); when the class differs from the cached one it writes
    register 0x36 := 0x03 for none, 0x36 := 0x02 and 0x3A := 0x64 for high
    band, 0x36 := 0x02 and 0x3A := 0x7F for low band, and caches the class;
    when the class equals the cached one nothing is written and the device
    is left as it was. *)
Theorem bw500_workaround_reevaluation (d : device) :
  let bw := lora_signal_bw (lora (state d)) in
  let freq := lora_freq (lora (state d)) in
  let c := device_bw500_class d in
  (c = Bw500HighBand <->
     bw = SX127X_LORA_SIGNAL_BW_500 /\ 862000000 <= freq <= 1020000000) /\
  (c = Bw500LowBand <->
     bw = SX127X_LORA_SIGNAL_BW_500 /\ 410000000 <= freq <= 525000000) /\
  (c = Bw500None <->
     ~ (bw = SX127X_LORA_SIGNAL_BW_500 /\
        (862000000 <= freq <= 1020000000 \/ 410000000 <= freq <= 525000000))) /\
  exists d',
    sx127x_apply_bw500_sensitivity_workaround d = Some (tt, d') /\
    (bw500_class_code c <> lora_bw_workaround (lora (state d)) ->
       spi_writes d' = spi_writes d ++ spec_bw500_writes c /\
       lora_bw_workaround (lora (state d')) = bw500_class_code c) /\
    (bw500_class_code c = lora_bw_workaround (lora (state d)) -> d' = d).
Proof.
  intros bw freq c.
  split; [apply spec_bw500_class_high |].
  split; [apply spec_bw500_class_low |].
  split; [apply spec_bw500_class_none |].
  unfold sx127x_apply_bw500_sensitivity_workaround, bind, get_state.
  rewrite workaround_code_is_spec_class.
  fold bw freq. change (spec_bw500_class bw freq) with c.
  destruct (bw500_class_code c =? lora_bw_workaround (lora (state d))) eqn:E.
  - apply Z.eqb_eq in E. exists d. cbn. split; [reflexivity |].
    split; [intros H; contradiction | reflexivity].
  - apply Z.eqb_neq in E. destruct c; cbn; eexists; (split; [reflexivity |]);
      (split; [intros _; cbn; rewrite <- ?app_assoc; split; reflexivity
              | intros H; contradiction]).
Qed.

(** ** Binary64 rounding: the facts the tuning word needs *)

Module Binary64Facts.

Lemma digits2_pos_bounds p :
  2 ^ (Zpos (digits2_pos p) - 1) <= Zpos p < 2 ^ Zpos (digits2_pos p).
Proof.
  induction p as [p IH | p IH |]; cbn [digits2_pos].
  - rewrite Pos2Z.inj_succ.
    replace (Z.succ (Zpos (digits2_pos p)) - 1) with (Z.succ (Zpos (digits2_pos p) - 1)) by lia.
    rewrite !Z.pow_succ_r by lia. lia.
  - rewrite Pos2Z.inj_succ.
    replace (Z.succ (Zpos (digits2_pos p)) - 1) with (Z.succ (Zpos (digits2_pos p) - 1)) by lia.
    rewrite !Z.pow_succ_r by lia. lia.
  - change (1 <= 1 < 2). lia.
Qed.

Lemma Zdigits2_bounds n :
  0 < n -> 2 ^ (Zdigits2 n - 1) <= n < 2 ^ Zdigits2 n.
Proof.
  destruct n as [| p | p]; intros H; try lia. apply digits2_pos_bounds.
Qed.

Lemma Zdigits2_pos n : 0 < n -> 0 < Zdigits2 n.
Proof. destruct n; cbn; lia. Qed.

Lemma Zdigits2_unique n d :
  2 ^ (d - 1) <= n < 2 ^ d -> 0 < d -> Zdigits2 n = d.
Proof.
  intros [Hl Hu] Hd.
  assert (Hn : 0 < n) by (pose proof (Z.pow_pos_nonneg 2 (d - 1)); lia).
  pose proof (Zdigits2_bounds n Hn) as [Bl Bu].
  pose proof (Zdigits2_pos n Hn) as Hp.
  destruct (Z.lt_trichotomy (Zdigits2 n) d) as [L | [E | G]]; [| exact E |].
  - assert (2 ^ Zdigits2 n <= 2 ^ (d - 1)) by (apply Z.pow_le_mono_r; lia). lia.
  - assert (2 ^ d <= 2 ^ (Zdigits2 n - 1)) by (apply Z.pow_le_mono_r; lia). lia.
Qed.

Lemma iter_xO_value p k :
  Zpos (Pos.iter xO p k) = Zpos p * 2 ^ Zpos k.
Proof.
  induction k as [| k IH] using Pos.peano_ind.
  - cbn [Pos.iter]. change (2 ^ 1) with 2. lia.
  - rewrite Pos.iter_succ, Pos2Z.inj_succ, Z.pow_succ_r by lia. lia.
Qed.

Lemma loc_of_shr_record_of_loc m l :
  loc_of_shr_record (shr_record_of_loc m l) = l.
Proof. destruct l as [| []]; reflexivity. Qed.

Lemma shr_m_of_loc m l : shr_m (shr_record_of_loc m l) = m.
Proof. destruct l as [| []]; reflexivity. Qed.

Lemma round_nearest_even_bounds m l :
  m <= round_nearest_even m l <= m + 1.
Proof.
  destruct l as [| []]; cbn; try lia. destruct (Z.even m); lia.
Qed.

(** No shift for a 53-digit mantissa, one for a 54-digit one. *)
Lemma shr_fexp_53 q e l :
  2 ^ 52 <= q < 2 ^ 53 -> -1074 <= e ->
  shr_fexp 53 1024 q e l = (shr_record_of_loc q l, e).
Proof.
  intros Hq He. unfold shr_fexp.
  rewrite (Zdigits2_unique q 53) by (cbn; lia).
  replace (fexp 53 1024 (53 + e) - e) with 0 by (unfold fexp, emin; lia).
  reflexivity.
Qed.

Lemma shr_fexp_54 q e l :
  2 ^ 53 <= q < 2 ^ 54 -> -1074 <= e ->
  shr_fexp 53 1024 q e l = (shr_1 (shr_record_of_loc q l), e + 1).
Proof.
  intros Hq He. unfold shr_fexp.
  rewrite (Zdigits2_unique q 54) by (cbn; lia).
  replace (fexp 53 1024 (54 + e) - e) with 1 by (unfold fexp, emin; lia).
  reflexivity.
Qed.

(** The second normalisation of [binary_round_aux], on an exact value. *)
Lemma renormalise m e :
  2 ^ 52 <= m <= 2 ^ 53 -> -1074 <= e <= 960 ->
  exists m' j,
    (let '(mrs, e') := shr_fexp 53 1024 m e loc_Exact in
     match shr_m mrs with
     | Z0 => S754_zero false
     | Zpos x => if e' <=? 1024 - 53 then S754_finite false x e'
                 else S754_infinity false
     | Zneg _ => S754_nan
     end) = S754_finite false m' (e + j) /\
    0 <= j <= 1 /\ Zpos m' * 2 ^ j = m /\ (m < 2 ^ 53 -> j = 0).
Proof.
  intros Hm He.
  destruct (Z.eq_dec m (2 ^ 53)) as [E | N].
  - subst m. rewrite shr_fexp_54 by lia. cbn [shr_record_of_loc shr_1 shr_m].
    change (2 ^ 53) with 9007199254740992. cbn [shr_1 shr_m orb].
    replace (e + 1 <=? 1024 - 53) with true by (symmetry; apply Z.leb_le; lia).
    exists 4503599627370496%positive, 1. repeat split; try lia.
  - rewrite shr_fexp_53 by lia. cbn [shr_record_of_loc shr_m].
    destruct m as [| p | p]; try (cbn in Hm; lia).
    replace (e <=? 1024 - 53) with true by (symmetry; apply Z.leb_le; lia).
    exists p, 0. rewrite Z.add_0_r. repeat split; lia.
Qed.

(** Rounding a 53- or 54-digit mantissa: the result is finite, its exponent
    moves up by at most two and its value stays between [q - 1] and
    [q + 2]; an exact multiple of four is kept, and an exact 53-digit
    mantissa is returned unchanged. *)
Lemma binary_round_aux_value q e l :
  2 ^ 52 <= q < 2 ^ 54 -> -1074 <= e <= 900 ->
  exists m j,
    binary_round_aux 53 1024 false q e l = S754_finite false m (e + j) /\
    0 <= j <= 2 /\
    q - 1 <= Zpos m * 2 ^ j <= q + 2 /\
    (l = loc_Exact -> q mod 4 = 0 -> Zpos m * 2 ^ j = q) /\
    (l = loc_Exact -> q < 2 ^ 53 -> j = 0 /\ Zpos m = q).
Proof.
  intros Hq He. unfold binary_round_aux.
  destruct (Z_lt_ge_dec q (2 ^ 53)) as [S | B].
  - rewrite shr_fexp_53 by lia.
    rewrite shr_m_of_loc, loc_of_shr_record_of_loc.
    pose proof (round_nearest_even_bounds q l) as Hr.
    destruct (renormalise (round_nearest_even q l) e) as (m & j & R & Hj & V & Z0);
      [lia | lia |].
    rewrite R. exists m, j. split; [reflexivity |].
    split; [lia |]. split; [lia |]. split.
    + intros -> _. cbn [round_nearest_even] in V. exact V.
    + intros -> _. cbn [round_nearest_even] in V, Z0.
      assert (J : j = 0) by (apply Z0; lia). subst j.
      rewrite Z.pow_0_r, Z.mul_1_r in V. split; [reflexivity | exact V].
  - rewrite shr_fexp_54 by lia.
    set (mrs := shr_1 (shr_record_of_loc q l)).
    assert (Hh : 2 * shr_m mrs <= q <= 2 * shr_m mrs + 1 /\
                 (l = loc_Exact -> q mod 4 = 0 ->
                  loc_of_shr_record mrs = loc_Exact /\ 2 * shr_m mrs = q)).
    { subst mrs. destruct q as [| [p | p |] | p]; try (cbn in Hq, B; lia).
      - destruct l as [| []]; cbn [shr_record_of_loc shr_1 shr_m]; (split; [lia |]);
          intros H; try discriminate H; intros H4;
          exfalso; pose proof (Z_div_mod_eq_full (Zpos p~1) 4) as D;
          rewrite H4 in D; lia.
      - destruct l as [| []]; cbn [shr_record_of_loc shr_1 shr_m]; (split; [lia |]);
          intros H; try discriminate H; intros _; split; [reflexivity | lia]. }
    destruct Hh as (Hh & Hx).
    pose proof (round_nearest_even_bounds (shr_m mrs) (loc_of_shr_record mrs)) as Hr.
    destruct (renormalise (round_nearest_even (shr_m mrs) (loc_of_shr_record mrs)) (e + 1))
      as (m & j & R & Hj & V & Z0); [lia | lia |].
    rewrite R. exists m, (1 + j).
    replace (e + (1 + j)) with (e + 1 + j) by lia.
    split; [reflexivity |]. split; [lia |].
    rewrite Z.pow_add_r by lia. change (2 ^ 1) with 2.
    split; [lia |]. split.
    + intros El H4. destruct (Hx El H4) as (Le & Ve). rewrite Le in V.
      cbn [round_nearest_even] in V. lia.
    + intros _ Hlt. lia.
Qed.

End Binary64Facts.

(** ** The FSK tuning word *)

Module TuningWord.
Import Binary64Facts.

(** A positive integer below 2^52 converts exactly: the mantissa is the
    integer shifted to 53 digits. *)
Lemma of_Z_binary64 f :
  0 < f < 2 ^ 52 ->
  exists m,
    Float.of_Z Float.binary64 f = S754_finite false m (Zdigits2 f - 53) /\
    Zpos m = f * 2 ^ (53 - Zdigits2 f) /\
    2 ^ 52 <= Zpos m < 2 ^ 53.
Proof.
  intros Hf. destruct f as [| p | p]; try lia.
  pose proof (digits2_pos_bounds p) as Hd.
  cbn [Zdigits2]. set (d := Zpos (digits2_pos p)) in *.
  assert (Hd52 : 1 <= d <= 52).
  { split; [subst d; lia |].
    destruct (Z_le_gt_dec d 52) as [L | G]; [exact L | exfalso].
    assert (2 ^ 52 <= 2 ^ (d - 1)) by (apply Z.pow_le_mono_r; lia). lia. }
  unfold Float.of_Z, binary_normalize, binary_round, shl_align.
  cbn [Float.prec Float.emax Float.binary64]. fold d.
  replace (fexp 53 1024 (d + 0)) with (d - 53) by (unfold fexp, emin; lia).
  destruct (d - 53 - 0) as [| k | k] eqn:K; try lia.
  assert (Hk : Zpos k = 53 - d) by lia.
  pose proof (iter_xO_value p k) as V. rewrite Hk in V.
  assert (P1 : 2 ^ (d - 1) * 2 ^ (53 - d) = 2 ^ 52)
    by (rewrite <- Z.pow_add_r by lia; f_equal; lia).
  assert (P2 : 2 ^ d * 2 ^ (53 - d) = 2 ^ 53)
    by (rewrite <- Z.pow_add_r by lia; f_equal; lia).
  assert (P0 : 0 < 2 ^ (53 - d)) by (apply Z.pow_pos_nonneg; lia).
  assert (B : 2 ^ 52 <= Zpos (Pos.iter xO p k) < 2 ^ 53).
  { rewrite V, <- P1, <- P2. split.
    - apply Z.mul_le_mono_nonneg_r; lia.
    - apply Z.mul_lt_mono_pos_r; lia. }
  destruct (binary_round_aux_value (Zpos (Pos.iter xO p k)) (d - 53) loc_Exact)
    as (m & j & R & _ & _ & _ & X); [lia | lia |].
  destruct (X eq_refl ltac:(lia)) as (J & M). subst j.
  rewrite Z.add_0_r in R. exists m. rewrite R, M. auto.
Qed.

Lemma new_location_exact n : new_location n 0 = loc_Exact.
Proof.
  unfold new_location, new_location_even, new_location_odd.
  destruct (Z.even n); reflexivity.
Qed.

(** Division of two positive normal numbers: the result is finite, with the
    53-bit-scaled integer quotient [q] as mantissa up to the final rounding. *)
Lemma SFdiv_value m1 e1 m2 e2 :
  2 ^ 52 <= Zpos m1 < 2 ^ 53 -> 2 ^ 52 <= Zpos m2 < 2 ^ 53 ->
  -1021 <= e1 - e2 <= 950 ->
  let q := (Zpos m1 * 2 ^ 53) / Zpos m2 in
  exists m j,
    SFdiv 53 1024 (S754_finite false m1 e1) (S754_finite false m2 e2)
    = S754_finite false m (e1 - e2 - 53 + j) /\
    0 <= j <= 2 /\
    q - 1 <= Zpos m * 2 ^ j <= q + 2 /\
    ((Zpos m1 * 2 ^ 53) mod Zpos m2 = 0 -> q mod 4 = 0 -> Zpos m * 2 ^ j = q).
Proof.
  intros H1 H2 He q.
  unfold SFdiv, SFdiv_core_binary.
  rewrite (Zdigits2_unique (Zpos m1) 53), (Zdigits2_unique (Zpos m2) 53)
    by (cbn; lia).
  replace (Z.min (fexp 53 1024 (53 + e1 - (53 + e2))) (e1 - e2))
    with (e1 - e2 - 53) by (unfold fexp, emin; lia).
  replace (e1 - e2 - (e1 - e2 - 53)) with 53 by lia.
  cbv iota. rewrite Z.shiftl_mul_pow2 by lia.
  destruct (Z.div_eucl (Zpos m1 * 2 ^ 53) (Zpos m2)) as [q' r] eqn:D.
  assert (Q : q' = q) by (subst q; unfold Z.div; rewrite D; reflexivity).
  assert (R : r = (Zpos m1 * 2 ^ 53) mod Zpos m2)
    by (unfold Z.modulo; rewrite D; reflexivity).
  rewrite Q. clear D Q q'. cbn [xorb].
  assert (Bq : 2 ^ 52 <= q < 2 ^ 54).
  { subst q. split.
    - apply Z.div_le_lower_bound; [lia |].
      change (2 ^ 53) with (2 * 2 ^ 52). nia.
    - apply Z.div_lt_upper_bound; [lia |].
      change (2 ^ 54) with (2 ^ 53 * 2). change (2 ^ 53) with (2 * 2 ^ 52) at 2. nia. }
  destruct (binary_round_aux_value q (e1 - e2 - 53) (new_location (Zpos m2) r))
    as (m & j & E & Hj & V & X & _); [exact Bq | lia |].
  exists m, j. split; [exact E |]. split; [exact Hj |]. split; [exact V |].
  intros Hr Hq. apply X; [| exact Hq].
  rewrite R, Hr. apply new_location_exact.
Qed.

Lemma fsk_freq_step_value :
  SX127X_FSK_FREQ_STEP = S754_finite false 8589934592000000 (-47).
Proof. reflexivity. Qed.

(** A value [v] within [q - 1 .. q + 2] of [q = floor(N * P / 15625)] has the
    same integer part after division by [P] as [N / 15625] itself, as soon
    as [P] is much larger than 15625 and [v] is exact when the division is. *)
Lemma quotient_stable N P v :
  0 <= N -> 2 ^ 27 <= P -> P mod 4 = 0 ->
  let q := (N * P) / 15625 in
  q - 1 <= v <= q + 2 ->
  ((N * P) mod 15625 = 0 -> q mod 4 = 0 -> v = q) ->
  v / P = N / 15625.
Proof.
  intros HN HP HP4 q Hv Hx.
  pose proof (Z_div_mod_eq_full N 15625) as DN.
  pose proof (Z.mod_pos_bound N 15625 ltac:(lia)) as BN.
  set (n := N / 15625) in *. set (rho := N mod 15625) in *.
  assert (HPp : 2 ^ 27 = 134217728) by reflexivity.
  assert (Hq : q = n * P + (rho * P) / 15625).
  { subst q. replace (N * P) with (rho * P + n * P * 15625) by (rewrite DN; ring).
    rewrite Z.div_add by lia. lia. }
  pose proof (Z_div_mod_eq_full (rho * P) 15625) as DR.
  pose proof (Z.mod_pos_bound (rho * P) 15625 ltac:(lia)) as BR.
  set (t := (rho * P) / 15625) in *.
  symmetry. apply Z.div_unique with (r := v - n * P); [| ring].
  left.
  destruct (Z.eq_dec rho 0) as [Z0 | NZ].
  - assert (T0 : t = 0) by (subst t; rewrite Z0; reflexivity).
    assert (M0 : (N * P) mod 15625 = 0).
    { replace (N * P) with (0 + n * P * 15625) by (rewrite DN, Z0; ring).
      rewrite Z.mod_add by lia. reflexivity. }
    assert (Q4 : q mod 4 = 0).
    { rewrite Hq, T0, Z.add_0_r. apply Z.mod_divide; [lia |].
      apply Z.divide_mul_r, Z.mod_divide; [lia | exact HP4]. }
    rewrite (Hx M0 Q4), Hq, T0. lia.
  - assert (L : P <= rho * P) by nia.
    assert (U : rho * P <= 15624 * P) by nia.
    lia.
Qed.

(** The double quotient truncated by the cast is exactly the integer
    quotient of the frequency by the step 15625 / 256. *)
Lemma fsk_frf_value f :
  0 <= f < 2 ^ 32 -> fsk_frf f = f * 256 / 15625.
Proof.
  intros Hf. unfold fsk_frf.
  destruct (Z.eq_dec f 0) as [-> | NZ]; [reflexivity |].
  destruct (of_Z_binary64 f) as (m1 & E1 & V1 & B1); [lia |].
  pose proof (Zdigits2_bounds f ltac:(lia)) as Bd.
  pose proof (Zdigits2_pos f ltac:(lia)) as Pd.
  set (d := Zdigits2 f) in *.
  assert (Hd : 1 <= d <= 32).
  { split; [lia |].
    destruct (Z_le_gt_dec d 32) as [L | G]; [exact L | exfalso].
    assert (2 ^ 32 <= 2 ^ (d - 1)) by (apply Z.pow_le_mono_r; lia). lia. }
  rewrite E1, fsk_freq_step_value. unfold Float.div.
  cbn [Float.prec Float.emax Float.binary64].
  destruct (SFdiv_value m1 (d - 53) 8589934592000000 (-47))
    as (m & j & E & Hj & V & X); [exact B1 | cbn; lia | lia |].
  rewrite E. unfold double_to_uint32, Float.trunc.
  destruct (d - 53 - -47 - 53 + j) as [| k | k] eqn:K; try lia.
  assert (Hk : Zpos k = 59 - d - j) by lia.
  set (P := 2 ^ (59 - d)).
  assert (HP : 2 ^ 27 <= P) by (apply Z.pow_le_mono_r; lia).
  assert (HP4 : P mod 4 = 0).
  { subst P. replace (59 - d) with (2 + (57 - d)) by lia.
    rewrite Z.pow_add_r by lia. change (2 ^ 2) with 4.
    rewrite Z.mul_comm. apply Z.mod_mul. lia. }
  assert (A : Zpos m1 * 2 ^ 53 = (f * 256 * P) * 2 ^ 39).
  { rewrite V1. subst P. change 256 with (2 ^ 8).
    rewrite <- !Z.mul_assoc, <- !Z.pow_add_r by lia.
    do 2 f_equal. lia. }
  assert (B : Zpos 8589934592000000 = 15625 * 2 ^ 39) by reflexivity.
  assert (Q : (Zpos m1 * 2 ^ 53) / Zpos 8589934592000000 = (f * 256 * P) / 15625)
    by (rewrite A, B; apply Z.div_mul_cancel_r; lia).
  assert (R : (Zpos m1 * 2 ^ 53) mod Zpos 8589934592000000
              = ((f * 256 * P) mod 15625) * 2 ^ 39)
    by (rewrite A, B; apply Z.mul_mod_distr_r; lia).
  rewrite Q in V, X.
  assert (S : Zpos m / 2 ^ Zpos k = (Zpos m * 2 ^ j) / P).
  { subst P. rewrite Hk. replace (59 - d) with (59 - d - j + j) at 2 by lia.
    rewrite Z.pow_add_r by lia. symmetry. apply Z.div_mul_cancel_r.
    - apply Z.pow_nonzero; lia.
    - apply Z.pow_nonzero; lia. }
  rewrite S, (quotient_stable (f * 256) P (Zpos m * 2 ^ j)).
  - unfold Int.to_uint32, Int.UINT32_MOD. apply Z.mod_small. split.
    + apply Z.div_pos; lia.
    + apply Z.div_lt_upper_bound; lia.
  - lia.
  - exact HP.
  - exact HP4.
  - exact V.
  - intros M0 Q4. apply X; [| exact Q4]. rewrite R, M0. reflexivity.
Qed.

(** The FSK word is the same as the one the LoRa branch computes in integer
    arithmetic. *)
Lemma fsk_frf_is_lora_frf f :
  0 <= f < 2 ^ 32 -> fsk_frf f = lora_frf f.
Proof.
  intros Hf. rewrite fsk_frf_value by exact Hf. unfold lora_frf, SX127X_FXOSC.
  rewrite Z.shiftl_mul_pow2 by lia.
  change (2 ^ 19) with (256 * 2048). change 32000000 with (15625 * 2048).
  rewrite Z.mul_assoc. symmetry. apply Z.div_mul_cancel_r; lia.
Qed.

End TuningWord.

(** ** Binary32 rounding: coarse bounds for the PPM computation *)

Module Binary32Facts.
Import Binary64Facts.

Lemma shr_m_shr_1 mrs :
0 <= shr_m mrs -> shr_m (shr_1 mrs) = shr_m mrs / 2.
Proof.
destruct mrs as [m r s]. cbn [shr_m]. intros H.
destruct m as [| [p | p |] | p]; cbn [shr_1 shr_m]; try lia.
- reflexivity.
- apply Z.div_unique with (r := 1); lia.
- apply Z.div_unique with (r := 0); lia.
- reflexivity.
Qed.

Lemma shr_m_iter n :
forall mrs, 0 <= shr_m mrs ->
            shr_m (iter_pos shr_1 n mrs) = shr_m mrs / 2 ^ Zpos n.
Proof.
induction n as [n IH | n IH |]; intros mrs H; cbn [iter_pos].
- assert (H1 : 0 <= shr_m (shr_1 mrs))
    by (rewrite shr_m_shr_1 by exact H; apply Z.div_pos; lia).
  assert (H2 : 0 <= shr_m (iter_pos shr_1 n (shr_1 mrs)))
    by (rewrite IH by exact H1; apply Z.div_pos; [lia | apply Z.pow_pos_nonneg; lia]).
  rewrite IH, IH, shr_m_shr_1 by assumption.
  rewrite !Z.div_div
    by (first [apply Z.pow_pos_nonneg; lia | apply Z.pow_nonzero; lia | lia]).
  f_equal. replace (Zpos n~1) with (1 + Zpos n + Zpos n) by lia.
  rewrite !Z.pow_add_r by lia. change (2 ^ 1) with 2. ring.
- assert (H2 : 0 <= shr_m (iter_pos shr_1 n mrs))
    by (rewrite IH by exact H; apply Z.div_pos; [lia | apply Z.pow_pos_nonneg; lia]).
  rewrite IH, IH by assumption.
  rewrite !Z.div_div
    by (first [apply Z.pow_pos_nonneg; lia | apply Z.pow_nonzero; lia | lia]).
  f_equal. replace (Zpos n~0) with (Zpos n + Zpos n) by lia.
  rewrite !Z.pow_add_r by lia. ring.
- rewrite shr_m_shr_1 by exact H. reflexivity.
Qed.

(** The first normalisation: the mantissa is cut down to 24 digits. *)
Lemma shr_fexp_24 m e l :
0 < m -> 24 <= Zdigits2 m -> -149 <= e + (Zdigits2 m - 24) ->
exists mrs,
  shr_fexp 24 128 m e l = (mrs, e + (Zdigits2 m - 24)) /\
  shr_m mrs = m / 2 ^ (Zdigits2 m - 24).
Proof.
intros Hm Hd He. unfold shr_fexp.
replace (fexp 24 128 (Zdigits2 m + e) - e) with (Zdigits2 m - 24)
  by (unfold fexp, emin; lia).
destruct (Zdigits2 m - 24) as [| n | n] eqn:N; try lia.
- eexists. rewrite Z.add_0_r. split; [reflexivity |].
  rewrite shr_m_of_loc. rewrite Z.div_1_r. reflexivity.
- eexists. split; [reflexivity |].
  rewrite shr_m_iter by (rewrite shr_m_of_loc; lia).
  rewrite shr_m_of_loc. reflexivity.
Qed.

(** Rounding to binary32 a mantissa of at least 24 digits, away from
  underflow and overflow: the result is a normal number whose value is
  within one unit in the last place of the mantissa it was given. *)
Lemma binary_round_aux_coarse s m e l :
0 < m -> 24 <= Zdigits2 m ->
-149 <= e + (Zdigits2 m - 24) -> e + (Zdigits2 m - 24) < 104 ->
exists m' j,
  binary_round_aux 24 128 s m e l = S754_finite s m' (e + j) /\
  2 ^ 23 <= Zpos m' < 2 ^ 24 /\
  Zdigits2 m - 24 <= j <= Zdigits2 m - 23 /\
  m - 2 ^ (Zdigits2 m - 24) < Zpos m' * 2 ^ j <= m + 2 ^ (Zdigits2 m - 24).
Proof.
intros Hm Hd He Ho.
pose proof (Zdigits2_bounds m Hm) as Bm.
set (n := Zdigits2 m - 24) in *.
assert (Hn : 0 <= n) by lia.
assert (P : 0 < 2 ^ n) by (apply Z.pow_pos_nonneg; lia).
assert (E1 : 2 ^ (Zdigits2 m - 1) = 2 ^ 23 * 2 ^ n)
  by (rewrite <- Z.pow_add_r by lia; f_equal; lia).
assert (E2 : 2 ^ Zdigits2 m = 2 ^ 24 * 2 ^ n)
  by (rewrite <- Z.pow_add_r by lia; f_equal; lia).
unfold binary_round_aux.
destruct (shr_fexp_24 m e l Hm Hd He) as (mrs & E & Hs). fold n in E, Hs.
rewrite E.
pose proof (Z_div_mod_eq_full m (2 ^ n)) as D.
pose proof (Z.mod_pos_bound m (2 ^ n) P) as R.
rewrite <- Hs in D.
assert (B0 : 2 ^ 23 <= shr_m mrs < 2 ^ 24) by nia.
pose proof (round_nearest_even_bounds (shr_m mrs) (loc_of_shr_record mrs)) as Hr.
set (m1 := round_nearest_even (shr_m mrs) (loc_of_shr_record mrs)) in *.
destruct (Z.eq_dec m1 (2 ^ 24)) as [C | NC].
- (* the rounding carried into a 25th digit *)
  assert (F : shr_fexp 24 128 m1 (e + n) loc_Exact
              = (Build_shr_record (2 ^ 23) false false, e + n + 1)).
  { rewrite C. unfold shr_fexp.
    change (Zdigits2 (2 ^ 24)) with 25.
    replace (fexp 24 128 (25 + (e + n)) - (e + n)) with 1
      by (unfold fexp, emin; lia).
    reflexivity. }
  rewrite F. cbn [shr_m]. change (2 ^ 23) with 8388608.
  replace (e + n + 1 <=? 128 - 24) with true by (symmetry; apply Z.leb_le; lia).
  exists 8388608%positive, (n + 1).
  replace (e + (n + 1)) with (e + n + 1) by lia.
  split; [reflexivity |]. split; [cbn; lia |]. split; [lia |].
  rewrite Z.pow_add_r by lia. change (2 ^ 1) with 2.
  replace (Zpos 8388608 * (2 ^ n * 2)) with (2 ^ 24 * 2 ^ n)
    by (change (2 ^ 24) with 16777216; lia).
  nia.
- assert (B1 : 2 ^ 23 <= m1 < 2 ^ 24) by lia.
  assert (F : shr_fexp 24 128 m1 (e + n) loc_Exact
              = (Build_shr_record m1 false false, e + n)).
  { unfold shr_fexp. rewrite (Zdigits2_unique m1 24) by (cbn; lia).
    replace (fexp 24 128 (24 + (e + n)) - (e + n)) with 0
      by (unfold fexp, emin; lia).
    reflexivity. }
  rewrite F. cbn [shr_m].
  destruct m1 as [| p | p] eqn:M1; try (cbn in B1; lia).
  replace (e + n <=? 128 - 24) with true by (symmetry; apply Z.leb_le; lia).
  exists p, n. split; [reflexivity |]. split; [exact B1 |]. split; [lia |].
  nia.
Qed.

End Binary32Facts.

(** ** The clamp of the PPM correction *)

Lemma ppm_correction_of_range u f e : -128 <= ppm_correction_of u f e <= 127.
Proof.
  unfold ppm_correction_of, Int.MIN, Int.MAX.
  destruct (lrintf u (ppm_operand f e) >? -128) eqn:A; rewrite Z.gtb_ltb in A;
    [apply Z.ltb_lt in A | apply Z.ltb_ge in A];
    match goal with
    | |- context [if ?b then _ else _] => destruct b eqn:B
    end;
    try apply Z.ltb_lt in B; try apply Z.ltb_ge in B; lia.
Qed.

Lemma ppm_correction_of_defined u f e n :
  lrintf_defined (ppm_operand f e) = Some n ->
  ppm_correction_of u f e = spec_clamp_int8 n.
Proof.
  intros H. unfold ppm_correction_of, lrintf, spec_clamp_int8, Int.MIN, Int.MAX.
  rewrite H.
  destruct (n >? -128) eqn:A; rewrite Z.gtb_ltb in A;
    [apply Z.ltb_lt in A | apply Z.ltb_ge in A];
    match goal with
    | |- context [if ?b then _ else _] => destruct b eqn:B
    end;
    try apply Z.ltb_lt in B; try apply Z.ltb_ge in B; lia.
Qed.


(** ** Accuracy of the single-precision PPM computation *)

Module PpmAccuracy.
Import Binary64Facts Binary32Facts.

Local Open Scope R_scope.

Lemma pow2_IZR (n : Z) : (0 <= n)%Z -> IZR (2 ^ n) = powerRZ 2 n.
Proof.
intros H. rewrite <- (Z2Nat.id n H).
rewrite <- pow_IZR, pow_powerRZ. reflexivity.
Qed.

Lemma pow2_pos (e : Z) : 0 < powerRZ 2 e.
Proof. apply powerRZ_lt. lra. Qed.

Lemma mag_pos m e : 0 < mag m e.
Proof.
unfold mag. apply Rmult_lt_0_compat; [| apply pow2_pos].
apply IZR_lt. reflexivity.
Qed.

Lemma mag_shift m j e :
(0 <= j)%Z -> mag m (e + j) = IZR (Zpos m * 2 ^ j) * powerRZ 2 e.
Proof.
intros H. unfold mag.
rewrite mult_IZR, pow2_IZR, powerRZ_add by (assumption || lra). ring.
Qed.

(** Rounding to binary32, in real terms: the rounded magnitude is within
  [2^-23] of the mantissa it was computed from, relatively. *)
Lemma round_R s (m : Z) e l :
(0 < m)%Z -> (24 <= Zdigits2 m)%Z ->
(-149 <= e + (Zdigits2 m - 24))%Z -> (e + (Zdigits2 m - 24) < 104)%Z ->
exists m' e',
  binary_round_aux 24 128 s m e l = S754_finite s m' e' /\
  normal32 m' e' (e + (Zdigits2 m - 24)) (e + (Zdigits2 m - 23)) /\
  Rabs (mag m' e' - IZR m * powerRZ 2 e)
  <= IZR (2 ^ (Zdigits2 m - 24)) * powerRZ 2 e /\
  IZR (2 ^ (Zdigits2 m - 24)) <= u23 * IZR m.
Proof.
intros Hm Hd He Ho.
destruct (binary_round_aux_coarse s m e l Hm Hd He Ho)
  as (m' & j & E & N & Hj & V).
pose proof (Zdigits2_bounds m Hm) as [Bl _].
set (n := (Zdigits2 m - 24)%Z) in *.
assert (Hn : (0 <= n)%Z) by lia.
exists m', (e + j)%Z. split; [exact E |]. split; [split; [exact N | lia] |].
split.
- rewrite mag_shift by lia.
  rewrite <- Rmult_minus_distr_r, Rabs_mult.
  rewrite (Rabs_right (powerRZ 2 e)) by (left; apply pow2_pos).
  apply Rmult_le_compat_r; [left; apply pow2_pos |].
  rewrite <- minus_IZR, <- abs_IZR. apply IZR_le. lia.
- assert (L : (2 ^ n * 2 ^ 23 <= m)%Z).
  { rewrite <- Z.pow_add_r by lia.
    replace (n + 23)%Z with (Zdigits2 m - 1)%Z by lia. exact Bl. }
  apply IZR_le in L. rewrite mult_IZR in L.
  change (IZR (2 ^ 23)) with 8388608 in L. unfold u23. lra.
Qed.

Lemma Zdigits2_range q lo hi :
(0 <= lo)%Z -> (2 ^ lo <= q < 2 ^ hi)%Z -> (lo < Zdigits2 q <= hi)%Z.
Proof.
intros Hlo [L U].
assert (Hq : (0 < q)%Z) by (pose proof (Z.pow_pos_nonneg 2 lo); lia).
pose proof (Zdigits2_bounds q Hq) as [Bl Bu].
pose proof (Zdigits2_pos q Hq) as Hp.
split.
- destruct (Z_lt_ge_dec lo (Zdigits2 q)) as [H | H]; [exact H | exfalso].
  assert (2 ^ Zdigits2 q <= 2 ^ lo)%Z by (apply Z.pow_le_mono_r; lia). lia.
- destruct (Z_le_gt_dec (Zdigits2 q) hi) as [H | H]; [exact H | exfalso].
  assert (2 ^ hi <= 2 ^ (Zdigits2 q - 1))%Z by (apply Z.pow_le_mono_r; lia). lia.
Qed.

(** Conversion of a non-zero 32-bit magnitude to binary32. *)
Lemma binary_round_R s p :
(Zpos p < 2 ^ 32)%Z ->
exists m e,
  binary_round 24 128 s p 0 = S754_finite s m e /\
  normal32 m e (-23) 9 /\
  rel_close u23 (mag m e) (IZR (Zpos p)).
Proof.
intros Hp.
pose proof (digits2_pos_bounds p) as Bd.
destruct (Zdigits2_range (Zpos p) 0 32) as [D1 D2]; [lia | cbn; lia |].
cbn [Zdigits2] in D1, D2. set (d := Zpos (digits2_pos p)) in *.
unfold binary_round, shl_align. fold d.
replace (fexp 24 128 (d + 0)) with (d - 24)%Z by (unfold fexp, emin; lia).
destruct (d - 24 - 0)%Z as [| k | k] eqn:K.
- (* exactly 24 digits *)
  destruct (round_R s (Zpos p) 0 loc_Exact) as (m & e & E & [N Ne] & A & B);
    cbn [Zdigits2]; fold d; try lia.
  cbn [Zdigits2] in *. fold d in Ne, A, B.
  exists m, e. split; [exact E |]. split; [split; [exact N | lia] |].
  unfold rel_close. rewrite powerRZ_O, !Rmult_1_r in A. lra.
- (* more than 24 digits: rounded *)
  destruct (round_R s (Zpos p) 0 loc_Exact) as (m & e & E & [N Ne] & A & B);
    cbn [Zdigits2]; fold d; try lia.
  cbn [Zdigits2] in *. fold d in Ne, A, B.
  exists m, e. split; [exact E |]. split; [split; [exact N | lia] |].
  unfold rel_close. rewrite powerRZ_O, !Rmult_1_r in A. lra.
- (* fewer than 24 digits: shifted left, exact *)
  assert (Hk : (Zpos k = 24 - d)%Z) by lia.
  pose proof (iter_xO_value p k) as V. rewrite Hk in V.
  set (mz := Pos.iter xO p k) in *.
  assert (P1 : (2 ^ (d - 1) * 2 ^ (24 - d) = 2 ^ 23)%Z)
    by (rewrite <- Z.pow_add_r by lia; f_equal; lia).
  assert (P2 : (2 ^ d * 2 ^ (24 - d) = 2 ^ 24)%Z)
    by (rewrite <- Z.pow_add_r by lia; f_equal; lia).
  assert (P0 : (0 < 2 ^ (24 - d))%Z) by (apply Z.pow_pos_nonneg; lia).
  assert (Bz : (2 ^ 23 <= Zpos mz < 2 ^ 24)%Z).
  { rewrite V, <- P1, <- P2. split.
    - apply Z.mul_le_mono_nonneg_r; lia.
    - apply Z.mul_lt_mono_pos_r; lia. }
  assert (Dz : Zdigits2 (Zpos mz) = 24%Z)
    by (apply Zdigits2_unique; [exact Bz | lia]).
  destruct (round_R s (Zpos mz) (d - 24) loc_Exact) as (m & e & E & [N Ne] & A & B);
    rewrite ?Dz; try lia.
  rewrite Dz in *.
  exists m, e. split; [exact E |]. split; [split; [exact N | lia] |].
  unfold rel_close.
  assert (X : IZR (Zpos mz) * powerRZ 2 (d - 24) = IZR (Zpos p)).
  { rewrite V, mult_IZR, pow2_IZR by lia.
    rewrite Rmult_assoc, <- powerRZ_add by lra.
    replace (24 - d + (d - 24))%Z with 0%Z by lia. rewrite powerRZ_O. ring. }
  rewrite X in A. rewrite <- X at 2.
  eapply Rle_trans; [exact A |].
  rewrite <- Rmult_assoc. apply Rmult_le_compat_r; [left; apply pow2_pos | exact B].
Qed.

Lemma of_Z_R n :
(n <> 0)%Z -> (Z.abs n < 2 ^ 32)%Z ->
exists m e,
  Float.of_Z Float.binary32 n = S754_finite (n <? 0)%Z m e /\
  normal32 m e (-23) 9 /\
  rel_close u23 (mag m e) (IZR (Z.abs n)).
Proof.
intros Hn Ha. unfold Float.of_Z, binary_normalize.
cbn [Float.prec Float.emax Float.binary32].
destruct n as [| p | p]; [contradiction | |]; apply binary_round_R; exact Ha.
Qed.

(** Division of normal numbers by a positive normal number. *)
Lemma div_R sx mx ex my ey :
(2 ^ 23 <= Zpos mx < 2 ^ 24)%Z -> (2 ^ 23 <= Zpos my < 2 ^ 24)%Z ->
(-149 <= ex - ey - 24)%Z -> (ex - ey - 24 < 102)%Z ->
exists m e,
  SFdiv 24 128 (S754_finite sx mx ex) (S754_finite false my ey)
  = S754_finite sx m e /\
  normal32 m e (ex - ey - 24) (ex - ey - 22) /\
  rel_close u22 (mag m e) (mag mx ex / mag my ey).
Proof.
intros Hx Hy Hl Hh.
unfold SFdiv, SFdiv_core_binary.
rewrite (Zdigits2_unique (Zpos mx) 24), (Zdigits2_unique (Zpos my) 24)
  by (cbn; lia).
replace (Z.min (fexp 24 128 (24 + ex - (24 + ey))) (ex - ey))
  with (ex - ey - 24)%Z by (unfold fexp, emin; lia).
replace (ex - ey - (ex - ey - 24))%Z with 24%Z by lia.
cbv iota. rewrite Z.shiftl_mul_pow2 by lia.
set (q := (Zpos mx * 2 ^ 24 / Zpos my)%Z).
destruct (Z.div_eucl (Zpos mx * 2 ^ 24) (Zpos my)) as [q' r] eqn:D.
assert (Q : q' = q) by (subst q; unfold Z.div; rewrite D; reflexivity).
rewrite Q. clear D Q q'. replace (xorb sx false) with sx by (destruct sx; reflexivity).
pose proof (Z_div_mod_eq_full (Zpos mx * 2 ^ 24) (Zpos my)) as DM.
pose proof (Z.mod_pos_bound (Zpos mx * 2 ^ 24) (Zpos my) ltac:(lia)) as RM.
fold q in DM.
assert (Bq : (2 ^ 23 <= q < 2 ^ 25)%Z).
{ subst q. split.
  - apply Z.div_le_lower_bound; [lia |].
    change (2 ^ 24)%Z with (2 * 2 ^ 23)%Z. nia.
  - apply Z.div_lt_upper_bound; [lia |].
    change (2 ^ 25)%Z with (2 ^ 24 * 2)%Z.
    change (2 ^ 24)%Z with (2 * 2 ^ 23)%Z at 2. nia. }
destruct (Zdigits2_range q 23 25) as [D1 D2]; [lia | exact Bq |].
destruct (round_R sx q (ex - ey - 24) (new_location (Zpos my) r))
  as (m & e & E & [N Ne] & A & B); try lia.
exists m, e. split; [exact E |]. split; [split; [exact N | lia] |].
unfold rel_close.
set (P := powerRZ 2 (ex - ey - 24)) in *.
assert (HP : 0 < P) by apply pow2_pos.
(* the exact quotient, scaled *)
assert (X : mag mx ex / mag my ey
            = IZR (Zpos mx * 2 ^ 24) / IZR (Zpos my) * P).
{ unfold mag, P. rewrite mult_IZR, pow2_IZR by lia.
  replace ex with (ey + 24 + (ex - ey - 24))%Z at 1 by lia.
  rewrite !powerRZ_add by lra.
  field.
  repeat split;
    first [apply Rgt_not_eq, pow2_pos | apply Rgt_not_eq, IZR_lt; reflexivity]. }
assert (Hy0 : 0 < IZR (Zpos my)) by (apply IZR_lt; reflexivity).
set (rho := IZR (Zpos mx * 2 ^ 24) / IZR (Zpos my)) in *.
assert (Hr : IZR q <= rho < IZR q + 1).
{ subst rho. rewrite DM at 1 2. rewrite plus_IZR, mult_IZR.
  destruct RM as [R0 R1]. apply IZR_le in R0. apply IZR_lt in R1.
  set (rr := IZR ((Zpos mx * 2 ^ 24) mod Zpos my)) in *.
  split.
  - apply Rmult_le_reg_r with (IZR (Zpos my)); [exact Hy0 |].
    unfold Rdiv. rewrite Rmult_assoc, Rinv_l by lra. lra.
  - apply Rmult_lt_reg_r with (IZR (Zpos my)); [exact Hy0 |].
    unfold Rdiv. rewrite Rmult_assoc, Rinv_l by lra. lra. }
assert (H1 : 1 <= IZR (2 ^ (Zdigits2 q - 24)))
  by (apply IZR_le; pose proof (Z.pow_pos_nonneg 2 (Zdigits2 q - 24)); lia).
assert (Hq : 0 < IZR q) by (apply IZR_lt; lia).
rewrite X.
replace (mag m e - rho * P)
  with ((mag m e - IZR q * P) + (IZR q - rho) * P) by ring.
eapply Rle_trans; [apply Rabs_triang |].
rewrite (Rabs_mult (IZR q - rho)), (Rabs_right P) by lra.
assert (H2 : Rabs (IZR q - rho) <= 1) by (apply Rabs_le; lra).
assert (H3 : Rabs (IZR q - rho) * P <= 1 * P)
  by (apply Rmult_le_compat_r; lra).
assert (H4 : IZR (2 ^ (Zdigits2 q - 24)) * P <= u23 * IZR q * P)
  by (apply Rmult_le_compat_r; lra).
assert (H5 : 1 * P <= u23 * IZR q * P)
  by (apply Rmult_le_compat_r; lra).
assert (H6 : IZR q * P <= rho * P) by (apply Rmult_le_compat_r; lra).
unfold u22, u23 in *. lra.
Qed.

(** Multiplication of a positive normal number by a normal number. *)
Lemma mul_R mx ex sy my ey :
(2 ^ 23 <= Zpos mx < 2 ^ 24)%Z -> (2 ^ 23 <= Zpos my < 2 ^ 24)%Z ->
(-149 <= ex + ey + 23)%Z -> (ex + ey + 24 < 104)%Z ->
exists m e,
  SFmul 24 128 (S754_finite false mx ex) (S754_finite sy my ey)
  = S754_finite sy m e /\
  normal32 m e (ex + ey + 23) (ex + ey + 25) /\
  rel_close u23 (mag m e) (mag mx ex * mag my ey).
Proof.
intros Hx Hy Hl Hh. unfold SFmul. cbn [xorb].
assert (Bp : (2 ^ 46 <= Zpos (mx * my) < 2 ^ 48)%Z).
{ rewrite Pos2Z.inj_mul.
  change (2 ^ 46)%Z with (2 ^ 23 * 2 ^ 23)%Z.
  change (2 ^ 48)%Z with (2 ^ 24 * 2 ^ 24)%Z. nia. }
destruct (Zdigits2_range (Zpos (mx * my)) 46 48) as [D1 D2]; [lia | exact Bp |].
destruct (round_R sy (Zpos (mx * my)) (ex + ey) loc_Exact)
  as (m & e & E & [N Ne] & A & B); try lia.
exists m, e. split; [exact E |]. split; [split; [exact N | lia] |].
unfold rel_close.
assert (X : mag mx ex * mag my ey
            = IZR (Zpos (mx * my)) * powerRZ 2 (ex + ey)).
{ unfold mag. rewrite Pos2Z.inj_mul, mult_IZR, powerRZ_add by lra. ring. }
rewrite X. eapply Rle_trans; [exact A |].
rewrite <- Rmult_assoc. apply Rmult_le_compat_r; [left; apply pow2_pos | exact B].
Qed.

(** *** Propagation of the rounding errors *)

Lemma rel_close_bounds eps x y :
rel_close eps x y -> y - eps * y <= x <= y + eps * y.
Proof.
unfold rel_close, Rabs. destruct (Rcase_abs (x - y)); lra.
Qed.

Lemma Rabs_le_bounds x y : Rabs x <= y -> - y <= x <= y.
Proof. unfold Rabs. destruct (Rcase_abs x); lra. Qed.

Lemma div_interval x y xl xh yl yh :
0 < yl -> yl <= y <= yh -> 0 <= xl -> xl <= x <= xh ->
xl / yh <= x / y <= xh / yl.
Proof.
intros Hyl [Hy1 Hy2] Hxl [Hx1 Hx2].
assert (I1 : / yh <= / y) by (apply Rinv_le_contravar; lra).
assert (I2 : / y <= / yl) by (apply Rinv_le_contravar; lra).
assert (P1 : 0 < / yh) by (apply Rinv_0_lt_compat; lra).
assert (P2 : 0 < / y) by (apply Rinv_0_lt_compat; lra).
unfold Rdiv. split.
- apply Rmult_le_compat; lra.
- apply Rmult_le_compat; lra.
Qed.

(** The five roundings of [0.95f * (E / (f / 1000000))] together move the
  result by less than one part in a million. *)
Lemma rounding_chain (f E a1 a2 a3 a4 a5 : R) :
0 < f -> 0 < E ->
rel_close u23 a1 f ->
rel_close u22 a2 (a1 / 1000000) ->
rel_close u23 a3 E ->
rel_close u22 a4 (a3 / a2) ->
rel_close u23 a5 (15938355 / 16777216 * a4) ->
rel_close (/ 1000000) a5 (950000 * (E / f)).
Proof.
intros Hf HE C1 C2 C3 C4 C5.
apply rel_close_bounds in C1, C2, C3, C4, C5.
unfold u23, u22 in *.
set (Y := E / f).
assert (HY : 0 < Y) by (apply Rdiv_lt_0_compat; assumption).
set (l1 := 1 - / 8388608). set (h1 := 1 + / 8388608).
set (l2 := l1 * (1 - / 4194304) / 1000000).
set (h2 := h1 * (1 + / 4194304) / 1000000).
assert (B2 : l2 * f <= a2 <= h2 * f) by (unfold l2, h2, l1, h1; lra).
assert (B3 : l1 * E <= a3 <= h1 * E) by (unfold l1, h1; lra).
assert (Pl1 : 0 < l1) by (unfold l1; lra).
assert (Pl2 : 0 < l2) by (unfold l2, l1; lra).
assert (Ph2 : 0 < h2) by (unfold h2, h1; lra).
destruct (div_interval a3 a2 (l1 * E) (h1 * E) (l2 * f) (h2 * f)) as [T1 T2].
- apply Rmult_lt_0_compat; assumption.
- exact B2.
- apply Rmult_le_pos; lra.
- exact B3.
- assert (E1 : l1 * E / (h2 * f) = l1 / h2 * Y) by (unfold Y; field; lra).
  assert (E2 : h1 * E / (l2 * f) = h1 / l2 * Y) by (unfold Y; field; lra).
  rewrite E1 in T1. rewrite E2 in T2.
  set (t := a3 / a2) in *.
  assert (K1 : l1 / h2 = 1000000 * (l1 / (h1 * (1 + / 4194304))))
    by (unfold h2; field; unfold h1; lra).
  assert (K2 : h1 / l2 = 1000000 * (h1 / (l1 * (1 - / 4194304))))
    by (unfold l2; field; unfold l1; lra).
  rewrite K1 in T1. rewrite K2 in T2.
  assert (N1 : 999999 / 1000000 + 4 / 10000000 <= l1 / (h1 * (1 + / 4194304))).
  { apply Rmult_le_reg_r with (h1 * (1 + / 4194304)); [unfold h1; lra |].
    unfold Rdiv at 3. rewrite Rmult_assoc, Rinv_l by (unfold h1; lra).
    unfold l1, h1. lra. }
  assert (N2 : h1 / (l1 * (1 - / 4194304)) <= 1 + 6 / 10000000).
  { apply Rmult_le_reg_r with (l1 * (1 - / 4194304)); [unfold l1; lra |].
    unfold Rdiv at 1. rewrite Rmult_assoc, Rinv_l by (unfold l1; lra).
    unfold l1, h1. lra. }
  set (g1 := l1 / (h1 * (1 + / 4194304))) in *.
  set (g2 := h1 / (l1 * (1 - / 4194304))) in *.
  assert (M1 : (999999 / 1000000 + 4 / 10000000) * Y <= g1 * Y)
    by (apply Rmult_le_compat_r; lra).
  assert (M2 : g2 * Y <= (1 + 6 / 10000000) * Y)
    by (apply Rmult_le_compat_r; lra).
  unfold rel_close. apply Rabs_le. lra.
Qed.

(** *** The operand of [lrintf] *)

Lemma of_Z_1000000 :
Float.of_Z Float.binary32 1000000 = S754_finite false 16000000 (-4).
Proof. reflexivity. Qed.

Lemma literal_0_95f :
Float.literal Float.binary32 95 100 = S754_finite false 15938355 (-24).
Proof. vm_compute. reflexivity. Qed.

Lemma mag_1000000 : mag 16000000 (-4) = 1000000.
Proof. unfold mag, powerRZ. simpl. lra. Qed.

Lemma mag_0_95f : mag 15938355 (-24) = 15938355 / 16777216.
Proof. unfold mag, powerRZ. simpl. lra. Qed.

(** For an effective frequency of at least 1 MHz and a non-zero error the
  operand is a normal number with the sign of the error, within one part
  in a million of [950000 * |error| / freq]. *)
Lemma ppm_operand_R f E :
(1000000 <= f < 2 ^ 32)%Z -> (E <> 0)%Z -> (Z.abs E <= 2 ^ 31)%Z ->
exists m e,
  ppm_operand f E = S754_finite (E <? 0)%Z m e /\
  normal32 m e (-39) 31 /\
  rel_close (/ 1000000) (mag m e) (950000 * (IZR (Z.abs E) / IZR f)).
Proof.
intros Hf HE HA. unfold ppm_operand.
destruct (of_Z_R f) as (m1 & e1 & E1 & [N1 X1] & R1); [lia | lia |].
destruct (of_Z_R E) as (m3 & e3 & E3 & [N3 X3] & R3); [exact HE | lia |].
replace (f <? 0)%Z with false in E1 by (symmetry; apply Z.ltb_ge; lia).
rewrite (Z.abs_eq f) in R1 by lia.
rewrite E1, E3, of_Z_1000000, literal_0_95f.
unfold Float.div, Float.mul. cbn [Float.prec Float.emax Float.binary32].
destruct (div_R false m1 e1 16000000 (-4)) as (m2 & e2 & E2 & [N2 X2] & R2);
  [exact N1 | cbn; lia | lia | lia |].
rewrite E2.
destruct (div_R (E <? 0)%Z m3 e3 m2 e2) as (m4 & e4 & E4 & [N4 X4] & R4);
  [exact N3 | exact N2 | lia | lia |].
rewrite E4.
destruct (mul_R 15938355 (-24) (E <? 0)%Z m4 e4) as (m5 & e5 & E5 & [N5 X5] & R5);
  [cbn; lia | exact N4 | lia | lia |].
rewrite E5. exists m5, e5. split; [reflexivity |].
split; [split; [exact N5 | lia] |].
rewrite mag_1000000 in R2. rewrite mag_0_95f in R5.
apply (rounding_chain (IZR f) (IZR (Z.abs E)) (mag m1 e1) (mag m2 e2)
                      (mag m3 e3) (mag m4 e4) (mag m5 e5)); try assumption.
- apply IZR_lt. lia.
- apply IZR_lt. lia.
Qed.

(** *** The two roundings to an integer *)

Lemma nearest_even_R s m e :
exists a,
  Float.nearest_even (S754_finite s m e) = Some a /\
  Rabs (IZR a - B2R (S754_finite s m e)) <= / 2.
Proof.
assert (G : exists b : Z,
           (match e with
            | Zneg p =>
                let q := (Zpos m / 2 ^ Zpos p)%Z in
                let r := (Zpos m mod 2 ^ Zpos p)%Z in
                match (2 * r ?= 2 ^ Zpos p)%Z with
                | Lt => q
                | Gt => (q + 1)%Z
                | Eq => if Z.even q then q else (q + 1)%Z
                end
            | _ => (Zpos m * 2 ^ e)%Z
            end) = b /\ Rabs (IZR b - mag m e) <= / 2).
{ destruct e as [| p | p].
  - eexists. split; [reflexivity |]. unfold mag.
    rewrite Z.pow_0_r, Z.mul_1_r, powerRZ_O, Rmult_1_r.
    replace (IZR (Zpos m) - IZR (Zpos m)) with 0 by ring.
    rewrite Rabs_R0. lra.
  - eexists. split; [reflexivity |]. unfold mag.
    rewrite mult_IZR, pow2_IZR by lia.
    replace (IZR (Zpos m) * powerRZ 2 (Zpos p) - IZR (Zpos m) * powerRZ 2 (Zpos p))
      with 0 by ring.
    rewrite Rabs_R0. lra.
  - set (k := Zpos p). set (P := (2 ^ k)%Z).
    assert (HP : (0 < P)%Z) by (apply Z.pow_pos_nonneg; lia).
    pose proof (Z_div_mod_eq_full (Zpos m) P) as D.
    pose proof (Z.mod_pos_bound (Zpos m) P HP) as B.
    cbv zeta. fold k. fold P.
    set (q := (Zpos m / P)%Z) in *. set (r := (Zpos m mod P)%Z) in *.
    assert (M : mag m (Zneg p) = IZR (Zpos m) / IZR P).
    { unfold mag, P. rewrite pow2_IZR by lia.
      change (Zneg p) with (- k)%Z. rewrite powerRZ_neg'. reflexivity. }
    assert (RP : 0 < IZR P) by (apply IZR_lt; exact HP).
    assert (Gen : forall b : Z, (2 * Z.abs (b * P - Zpos m) <= P)%Z ->
                             Rabs (IZR b - mag m (Zneg p)) <= / 2).
    { intros b Hb. rewrite M.
      replace (IZR b - IZR (Zpos m) / IZR P)
        with ((IZR b * IZR P - IZR (Zpos m)) * / IZR P) by (field; lra).
      rewrite Rabs_mult, (Rabs_right (/ IZR P))
        by (left; apply Rinv_0_lt_compat; exact RP).
      rewrite <- mult_IZR, <- minus_IZR, <- abs_IZR.
      apply IZR_le in Hb. rewrite mult_IZR in Hb.
      apply Rmult_le_reg_r with (IZR P); [exact RP |].
      rewrite Rmult_assoc, Rinv_l by lra. lra. }
    destruct (2 * r ?= P)%Z eqn:C.
    + apply Z.compare_eq in C.
      destruct (Z.even q); eexists; (split; [reflexivity |]); apply Gen; lia.
    + rewrite Z.compare_lt_iff in C. eexists. split; [reflexivity |]. apply Gen. lia.
    + rewrite Z.compare_gt_iff in C. eexists. split; [reflexivity |]. apply Gen. lia. }
destruct G as (b & Eb & Hb).
unfold Float.nearest_even. cbv zeta in Eb |- *. rewrite Eb.
destruct s; eexists; (split; [reflexivity |]); cbn [B2R].
- rewrite opp_IZR.
  replace (- IZR b - - mag m e) with (- (IZR b - mag m e)) by ring.
  rewrite Rabs_Ropp. exact Hb.
- exact Hb.
Qed.

Lemma spec_ppm_exact_R f E :
(0 < f)%Z ->
Rabs (IZR (spec_ppm_exact f E) - 950000 * (IZR E / IZR f)) <= / 2.
Proof.
intros Hf. unfold spec_ppm_exact.
pose proof (Z_div_mod_eq_full (2 * 950000 * E + f) (2 * f)) as D.
pose proof (Z.mod_pos_bound (2 * 950000 * E + f) (2 * f) ltac:(lia)) as B.
set (k := ((2 * 950000 * E + f) / (2 * f))%Z) in *.
set (r := ((2 * 950000 * E + f) mod (2 * f))%Z) in *.
assert (Rf : 0 < IZR f) by (apply IZR_lt; exact Hf).
assert (D' : 2 * 950000 * IZR E + IZR f = 2 * IZR f * IZR k + IZR r).
{ rewrite <- !mult_IZR, <- !plus_IZR. f_equal. exact D. }
destruct B as [B0 B1]. apply IZR_le in B0. apply IZR_lt in B1.
rewrite mult_IZR in B1.
replace (IZR k - 950000 * (IZR E / IZR f))
  with ((IZR f - IZR r) * / (2 * IZR f)) by (field_simplify_eq; lra).
apply Rabs_le.
assert (I : 0 < / (2 * IZR f)) by (apply Rinv_0_lt_compat; lra).
split.
- apply Rmult_le_reg_r with (2 * IZR f); [lra |].
  rewrite Rmult_assoc, Rinv_l by lra. lra.
- apply Rmult_le_reg_r with (2 * IZR f); [lra |].
  rewrite Rmult_assoc, Rinv_l by lra. lra.
Qed.

(** *** The cached correction against the exact one *)

Lemma ppm_operand_zero_error f :
(1000000 <= f < 2 ^ 32)%Z -> ppm_operand f 0 = S754_zero false.
Proof.
intros Hf. unfold ppm_operand.
destruct (of_Z_R f) as (m1 & e1 & E1 & [N1 X1] & _); [lia | lia |].
replace (f <? 0)%Z with false in E1 by (symmetry; apply Z.ltb_ge; lia).
rewrite E1, of_Z_1000000, literal_0_95f.
unfold Float.div, Float.mul. cbn [Float.prec Float.emax Float.binary32].
destruct (div_R false m1 e1 16000000 (-4)) as (m2 & e2 & E2 & _);
  [exact N1 | cbn; lia | lia | lia |].
rewrite E2. reflexivity.
Qed.

Lemma clamp_close (a k : Z) :
(Z.abs (a - k) <= 1)%Z ->
(Z.abs (spec_clamp_int8 a - spec_clamp_int8 k) <= 1)%Z.
Proof. unfold spec_clamp_int8. lia. Qed.

(** For every effective frequency of at least 1 MHz and every [int] error,
  the cached correction is within one of the exactly rounded, clamped
  value of the specification. *)
Lemma ppm_correction_within_one u f E :
(1000000 <= f < 2 ^ 32)%Z -> (- 2 ^ 31 <= E < 2 ^ 31)%Z ->
(Z.abs (ppm_correction_of u f E - spec_clamp_int8 (spec_ppm_exact f E)) <= 1)%Z.
Proof.
intros Hf HE.
destruct (Z.eq_dec E 0) as [-> | NZ].
- rewrite (ppm_correction_of_defined u f 0 0)
    by (rewrite ppm_operand_zero_error by exact Hf; reflexivity).
  unfold spec_ppm_exact. rewrite Z.mul_0_r, Z.add_0_l.
  rewrite Z.div_small by lia. unfold spec_clamp_int8. lia.
- destruct (ppm_operand_R f E) as (m & e & EQ & _ & RC); [exact Hf | exact NZ | lia |].
  destruct (nearest_even_R (E <? 0)%Z m e) as (a & Ea & Ha).
  pose proof (spec_ppm_exact_R f E ltac:(lia)) as Hk.
  set (k := spec_ppm_exact f E) in *.
  apply rel_close_bounds in RC.
  assert (Rf : 1000000 <= IZR f) by (apply IZR_le; lia).
  assert (RA : 1 <= IZR (Z.abs E) <= 2147483648)
    by (split; apply IZR_le; change (2 ^ 31)%Z with 2147483648%Z in HE; lia).
  set (Y := IZR (Z.abs E) / IZR f) in *.
  assert (HY : 0 < Y <= 2147483648 / 1000000).
  { subst Y. split; [apply Rdiv_lt_0_compat; lra |].
    destruct (div_interval (IZR (Z.abs E)) (IZR f) 0 2147483648 1000000 (IZR f));
      lra. }
  apply Rabs_le_bounds in Ha, Hk.
  assert (Sg : IZR E / IZR f = (if (E <? 0)%Z then - Y else Y)).
  { subst Y. destruct (E <? 0)%Z eqn:S.
    - apply Z.ltb_lt in S. rewrite (Z.abs_neq E) by lia. rewrite opp_IZR.
      field. lra.
    - apply Z.ltb_ge in S. rewrite (Z.abs_eq E) by lia. reflexivity. }
  rewrite Sg in Hk.
  assert (Ba : B2R (S754_finite (E <? 0)%Z m e)
               = if (E <? 0)%Z then - mag m e else mag m e) by reflexivity.
  rewrite Ba in Ha.
  assert (La : lrintf_defined (ppm_operand f E) = Some a).
  { unfold lrintf_defined. rewrite EQ, Ea.
    assert (R1 : -2147483648 <= IZR a <= 2147483647)
      by (destruct (E <? 0)%Z; lra).
    destruct R1 as [R1 R2]. apply le_IZR in R1, R2.
    unfold Int.LONG_MIN, Int.LONG_MAX.
    replace (- 2 ^ 31 <=? a)%Z with true by (symmetry; apply Z.leb_le; lia).
    replace (a <=? 2 ^ 31 - 1)%Z with true by (symmetry; apply Z.leb_le; lia).
    reflexivity. }
  rewrite (ppm_correction_of_defined u f E a La).
  destruct (Rle_lt_dec (950000 * Y) 1000) as [Small | Big].
  + apply clamp_close.
    assert (D : -2 < IZR (a - k) < 2)
      by (rewrite minus_IZR; destruct (E <? 0)%Z; lra).
    destruct D as [D1 D2]. apply lt_IZR in D1, D2. lia.
  + destruct (E <? 0)%Z.
    * assert (A1 : IZR a < -900) by lra. assert (K1 : IZR k < -900) by lra.
      apply lt_IZR in A1, K1. unfold spec_clamp_int8. lia.
    * assert (A1 : 900 < IZR a) by lra. assert (K1 : 900 < IZR k) by lra.
      apply lt_IZR in A1, K1. unfold spec_clamp_int8. lia.
Qed.

End PpmAccuracy.

(** ** The frequency synthesizer *)

Lemma with_fsk_freq_same r : with_fsk_freq r (fsk_freq r) = r.
Proof. destruct r; reflexivity. Qed.

Lemma with_lora_freq_same r : with_lora_freq r (lora_freq r) = r.
Proof. destruct r; reflexivity. Qed.

Lemma with_fsk_same s : with_fsk s (fsk s) = s.
Proof. destruct s; reflexivity. Qed.

Lemma with_lora_same s : with_lora s (lora s) = s.
Proof. destruct s; reflexivity. Qed.

Lemma with_state_same d : with_state d (state d) = d.
Proof. destruct d; reflexivity. Qed.

(** The PLL-lock wait returns as soon as the clock has passed the deadline,
    and changes nothing but the clock. *)
Lemma spin_until_returns deadline fuel :
  forall d,
    (0 < fuel)%nat -> deadline - clock d < Z.of_nat fuel ->
    exists d',
      spin_until fuel deadline d = Some (tt, d') /\
      state d' = state d /\ regs d' = regs d /\ fifo d' = fifo d /\
      spi_writes d' = spi_writes d.
Proof.
  induction fuel as [| fuel IH]; intros d Hf Hd; [lia |].
  cbn [spin_until]. unfold bind, time_micros_now.
  destruct (clock d <? deadline) eqn:E.
  - apply Z.ltb_lt in E.
    destruct (IH (mk_device (state d) (regs d) (fifo d) (spi_writes d) (clock d + 1)))
      as (d' & R & S); [lia | cbn; lia |].
    exists d'. split; [exact R | exact S].
  - eexists. split; [reflexivity |]. cbn. auto.
Qed.

Lemma set_frequency_blocks u freq error d :
  sx127x_set_frequency u freq error d =
  (tune_block (effective_freq freq error) ;;
   ppm_block u (effective_freq freq error) error) d.
Proof.
  unfold sx127x_set_frequency, tune_block, retune, ppm_block, effective_freq,
    bind, get_state.
  destruct (op_mode (state d)); destruct (negb _); unfold modify_state, ret;
    match goal with
    | |- context [when ?b ?c ?x] => destruct (when b c x) as [[[] ?] |]
    end; reflexivity.
Qed.

Lemma mode_step_writes d d' :
  mode_step d d' ->
  exists pre, mode_writes pre /\ spi_writes d' = spi_writes d ++ pre.
Proof.
  intros (_ & _ & _ & _ & [E | E]).
  - exists []. split; [constructor | rewrite E, app_nil_r; reflexivity].
  - eexists. split; [| exact E]. repeat constructor.
Qed.

(** The register writes and the wait that follow a changed, non-zero word. *)
Lemma retune_writes frf d :
  exists d1 pre,
    retune frf d = Some (tt, d1) /\
    same_config (state d) (state d1) /\
    mode_writes pre /\
    spi_writes d1 = spi_writes d ++ pre ++ frf_writes frf.
Proof.
  destruct (prepare_write_step d) as (d0 & E & S).
  destruct (mode_step_writes _ _ S) as (pre & Hpre & W).
  destruct S as (C & _).
  unfold retune, bind. rewrite E. unfold sx127x_write_reg, time_micros_now.
  match goal with
  | |- context [spin_until ?n ?dl ?x] =>
      destruct (spin_until_returns dl n x) as (d1 & R & St & _ & _ & Wr);
        [unfold PLL_LOCK_FUEL; lia | unfold PLL_LOCK_FUEL; cbn; lia |]
  end.
  exists d1, pre. split; [exact R |]. split; [rewrite St; exact C |].
  split; [exact Hpre |].
  rewrite Wr. cbn [spi_writes]. rewrite W, <- !app_assoc. reflexivity.
Qed.

Lemma tune_block_spec f d :
  exists d1, tune_block f d = Some (tt, d1) /\ tune_post f d d1.
Proof.
  unfold tune_block, bind, get_state.
  assert (Hc : cached_freq (state d) =
               if is_lora (op_mode (state d)) then lora_freq (lora (state d))
               else fsk_freq (fsk (state d)))
    by (unfold cached_freq; destruct (op_mode (state d)); reflexivity).
  assert (Hw : tuning_word (op_mode (state d)) f =
               if is_lora (op_mode (state d)) then lora_frf f else fsk_frf f)
    by (destruct (op_mode (state d)); reflexivity).
  destruct (op_mode (state d)) eqn:O; cbn [is_lora] in *.
  - (* FSK *)
    destruct (f =? fsk_freq (fsk (state d))) eqn:Ef; cbn [negb].
    + apply Z.eqb_eq in Ef. exists d. split; [reflexivity |].
      split; rewrite ?O; cbn [is_lora]; auto; try congruence.
      rewrite Ef. symmetry. apply with_fsk_freq_same.
    + apply Z.eqb_neq in Ef. unfold modify_state, ret, when.
      destruct (fsk_frf f >? 0) eqn:Ew; rewrite Z.gtb_ltb in Ew.
      * apply Z.ltb_lt in Ew.
        match goal with
        | |- context [retune _ ?x] =>
            destruct (retune_writes (fsk_frf f) x) as (d1 & pre & R & C & Hp & W)
        end.
        exists d1. split; [exact R |].
        destruct C as (C1 & _ & _ & _ & _ & _ & C7 & C8). cbn in C1, C7, C8, W.
        split; rewrite ?O; cbn [is_lora]; auto; try congruence; try lia.
        intros _ _. exists pre. rewrite Hw. auto.
      * apply Z.ltb_ge in Ew. eexists. split; [reflexivity |].
        split; rewrite ?O; cbn; auto; try congruence; try lia.
  - (* LoRa *)
    destruct (f =? lora_freq (lora (state d))) eqn:Ef; cbn [negb].
    + apply Z.eqb_eq in Ef. exists d. split; [reflexivity |].
      split; rewrite ?O; cbn [is_lora]; auto; try congruence.
      rewrite Ef. symmetry. apply with_lora_freq_same.
    + apply Z.eqb_neq in Ef. unfold modify_state, ret, when.
      destruct (lora_frf f >? 0) eqn:Ew; rewrite Z.gtb_ltb in Ew.
      * apply Z.ltb_lt in Ew.
        match goal with
        | |- context [retune _ ?x] =>
            destruct (retune_writes (lora_frf f) x) as (d1 & pre & R & C & Hp & W)
        end.
        exists d1. split; [exact R |].
        destruct C as (C1 & _ & _ & _ & _ & _ & C7 & C8). cbn in C1, C7, C8, W.
        split; rewrite ?O; cbn [is_lora]; auto; try congruence; try lia.
        intros _ _. exists pre. rewrite Hw. auto.
      * apply Z.ltb_ge in Ew. eexists. split; [reflexivity |].
        split; rewrite ?O; cbn; auto; try congruence; try lia.
Qed.

Lemma with_lora_bw_workaround_same r :
  with_lora_bw_workaround r (lora_bw_workaround r) = r.
Proof. destruct r; reflexivity. Qed.

Lemma with_lora_ppm_correction_same r :
  with_lora_ppm_correction r (lora_ppm_correction r) = r.
Proof. destruct r; reflexivity. Qed.

Lemma apply_bw500_step d :
  exists d' ws,
    sx127x_apply_bw500_sensitivity_workaround d = Some (tt, d') /\
    state d' =
      with_lora (state d)
        (with_lora_bw_workaround (lora (state d))
           (bw500_class_code (device_bw500_class d))) /\
    spi_writes d' = spi_writes d ++ ws /\ errata_writes ws /\
    (bw500_class_code (device_bw500_class d) = lora_bw_workaround (lora (state d)) ->
     d' = d).
Proof.
  unfold sx127x_apply_bw500_sensitivity_workaround, bind, get_state.
  rewrite workaround_code_is_spec_class. fold (device_bw500_class d).
  destruct (bw500_class_code (device_bw500_class d)
            =? lora_bw_workaround (lora (state d))) eqn:E.
  - apply Z.eqb_eq in E. exists d, []. cbn. split; [reflexivity |].
    rewrite E, with_lora_bw_workaround_same, with_lora_same, app_nil_r.
    repeat split; auto. constructor.
  - apply Z.eqb_neq in E.
    destruct (device_bw500_class d); cbn; do 2 eexists;
      (split; [reflexivity |]); cbn; rewrite <- ?app_assoc;
      (split; [reflexivity |]); (split; [reflexivity |]);
      (split; [| intros H; contradiction]);
      repeat (apply Forall_cons; [cbn; auto |]); apply Forall_nil.
Qed.

Lemma errata_writes_no_frf ws : errata_writes ws -> no_frf_writes ws.
Proof.
  apply Forall_impl. intros w [H | H]; rewrite H; repeat split; discriminate.
Qed.

Lemma errata_writes_no_ppm ws :
  errata_writes ws -> Forall (fun w => fst w <> REG_LORA_PPM_CORRECTION) ws.
Proof.
  apply Forall_impl. intros w [H | H]; rewrite H; discriminate.
Qed.

Lemma mode_writes_no_frf ws : mode_writes ws -> no_frf_writes ws.
Proof.
  apply Forall_impl. intros w H; rewrite H; repeat split; discriminate.
Qed.

Lemma ppm_block_spec u f e d :
  exists d2,
    ppm_block u f e d = Some (tt, d2) /\
    ppm_post (ppm_correction_of u f e) d d2.
Proof.
  unfold ppm_block, bind, get_state, when.
  set (p := ppm_correction_of u f e).
  destruct (op_mode (state d)) eqn:O; cbn [is_lora].
  - (* FSK: nothing happens *)
    exists d. split; [reflexivity |].
    split; auto; try congruence.
    exists []. rewrite app_nil_r. repeat split; try constructor. congruence.
  - destruct (p =? lora_ppm_correction (lora (state d))) eqn:Ep; cbn [negb].
    + (* PPM unchanged *)
      apply Z.eqb_eq in Ep.
      destruct (apply_bw500_step d) as (d2 & ws & R & St & W & Hw & Same).
      exists d2. unfold ret. rewrite R. split; [reflexivity |].
      split; rewrite ?St; cbn; auto.
      * intros H; congruence.
      * intros _. rewrite Ep, with_lora_ppm_correction_same. reflexivity.
      * exists ws. split; [exact W |]. split; [apply errata_writes_no_frf, Hw |].
        split; [intros _ N; contradiction | intros _; apply errata_writes_no_ppm, Hw].
    + (* PPM changed: write gate, register write, cache update *)
      apply Z.eqb_neq in Ep.
      destruct (prepare_write_step d) as (d0 & E0 & S0).
      destruct (mode_step_writes _ _ S0) as (pre & Hpre & W0).
      destruct S0 as ((C1 & _ & _ & _ & _ & _ & C7 & C8) & _).
      rewrite E0. unfold sx127x_write_reg, modify_state. cbn [state regs fifo spi_writes clock].
      match goal with
      | |- context [sx127x_apply_bw500_sensitivity_workaround ?x] =>
          destruct (apply_bw500_step x) as (d2 & ws & R & St & W & Hw & _);
            assert (Hc : device_bw500_class x = device_bw500_class d)
              by (unfold device_bw500_class; cbn; rewrite C8; reflexivity)
      end.
      rewrite Hc in St. cbn in St, W.
      exists d2. rewrite R. split; [reflexivity |].
      split; rewrite ?St; cbn; auto; try congruence.
      exists (pre ++ [(REG_LORA_PPM_CORRECTION, Int.to_uint8 p)] ++ ws).
      split; [rewrite W, W0, <- !app_assoc; reflexivity |].
      split; [| split].
      * apply Forall_app. split; [apply mode_writes_no_frf, Hpre |].
        apply Forall_app. split; [| apply errata_writes_no_frf, Hw].
        repeat constructor; discriminate.
      * intros _ _. apply in_or_app. right. left. reflexivity.
      * intros H. contradiction.
Qed.

(** The whole call: both halves return, one after the other. *)
Lemma set_frequency_spec u freq error d :
  let f := effective_freq freq error in
  exists d1 d2,
    sx127x_set_frequency u freq error d = Some (tt, d2) /\
    tune_post f d d1 /\
    ppm_post (ppm_correction_of u f error) d1 d2.
Proof.
  intros f. rewrite set_frequency_blocks. fold f.
  destruct (tune_block_spec f d) as (d1 & R1 & P1).
  destruct (ppm_block_spec u f error d1) as (d2 & R2 & P2).
  exists d1, d2. unfold bind. rewrite R1. split; [exact R2 | auto].
Qed.

(** ** Calling [sx127x_set_frequency] twice *)

(** C2.  Whatever the arguments and the starting state, a call of
    [sx127x_set_frequency] returns, and a second call with the same
    arguments returns as well and leaves the device exactly as the first
    call left it: in particular it issues no register write. *)
Theorem set_frequency_twice_writes_once
        (u : spec_float -> Z) (freq error : Z) (d : device) :
  exists d1 d2,
    sx127x_set_frequency u freq error d = Some (tt, d1) /\
    sx127x_set_frequency u freq error d1 = Some (tt, d2) /\
    spi_writes d2 = spi_writes d1 /\
    d2 = d1.
Proof.
  destruct (set_frequency_spec u freq error d) as (da & d1 & R1 & T1 & P1).
  destruct (set_frequency_spec u freq error d1) as (db & d2 & R2 & T2 & P2).
  cbv zeta in *. set (f := effective_freq freq error) in *.
  set (p := ppm_correction_of u f error) in *.
  exists d1, d2. split; [exact R1 |]. split; [exact R2 |].
  assert (O1 : op_mode (state d1) = op_mode (state d))
    by (rewrite (ppm_op_mode _ _ _ P1); apply (tune_op_mode _ _ _ T1)).
  assert (Hb : db = d1).
  { apply (tune_unchanged _ _ _ T2). unfold cached_freq. rewrite O1.
    destruct (op_mode (state d)) eqn:O.
    - rewrite (ppm_fsk _ _ _ P1), (tune_fsk _ _ _ T1), O. reflexivity.
    - rewrite (ppm_lora _ _ _ P1), (tune_lora _ _ _ T1), O;
        [reflexivity | rewrite (tune_op_mode _ _ _ T1); exact O]. }
  subst db.
  assert (E : d2 = d1).
  { destruct (op_mode (state d)) eqn:O.
    - apply (ppm_fsk_mode _ _ _ P2). congruence.
    - assert (Oa : op_mode (state da) = SX127X_OP_MODE_LORA)
        by (rewrite (tune_op_mode _ _ _ T1); exact O).
      pose proof (ppm_lora _ _ _ P1 Oa) as L1.
      apply (ppm_unchanged _ _ _ P2); [congruence | |].
      + rewrite L1. reflexivity.
      + unfold device_bw500_class. rewrite L1. reflexivity. }
  split; [rewrite E; reflexivity | exact E].
Qed.

(** ** The LoRa tuning word at 868 MHz *)

(** C5.  In LoRa mode with a different cached frequency,
    [sx127x_set_frequency 868000000 0] computes the word
    [(868000000 << 19) / 32000000] in integer arithmetic and writes its
    three bytes 0xD9, 0x00, 0x00 to the MSB, MID and LSB frequency registers
    in that order; the only writes before them are those of the write gate
    (mode register) and no later write touches a frequency register. *)
Theorem set_frequency_868MHz_lora (u : spec_float -> Z) (d : device) :
  op_mode (state d) = SX127X_OP_MODE_LORA ->
  lora_freq (lora (state d)) <> 868000000 ->
  exists d' pre rest,
    sx127x_set_frequency u 868000000 0 d = Some (tt, d') /\
    tuning_word SX127X_OP_MODE_LORA 868000000 = Z.shiftl 868000000 19 / 32000000 /\
    mode_writes pre /\ no_frf_writes rest /\
    spi_writes d' =
      spi_writes d ++ pre
      ++ [(REG_FRF_MSB, 0xD9); (REG_FRF_MID, 0x00); (REG_FRF_LSB, 0x00)]
      ++ rest.
Proof.
  intros O N.
  destruct (set_frequency_spec u 868000000 0 d) as (d1 & d2 & R & T & P).
  change (effective_freq 868000000 0) with 868000000 in *.
  destruct (tune_writes _ _ _ T) as (pre & Hpre & W1).
  - unfold cached_freq. rewrite O. congruence.
  - rewrite O. reflexivity.
  - destruct (ppm_writes _ _ _ P) as (rest & W2 & Hrest & _).
    exists d2, pre, rest. split; [exact R |]. split; [reflexivity |].
    split; [exact Hpre |]. split; [exact Hrest |].
    rewrite W2, W1, O, <- !app_assoc. reflexivity.
Qed.

Lemma set_frequency_868MHz_lora_witness :
  exists d' pre rest,
    sx127x_set_frequency lrintf_zero 868000000 0 (lora_device 0) = Some (tt, d') /\
    tuning_word SX127X_OP_MODE_LORA 868000000 = Z.shiftl 868000000 19 / 32000000 /\
    mode_writes pre /\ no_frf_writes rest /\
    spi_writes d' =
      spi_writes (lora_device 0) ++ pre
      ++ [(REG_FRF_MSB, 0xD9); (REG_FRF_MID, 0x00); (REG_FRF_LSB, 0x00)]
      ++ rest.
Proof.
  apply (set_frequency_868MHz_lora lrintf_zero (lora_device 0)).
  - reflexivity.
  - simpl. lia.
Defined.

(** ** The FSK tuning word *)

(** At 433.15 MHz the quotient by the step is 7096729.6: the driver writes
    the bytes of 7096729, the nearest integer is 7096730, and the two words
    differ in their least significant byte. *)
Lemma fsk_tuning_word_not_rounded :
  writes_of (sx127x_set_frequency lrintf_zero 433150000 0) (fsk_device 0)
    = Some (frf_writes 7096729) /\
  (2 * 7096729 + 1) * 15625 < 2 * (433150000 * 256) /\
  spec_fsk_word_rounded 433150000 = 7096730 /\
  frf_writes 7096729 <> frf_writes 7096730.
Proof.
  split; [vm_compute; reflexivity |].
  split; [lia |]. split; [reflexivity |].
  vm_compute. discriminate.
Qed.

(** C3 (amended).  In FSK mode, when the effective frequency
    [(target - error) mod 2^32] differs from the cached one, the call caches
    it and the tuning word is the effective frequency divided by the step
    61.03515625 = 15625 / 256 and truncated (rounded toward zero), not
    rounded to nearest; a positive word is written as its three low bytes,
    most significant first, after the write gate, and a zero word is not
    written at all. *)
Theorem fsk_tuning_word_truncated
        (u : spec_float -> Z) (freq error : Z) (d : device) :
  op_mode (state d) = SX127X_OP_MODE_FSK ->
  effective_freq freq error <> fsk_freq (fsk (state d)) ->
  let f := effective_freq freq error in
  let w := f * 256 / 15625 in
  exists d',
    sx127x_set_frequency u freq error d = Some (tt, d') /\
    fsk_freq (fsk (state d')) = f /\
    tuning_word SX127X_OP_MODE_FSK f = w /\
    (0 < w ->
     exists pre, mode_writes pre /\
                 spi_writes d' = spi_writes d ++ pre ++ frf_writes w) /\
    (w = 0 -> spi_writes d' = spi_writes d).
Proof.
  intros O N f w.
  destruct (set_frequency_spec u freq error d) as (d1 & d2 & R & T & P).
  fold f in T, P.
  assert (Hf : 0 <= f < 2 ^ 32)
    by (apply Z.mod_pos_bound; reflexivity).
  assert (Hw : tuning_word (op_mode (state d)) f = w)
    by (rewrite O; apply TuningWord.fsk_frf_value, Hf).
  assert (O1 : op_mode (state d1) = SX127X_OP_MODE_FSK)
    by (rewrite (tune_op_mode _ _ _ T); exact O).
  assert (E : d2 = d1) by (apply (ppm_fsk_mode _ _ _ P), O1).
  subst d2. exists d1. split; [exact R |].
  split; [rewrite (tune_fsk _ _ _ T), O; reflexivity |].
  split; [rewrite <- Hw, O; reflexivity |].
  split.
  - intros Pw. rewrite <- Hw. apply (tune_writes _ _ _ T).
    + unfold cached_freq. rewrite O. exact N.
    + rewrite Hw. exact Pw.
  - intros Zw. apply (tune_silent _ _ _ T). rewrite Hw. lia.
Qed.

Lemma fsk_tuning_word_truncated_witness :
  exists d',
    sx127x_set_frequency lrintf_zero 433150000 0 (fsk_device 0) = Some (tt, d') /\
    fsk_freq (fsk (state d')) = 433150000 /\
    tuning_word SX127X_OP_MODE_FSK 433150000 = 433150000 * 256 / 15625 /\
    (0 < 433150000 * 256 / 15625 ->
     exists pre, mode_writes pre /\
                 spi_writes d' = spi_writes (fsk_device 0) ++ pre
                                 ++ frf_writes (433150000 * 256 / 15625)) /\
    (433150000 * 256 / 15625 = 0 -> spi_writes d' = spi_writes (fsk_device 0)).
Proof.
  apply (fsk_tuning_word_truncated lrintf_zero 433150000 0 (fsk_device 0)).
  - reflexivity.
  - vm_compute. discriminate.
Defined.

(** ** The PPM correction *)

(** With a target of 868 MHz and a measured error of -32437 Hz the exact
    value 950000 * error / effective lies strictly between -35.5 and -35,
    so every rounding to nearest gives -35; the driver, working in single
    precision, caches and writes -36 (register byte 220). *)
Lemma ppm_correction_not_exactly_rounded :
  let target := 868000000 in
  let error := -32437 in
  let f := effective_freq target error in
  f = 868032437 /\
  - 71 * f < 2 * (950000 * error) < - 70 * f /\
  spec_clamp_int8 (spec_ppm_exact f error) = -35 /\
  option_map (fun d' => lora_ppm_correction (lora (state d')))
             (exec (sx127x_set_frequency lrintf_zero target error) (lora_device 0))
    = Some (-36) /\
  option_map (fun ws => existsb (fun w => (fst w =? REG_LORA_PPM_CORRECTION)
                                          && (snd w =? 220)) ws)
             (writes_of (sx127x_set_frequency lrintf_zero target error)
                        (lora_device 0))
    = Some true.
Proof.
  cbv zeta. split; [reflexivity |]. split; [vm_compute; split; reflexivity |].
  split; [reflexivity |]. split; vm_compute; reflexivity.
Qed.

(** C4 (amended).  In LoRa mode the PPM correction cached by
    [sx127x_set_frequency] is the value of
    [0.95f * (error / ((float)effective / 1000000))] computed in single
    precision, rounded to the nearest integer with ties to even and clamped
    to [-128, 127] whenever that integer is a [long]; for every error the
    cached value lies in [-128, 127]; for an effective frequency of at
    least 1 MHz it is within one of the exactly rounded and clamped
    [round(0.95 * error / (effective / 1000000))]; its byte is written to
    the PPM register when it differs from the previously cached value, and
    the register is not written when it does not. *)
Theorem lora_ppm_correction_value
        (u : spec_float -> Z) (freq error : Z) (d : device) :
  op_mode (state d) = SX127X_OP_MODE_LORA ->
  let f := effective_freq freq error in
  let p := ppm_correction_of u f error in
  exists d' ws,
    sx127x_set_frequency u freq error d = Some (tt, d') /\
    lora_ppm_correction (lora (state d')) = p /\
    -128 <= p <= 127 /\
    (forall n, lrintf_defined (ppm_operand f error) = Some n ->
               p = spec_clamp_int8 n) /\
    (1000000 <= f -> - 2 ^ 31 <= error < 2 ^ 31 ->
     Z.abs (p - spec_clamp_int8 (spec_ppm_exact f error)) <= 1) /\
    spi_writes d' = spi_writes d ++ ws /\
    (p <> lora_ppm_correction (lora (state d)) ->
     In (REG_LORA_PPM_CORRECTION, Int.to_uint8 p) ws) /\
    (p = lora_ppm_correction (lora (state d)) ->
     Forall (fun w => fst w <> REG_LORA_PPM_CORRECTION) ws).
Proof.
  intros O f p.
  destruct (set_frequency_spec u freq error d) as (d1 & d2 & R & T & P).
  fold f in T, P. fold p in P.
  assert (O1 : op_mode (state d1) = SX127X_OP_MODE_LORA)
    by (rewrite (tune_op_mode _ _ _ T); exact O).
  assert (L1 : lora_ppm_correction (lora (state d1)) = lora_ppm_correction (lora (state d)))
    by (rewrite (tune_lora _ _ _ T), O; reflexivity).
  destruct (ppm_writes _ _ _ P) as (ws2 & W2 & _ & Hin & Hout).
  rewrite L1 in Hin, Hout.
  assert (W1 : exists ws1, spi_writes d1 = spi_writes d ++ ws1 /\
                           Forall (fun w => fst w <> REG_LORA_PPM_CORRECTION) ws1).
  { destruct (Z.eq_dec f (cached_freq (state d))) as [Ef | Nf].
    - rewrite (tune_unchanged _ _ _ T Ef). exists []. rewrite app_nil_r. auto.
    - destruct (Z_lt_ge_dec 0 (tuning_word (op_mode (state d)) f)) as [Pw | Zw].
      + destruct (tune_writes _ _ _ T Nf Pw) as (pre & Hpre & W).
        exists (pre ++ frf_writes (tuning_word (op_mode (state d)) f)).
        split; [exact W |]. apply Forall_app. split.
        * revert Hpre. apply Forall_impl. intros w H. rewrite H. discriminate.
        * repeat constructor; discriminate.
      + exists []. rewrite app_nil_r. split; [| constructor].
        apply (tune_silent _ _ _ T). lia. }
  destruct W1 as (ws1 & W1 & H1).
  exists d2, (ws1 ++ ws2). split; [exact R |].
  split; [rewrite (ppm_lora _ _ _ P O1); reflexivity |].
  split; [apply ppm_correction_of_range |].
  split; [intros n; apply ppm_correction_of_defined |].
  split.
  { intros Lf Le. apply PpmAccuracy.ppm_correction_within_one; [| exact Le].
    split; [exact Lf | apply Z.mod_pos_bound; reflexivity]. }
  split; [rewrite W2, W1, app_assoc; reflexivity |].
  split.
  - intros N. apply in_or_app. right. apply Hin; [exact O1 | exact N].
  - intros E. apply Forall_app. split; [exact H1 | apply Hout, E].
Qed.

Lemma lora_ppm_correction_value_witness :
  let f := effective_freq 868000000 1000 in
  let p := ppm_correction_of lrintf_zero f 1000 in
  exists d' ws,
    sx127x_set_frequency lrintf_zero 868000000 1000 (lora_device 0) = Some (tt, d') /\
    lora_ppm_correction (lora (state d')) = p /\
    -128 <= p <= 127 /\
    (forall n, lrintf_defined (ppm_operand f 1000) = Some n ->
               p = spec_clamp_int8 n) /\
    (1000000 <= f -> - 2 ^ 31 <= 1000 < 2 ^ 31 ->
     Z.abs (p - spec_clamp_int8 (spec_ppm_exact f 1000)) <= 1) /\
    spi_writes d' = spi_writes (lora_device 0) ++ ws /\
    (p <> lora_ppm_correction (lora (state (lora_device 0))) ->
     In (REG_LORA_PPM_CORRECTION, Int.to_uint8 p) ws) /\
    (p = lora_ppm_correction (lora (state (lora_device 0))) ->
     Forall (fun w => fst w <> REG_LORA_PPM_CORRECTION) ws).
Proof.
  apply (lora_ppm_correction_value lrintf_zero 868000000 1000 (lora_device 0)).
  reflexivity.
Defined.

(** ** Minimum RSSI floor *)

(** The floor depends on the comparison of the stored frequency, in Hz, with
    700000. *)
Lemma lora_min_rssi_value d :
  sx127x_lora_min_rssi d =
  Some (if lora_freq (lora (state d)) >? 700000 then -157 else -164, d).
Proof.
  unfold sx127x_lora_min_rssi, bind, get_state.
  destruct (_ >? _); reflexivity.
Qed.

(** Every frequency of either band, stored in Hz, selects the -157 floor. *)
Lemma lora_min_rssi_above_threshold d :
  700000 < lora_freq (lora (state d)) ->
  sx127x_lora_min_rssi d = Some (-157, d).
Proof.
  intros H. rewrite lora_min_rssi_value.
  destruct (_ >? _) eqn:E; [reflexivity | rewrite Z.gtb_ltb in E; apply Z.ltb_ge in E; lia].
Qed.

(** C7.  For every stored frequency of the low band, 410 MHz to 525 MHz in
    Hz, the floor returned is -157 dBm, the high-band constant, and not the
    -164 dBm that the low band calls for: a frequency in Hz is always above
    the threshold 700000. *)
Theorem lora_min_rssi_low_band (d : device) :
  410000000 <= lora_freq (lora (state d)) <= 525000000 ->
  sx127x_lora_min_rssi d = Some (-157, d) /\
  sx127x_lora_min_rssi d <> Some (-164, d).
Proof.
  intros H.
  assert (E : sx127x_lora_min_rssi d = Some (-157, d))
    by (apply lora_min_rssi_above_threshold; lia).
  split; [exact E |]. rewrite E. intros C. inversion C.
Qed.

Lemma lora_min_rssi_low_band_witness :
  sx127x_lora_min_rssi (lora_device 433000000)
    = Some (-157, lora_device 433000000) /\
  sx127x_lora_min_rssi (lora_device 433000000)
    <> Some (-164, lora_device 433000000).
Proof.
  apply (lora_min_rssi_low_band (lora_device 433000000)). simpl. lia.
Defined.

(** ** FSK bandwidth lookup *)

Lemma fsk_bandwidths_count : length fsk_bandwidths = 22%nat.
Proof. reflexivity. Qed.

(** The lookup returns the register value of the 250 kHz entry on the whole
    of [250000, 300000): the last valid entry is not fatal. *)
Lemma fsk_bandwidth_250kHz_not_fatal :
  sx127x_get_fsk_bandwidth_reg_value 250000 = Some 0x01 /\
  bandwidth_hz 20 = 250000 /\ bandwidth_hz 21 = 300000 /\
  bandwidth_reg_value 21 = 0x00.
Proof. repeat split. Qed.

Lemma in_band_true hz lo hi :
  (hz >=? lo) && (hz <? hi) = true -> lo <= hz < hi.
Proof. rewrite andb_true_iff, Z.geb_le, Z.ltb_lt. tauto. Qed.

Lemma in_band_false hz lo hi :
  (hz >=? lo) && (hz <? hi) = false -> hz < lo \/ hi <= hz.
Proof. rewrite andb_false_iff, Z.geb_leb, Z.leb_gt, Z.ltb_ge. tauto. Qed.

(** One iteration of the scan: either the request lies in the band of the
    current entry, or it does not and the scan goes on. *)
Ltac bandwidth_case :=
  match goal with
  | |- context [if (?hz >=? ?lo) && (?hz <? ?hi) then _ else _] =>
      let E := fresh "E" in
      destruct ((hz >=? lo) && (hz <? hi)) eqn:E;
      [ apply in_band_true in E | apply in_band_false in E ]
  end.

Lemma fsk_bandwidth_in_range hz :
  2600 <= hz < 300000 ->
  exists i, (i < 21)%nat /\
            bandwidth_hz i <= hz < bandwidth_hz (S i) /\
            sx127x_get_fsk_bandwidth_reg_value hz = Some (bandwidth_reg_value i).
Proof.
  unfold sx127x_get_fsk_bandwidth_reg_value. rewrite fsk_bandwidths_count.
  cbv [Nat.sub fsk_bandwidth_scan]. intros H.
  repeat (bandwidth_case;
          [ eexists; split; [| split; [eassumption | reflexivity]];
            repeat constructor
          | ]).
  exfalso. cbv [bandwidth_hz fsk_bandwidths nth fst] in *. lia.
Qed.

Lemma fsk_bandwidth_out_of_range hz :
  hz < 2600 \/ 300000 <= hz ->
  sx127x_get_fsk_bandwidth_reg_value hz = None.
Proof.
  unfold sx127x_get_fsk_bandwidth_reg_value. rewrite fsk_bandwidths_count.
  cbv [Nat.sub fsk_bandwidth_scan]. intros H.
  repeat (bandwidth_case;
          [ exfalso; cbv [bandwidth_hz fsk_bandwidths nth fst] in *; lia | ]).
  reflexivity.
Qed.

(** C8 (amended).  For a requested value of at least 2600 Hz and below the
    300000 Hz of the final (invalid) table entry the lookup returns the
    register code of the entry [i] with [table[i].hz <= hz < table[i+1].hz];
    it is fatal exactly for the values below 2600 Hz and for those at or
    above 300000 Hz. *)
Theorem fsk_bandwidth_lookup (hz : Z) :
  (2600 <= hz < 300000 ->
     exists i, (i < 21)%nat /\
               bandwidth_hz i <= hz < bandwidth_hz (S i) /\
               sx127x_get_fsk_bandwidth_reg_value hz = Some (bandwidth_reg_value i)) /\
  (hz < 2600 \/ 300000 <= hz ->
     sx127x_get_fsk_bandwidth_reg_value hz = None).
Proof.
  split; [apply fsk_bandwidth_in_range | apply fsk_bandwidth_out_of_range].
Qed.

Lemma fsk_bandwidth_lookup_witness :
  (exists i, (i < 21)%nat /\
             bandwidth_hz i <= 10000 < bandwidth_hz (S i) /\
             sx127x_get_fsk_bandwidth_reg_value 10000 = Some (bandwidth_reg_value i)) /\
  sx127x_get_fsk_bandwidth_reg_value 300000 = None.
Proof.
  split.
  - apply (proj1 (fsk_bandwidth_lookup 10000)). lia.
  - apply (proj2 (fsk_bandwidth_lookup 300000)). lia.
Defined.

(** The setters abort on a request the table does not cover. *)
Lemma set_fsk_rx_bandwidth_fatal hz d :
  hz < 2600 \/ 300000 <= hz ->
  sx127x_set_fsk_rx_bandwidth hz d = None /\
  sx127x_set_fsk_rx_afc_bandwidth hz d = None.
Proof.
  intros H. unfold sx127x_set_fsk_rx_bandwidth, sx127x_set_fsk_rx_afc_bandwidth, bind.
  destruct (prepare_write_step d) as (d0 & E & _). rewrite E.
  rewrite (fsk_bandwidth_out_of_range hz H). split; reflexivity.
Qed.

(** ** LoRa RSSI *)

(** The double expression [min + (16 / 15.0) * raw], converted to [int], is
    the rational value truncated toward zero, for every byte [raw] and both
    floors. *)
Lemma rssi_snr_nonneg_table :
  forallb (fun raw =>
             (rssi_snr_nonneg (-157) raw =? Z.quot (16 * raw - 157 * 15) 15)
             && (rssi_snr_nonneg (-164) raw =? Z.quot (16 * raw - 164 * 15) 15))
          (map Z.of_nat (seq 0 256)) = true.
Proof. vm_compute. reflexivity. Qed.

Lemma byte_in_table raw :
  0 <= raw < 256 -> In raw (map Z.of_nat (seq 0 256)).
Proof.
  intros H. rewrite <- (Z2Nat.id raw) by lia.
  apply in_map, in_seq. lia.
Qed.

Lemma rssi_snr_nonneg_high_band raw :
  0 <= raw < 256 ->
  rssi_snr_nonneg (-157) raw = Z.quot (16 * raw - 157 * 15) 15.
Proof.
  intros H. pose proof rssi_snr_nonneg_table as T.
  rewrite forallb_forall in T. specialize (T raw (byte_in_table raw H)).
  apply andb_true_iff in T. destruct T as [T _]. apply Z.eqb_eq in T. exact T.
Qed.

(** With packet-RSSI byte 100 and SNR byte 0 at 868 MHz the call returns
    -50, not -157 + 100 = -57. *)
Lemma lora_rssi_snr_zero_not_sum :
  option_map (fun r => fst (fst (fst r))) (sx127x_rssi lora_device_rssi_100)
    = Some (-50) /\
  regs lora_device_rssi_100 REG_LORA_PKT_SNR_VALUE = 0 /\
  regs lora_device_rssi_100 REG_LORA_PKT_RSSI_VALUE = 100 /\
  sx127x_lora_min_rssi lora_device_rssi_100 = Some (-157, lora_device_rssi_100) /\
  -50 <> -157 + 100.
Proof.
  split; [vm_compute; reflexivity |]. repeat split. discriminate.
Qed.

(** C6 (amended).  In LoRa mode with the -157 floor selected, an SNR byte
    of 0 and a packet-RSSI byte [R], [sx127x_rssi] takes the SNR >= 0 arm:
    it returns -157 + (16/15) R truncated toward zero, reports SNR 0 and a
    link quality within [0, 100]; the result is -157 + R only when R = 0. *)
Theorem lora_rssi_snr_zero (d : device) (R : Z) :
  op_mode (state d) = SX127X_OP_MODE_LORA ->
  700000 < lora_freq (lora (state d)) ->
  regs d REG_LORA_PKT_SNR_VALUE = 0 ->
  regs d REG_LORA_PKT_RSSI_VALUE = R ->
  0 <= R < 256 ->
  exists lq,
    sx127x_rssi d = Some (Z.quot (16 * R - 157 * 15) 15, 0, lq, d) /\
    0 <= lq <= 100 /\
    (Z.quot (16 * R - 157 * 15) 15 = -157 + R <-> R = 0).
Proof.
  intros O F S0 SR HR.
  unfold sx127x_rssi, bind, get_state.
  destruct (sx127x_rx_sensitivity d) as [[sens d0] |] eqn:E.
  2:{ exfalso. revert E. unfold sx127x_rx_sensitivity, bind, get_state, ret.
      rewrite O. repeat match goal with
                        | |- context [if ?b then _ else _] => destruct b
                        end; discriminate. }
  assert (d0 = d).
  { revert E. unfold sx127x_rx_sensitivity, bind, get_state, ret. rewrite O.
    repeat match goal with
           | |- context [if ?b then _ else _] => destruct b
           end; intros E; inversion E; reflexivity. }
  subst d0. rewrite O. unfold sx127x_read_reg. rewrite S0, SR.
  rewrite (lora_min_rssi_above_threshold d F). unfold ret.
  change (Int.to_int8 0) with 0. cbn [Z.geb Z.compare].
  unfold Int.to_uint8. rewrite (Z.mod_small R 256) by exact HR.
  rewrite rssi_snr_nonneg_high_band by exact HR.
  eexists. split; [reflexivity |]. split.
  - unfold Int.MAX, Int.MIN.
    repeat match goal with
           | |- context [if ?b then _ else _] =>
               let B := fresh "B" in destruct b eqn:B
           end;
      rewrite ?Z.gtb_ltb in *;
      repeat match goal with
             | B : (_ <? _) = true |- _ => apply Z.ltb_lt in B
             | B : (_ <? _) = false |- _ => apply Z.ltb_ge in B
             end; lia.
  - split.
    + intros H. destruct (Z.eq_dec R 0) as [Z0 | NZ]; [exact Z0 | exfalso].
      destruct (Z_lt_ge_dec (16 * R - 157 * 15) 0) as [Neg | Pos].
      * pose proof (Z.quot_opp_l (- (16 * R - 157 * 15)) 15 ltac:(lia)) as Q.
        rewrite Z.opp_involutive in Q. rewrite Q in H.
        rewrite Z.quot_div_nonneg in H by lia.
        pose proof (Z_div_mod_eq_full (- (16 * R - 157 * 15)) 15) as D.
        pose proof (Z.mod_pos_bound (- (16 * R - 157 * 15)) 15 ltac:(lia)) as B.
        lia.
      * rewrite Z.quot_div_nonneg in H by lia.
        pose proof (Z_div_mod_eq_full (16 * R - 157 * 15) 15) as D.
        pose proof (Z.mod_pos_bound (16 * R - 157 * 15) 15 ltac:(lia)) as B.
        lia.
    + intros ->. reflexivity.
Qed.

Lemma lora_rssi_snr_zero_witness :
  exists lq,
    sx127x_rssi lora_device_rssi_100
    = Some (Z.quot (16 * 100 - 157 * 15) 15, 0, lq, lora_device_rssi_100) /\
    0 <= lq <= 100 /\
    (Z.quot (16 * 100 - 157 * 15) 15 = -157 + 100 <-> 100 = 0).
Proof.
  apply (lora_rssi_snr_zero lora_device_rssi_100 100).
  - reflexivity.
  - simpl. lia.
  - reflexivity.
  - reflexivity.
  - lia.
Defined.

(** ** LoRa spreading factor *)

Lemma nibble_merge r sf :
  6 <= sf <= 12 ->
  Int.to_uint8 (Z.lor (Z.land r 0x0f) (Z.land (Z.shiftl sf 4) 0xf0))
  = 16 * sf + r mod 16.
Proof.
  intros Hsf.
  change 0x0f with (Z.ones 4). rewrite Z.land_ones by lia.
  change (2 ^ 4) with 16.
  pose proof (Z.mod_pos_bound r 16 ltac:(lia)) as Hx.
  remember (r mod 16) as x eqn:Ex. clear Ex.
  assert (Hs : sf = 6 \/ sf = 7 \/ sf = 8 \/ sf = 9 \/ sf = 10 \/ sf = 11 \/ sf = 12)
    by lia.
  assert (Hv : x = 0 \/ x = 1 \/ x = 2 \/ x = 3 \/ x = 4 \/ x = 5 \/ x = 6 \/ x = 7 \/
               x = 8 \/ x = 9 \/ x = 10 \/ x = 11 \/ x = 12 \/ x = 13 \/ x = 14 \/
               x = 15) by lia.
  clear Hsf Hx.
  repeat (destruct Hs as [Hs | Hs]; [subst sf | ]); try subst sf;
    repeat (destruct Hv as [Hv | Hv]; [subst x; reflexivity | ]);
    subst x; reflexivity.
Qed.

(** C9.  [sx127x_set_lora_spreading_factor] clamps its argument into
    [6, 12]; after the write gate it writes the detection-optimize and
    detection-threshold registers to (0xC5, 0x0C) when the clamped value is 6
    and to (0xC3, 0x0A) otherwise, then writes modem-config-2 with the
    clamped value in the high nibble and the low nibble the register held,
    and caches the clamped value. *)
Theorem set_lora_spreading_factor_writes (sf : Z) (d : device) :
  let sf' := Z.max 6 (Z.min 12 sf) in
  exists d0 d',
    sx127x_prepare_write d = Some (tt, d0) /\
    sx127x_set_lora_spreading_factor sf d = Some (tt, d') /\
    6 <= sf' <= 12 /\
    spi_writes d' =
      spi_writes d0 ++
      [ (REG_LORA_DETECTION_OPTIMIZE, if sf' =? 6 then 0xC5 else 0xC3);
        (REG_LORA_DETECTION_THRESHOLD, if sf' =? 6 then 0x0C else 0x0A);
        (REG_LORA_MODEM_CONFIG_2,
         16 * sf' + regs d REG_LORA_MODEM_CONFIG_2 mod 16) ] /\
    lora_sf (lora (state d')) = sf'.
Proof.
  intros sf'.
  destruct (prepare_write_step d) as (d0 & E & (C & _ & _ & R & _)).
  assert (Hc : (if sf <? 6 then 6 else if sf >? 12 then 12 else sf) = sf').
  { unfold sf'. destruct (sf <? 6) eqn:A; [apply Z.ltb_lt in A; lia |].
    apply Z.ltb_ge in A. rewrite Z.gtb_ltb.
    destruct (12 <? sf) eqn:B; [apply Z.ltb_lt in B | apply Z.ltb_ge in B]; lia. }
  assert (Hr : 6 <= sf' <= 12) by (unfold sf'; lia).
  exists d0. unfold sx127x_set_lora_spreading_factor, bind. rewrite E, Hc.
  clearbody sf'. clear Hc.
  assert (R' : regs d0 REG_LORA_MODEM_CONFIG_2 = regs d REG_LORA_MODEM_CONFIG_2)
    by (apply R; discriminate).
  destruct (sf' =? 6) eqn:S6; cbn; rewrite R', <- (nibble_merge _ sf' Hr);
    eexists; (split; [reflexivity |]); (split; [reflexivity |]);
    (split; [exact Hr |]); cbn; rewrite <- !app_assoc; split; reflexivity.
Qed.

(** ** Reading a packet *)

(** C10.  In both modes and whatever the flags were, [sx127x_read] returns
    the requested size with [rx_done] cleared, so that [sx127x_is_rx_done]
    then answers false; the other completion flag, the interrupt trigger,
    the callback, the modulation scheme and the cached FSK and LoRa
    configuration are left as they were. *)
Theorem read_clears_rx_done
        (FEC_ENCODED_SIZE : Z -> Z) (fec_decode : list Z -> Z -> Z -> list Z)
        (size : Z) (d : device) :
  exists buf d',
    sx127x_read FEC_ENCODED_SIZE fec_decode size d = Some ((buf, size), d') /\
    rx_done (state d') = false /\
    sx127x_is_rx_done d' = Some (false, d') /\
    tx_done (state d') = tx_done (state d) /\
    op_mode (state d') = op_mode (state d) /\
    dio0_trigger (state d') = dio0_trigger (state d) /\
    callback (state d') = callback (state d) /\
    callback_data (state d') = callback_data (state d) /\
    fsk (state d') = fsk (state d) /\
    lora (state d') = lora (state d).
Proof.
  unfold sx127x_read, sx127x_is_rx_done, bind, get_state.
  destruct (op_mode (state d)) eqn:O; cbn [is_lora].
  - cbn. rewrite O. do 2 eexists. split; [reflexivity |]. cbn. rewrite O.
    repeat split; reflexivity.
  - destruct (prepare_write_step d) as (d0 & E & ((O' & _ & T & G & K & KD & F & L) & _)).
    rewrite E. cbn. rewrite O', O. do 2 eexists. split; [reflexivity |]. cbn.
    repeat split; try assumption; try reflexivity. congruence.
Qed.

(** The power-mode cache is not among the fields [sx127x_read] preserves: a
    LoRa read in continuous receive goes through the write gate and leaves
    the chip in standby. *)
Lemma read_in_lora_rx_leaves_standby
      (FEC_ENCODED_SIZE : Z -> Z) (fec_decode : list Z -> Z -> Z -> list Z) :
  let d := sample_device
             (sample_state SX127X_OP_MODE_LORA (Z.lor MODE_LORA MODE_RX_CONTINUOUS)
                           868000000 SX127X_LORA_SIGNAL_BW_500)
             (fun _ => 0) in
  option_map (fun r => (mode (state (snd r)), spi_writes (snd r)))
             (sx127x_read FEC_ENCODED_SIZE fec_decode 8 d)
  = Some (Z.lor MODE_LORA MODE_STDBY,
          [ (REG_OP_MODE, Z.lor MODE_LORA MODE_STDBY);
            (REG_LORA_FIFO_ADDR_PTR, RX_FIFO_ADDR);
            (REG_LORA_IRQ_FLAGS, IRQ_RX_DONE_MASK) ]).
Proof. reflexivity. Qed.

(** * The rest of the driver: verification *)

(** ** LoRa sync word *)

(** X1.  sx127x_set_lora_sync_word always returns after exactly one register
    write, to the sync-word register, without passing the write gate and
    without changing the driver state. The byte written is the argument
    reduced to 8 bits, except that 0 is replaced by 1 and 0x34 by 0x35, so the
    register is never given 0 or 0x34. *)
Theorem set_lora_sync_word_never_reserved (sw : Z) (d : device) :
  exists v d',
    sx127x_set_lora_sync_word sw d = Some (tt, d') /\
    spi_writes d' = spi_writes d ++ [(REG_LORA_SYNC_WORD, v)] /\
    regs d' REG_LORA_SYNC_WORD = v /\
    state d' = state d /\
    0 < v < 256 /\ v <> 0x34 /\
    v = (if sw mod 256 =? 0 then 1
         else if sw mod 256 =? 0x34 then 0x35 else sw mod 256).
Proof.
  unfold sx127x_set_lora_sync_word, sx127x_write_reg, Int.to_uint8.
  pose proof (Z.mod_pos_bound sw 256 ltac:(lia)) as B.
  set (v := if sw mod 256 =? 0 then 1
            else if sw mod 256 =? 0x34 then 0x35 else sw mod 256).
  assert (Hv : 0 < v < 256 /\ v <> 0x34).
  { unfold v. destruct (sw mod 256 =? 0) eqn:A; [lia |].
    apply Z.eqb_neq in A.
    destruct (sw mod 256 =? 0x34) eqn:C; [lia |]. apply Z.eqb_neq in C. lia. }
  exists v. eexists. split; [reflexivity |]. cbn.
  rewrite (Z.mod_small v 256) by lia. repeat split; try lia.
Qed.

(** ** Bits of a byte *)

Lemma testbit_4 i : 0 <= i -> Z.testbit 0x04 i = (i =? 2).
Proof.
  intros H. change 0x04 with (2 ^ 2). rewrite Z.pow2_bits_eqb by lia.
  apply Z.eqb_sym.
Qed.

Lemma testbit_1 i : 0 <= i -> Z.testbit 0x01 i = (i =? 0).
Proof.
  intros H. change 0x01 with (2 ^ 0). rewrite Z.pow2_bits_eqb by lia.
  apply Z.eqb_sym.
Qed.

Lemma byte_testbit_high r i : 0 <= r < 256 -> 8 <= i -> Z.testbit r i = false.
Proof.
  intros Hr Hi. destruct (Z.eq_dec r 0) as [-> | N]; [apply Z.bits_0 |].
  apply Z.bits_above_log2; [lia |].
  assert (Z.log2 r < 8) by (apply Z.log2_lt_pow2; lia). lia.
Qed.

Lemma small_index i : 0 <= i < 8 ->
  i = 0 \/ i = 1 \/ i = 2 \/ i = 3 \/ i = 4 \/ i = 5 \/ i = 6 \/ i = 7.
Proof. lia. Qed.

Lemma testbit_0xfb i : 0 <= i < 8 -> Z.testbit 0xfb i = negb (i =? 2).
Proof.
  intros H. destruct (small_index i H) as [-> | [-> | [-> | [-> | [-> | [-> | [-> | ->]]]]]]];
    reflexivity.
Qed.

Lemma testbit_0xfe i : 0 <= i < 8 -> Z.testbit 0xfe i = negb (i =? 0).
Proof.
  intros H. destruct (small_index i H) as [-> | [-> | [-> | [-> | [-> | [-> | [-> | ->]]]]]]];
    reflexivity.
Qed.

(** Setting or clearing bit [k] of a byte, as the code does it with a mask. *)
Lemma log2_byte r : 0 <= r < 256 -> Z.log2 r < 8.
Proof.
  intros H. destruct (Z.eq_dec r 0) as [-> | N]; [cbn; lia |].
  apply Z.log2_lt_pow2; lia.
Qed.

Lemma byte_of_log2 x : 0 <= x -> Z.log2 x < 8 -> x < 256.
Proof.
  intros H L. destruct (Z.eq_dec x 0) as [-> | N]; [lia |].
  change 256 with (2 ^ 8). apply Z.log2_lt_pow2; lia.
Qed.

Lemma byte_lor_range r m : 0 <= r < 256 -> 0 <= m < 256 -> 0 <= Z.lor r m < 256.
Proof.
  intros Hr Hm. assert (0 <= Z.lor r m) by (apply Z.lor_nonneg; lia).
  split; [assumption |]. apply byte_of_log2; [assumption |].
  rewrite Z.log2_lor by lia.
  pose proof (log2_byte r Hr). pose proof (log2_byte m Hm). lia.
Qed.

Lemma byte_land_range r m : 0 <= r < 256 -> 0 <= m -> 0 <= Z.land r m < 256.
Proof.
  intros Hr Hm. assert (0 <= Z.land r m) by (apply Z.land_nonneg; lia).
  split; [assumption |]. apply byte_of_log2; [assumption |].
  pose proof (Z.log2_land r m ltac:(lia) Hm). pose proof (log2_byte r Hr). lia.
Qed.

Lemma crc_bit (crc : bool) r i :
  0 <= r < 256 -> 0 <= i ->
  Z.testbit (if crc then Z.lor r 0x04 else Z.land r 0xfb) i =
  if i =? 2 then crc else Z.testbit r i.
Proof.
  intros Hr Hi. destruct crc.
  - rewrite Z.lor_spec, testbit_4 by lia.
    destruct (i =? 2); [apply orb_true_r | apply orb_false_r].
  - rewrite Z.land_spec.
    destruct (Z_lt_ge_dec i 8) as [L | G].
    + rewrite testbit_0xfb by lia.
      destruct (i =? 2); [apply andb_false_r | apply andb_true_r].
    + rewrite (byte_testbit_high r i) by lia.
      destruct (i =? 2) eqn:E; [apply Z.eqb_eq in E; lia | reflexivity].
Qed.

Lemma header_bit (implicit : bool) r i :
  0 <= r < 256 -> 0 <= i ->
  Z.testbit (if implicit then Z.lor r 0x01 else Z.land r 0xfe) i =
  if i =? 0 then implicit else Z.testbit r i.
Proof.
  intros Hr Hi. destruct implicit.
  - rewrite Z.lor_spec, testbit_1 by lia.
    destruct (i =? 0); [apply orb_true_r | apply orb_false_r].
  - rewrite Z.land_spec.
    destruct (Z_lt_ge_dec i 8) as [L | G].
    + rewrite testbit_0xfe by lia.
      destruct (i =? 0); [apply andb_false_r | apply andb_true_r].
    + rewrite (byte_testbit_high r i) by lia.
      destruct (i =? 0) eqn:E; [apply Z.eqb_eq in E; lia | reflexivity].
Qed.

Lemma mask_byte_range (b : bool) r k m :
  0 <= r < 256 -> 0 <= k < 256 -> 0 <= m ->
  0 <= (if b then Z.lor r k else Z.land r m) < 256.
Proof.
  intros. destruct b; [apply byte_lor_range | apply byte_land_range]; assumption.
Qed.

(** ** CRC and header mode *)

(** X2.  sx127x_set_lora_crc passes the write gate and then rewrites
    modem-config-2 with one write in which bit 2 is the requested CRC setting
    and every other bit is the one the register held. The driver state stays
    as the write gate left it. *)
Theorem set_lora_crc_changes_one_bit (crc : bool) (d : device) :
  exists d0 d' v,
    sx127x_prepare_write d = Some (tt, d0) /\
    sx127x_set_lora_crc crc d = Some (tt, d') /\
    spi_writes d' = spi_writes d0 ++ [(REG_LORA_MODEM_CONFIG_2, v)] /\
    regs d' REG_LORA_MODEM_CONFIG_2 = v /\
    state d' = state d0 /\
    0 <= v < 256 /\
    forall i, 0 <= i ->
      Z.testbit v i =
      if i =? 2 then crc
      else Z.testbit (regs d REG_LORA_MODEM_CONFIG_2 mod 256) i.
Proof.
  destruct (prepare_write_step d) as (d0 & E & (_ & _ & _ & R & _)).
  assert (R' : regs d0 REG_LORA_MODEM_CONFIG_2 = regs d REG_LORA_MODEM_CONFIG_2)
    by (apply R; discriminate).
  pose proof (Z.mod_pos_bound (regs d REG_LORA_MODEM_CONFIG_2) 256 ltac:(lia)) as B.
  unfold sx127x_set_lora_crc, bind. rewrite E.
  unfold sx127x_read_reg, sx127x_write_reg, Int.to_uint8. rewrite R'.
  set (r := regs d REG_LORA_MODEM_CONFIG_2 mod 256) in *.
  pose proof (mask_byte_range crc r 0x04 0xfb B ltac:(lia) ltac:(lia)) as V.
  exists d0. eexists. exists (if crc then Z.lor r 0x04 else Z.land r 0xfb).
  split; [reflexivity |]. split; [reflexivity |]. cbn.
  rewrite Z.mod_small by exact V. repeat split; try lia.
  intros i Hi. apply crc_bit; assumption.
Qed.

(** X3.  sx127x_set_lora_header_mode rewrites modem-config-1 with one write in
    which bit 0 is set for implicit and cleared for explicit header mode and
    every other bit is the one the register held. It does not pass the write
    gate and leaves the driver state unchanged. *)
Theorem set_lora_header_mode_single_write (hm : sx127x_lora_header_e) (d : device) :
  exists d' v,
    sx127x_set_lora_header_mode hm d = Some (tt, d') /\
    spi_writes d' = spi_writes d ++ [(REG_LORA_MODEM_CONFIG_1, v)] /\
    regs d' REG_LORA_MODEM_CONFIG_1 = v /\
    state d' = state d /\
    0 <= v < 256 /\
    forall i, 0 <= i ->
      Z.testbit v i =
      if i =? 0
      then match hm with
           | SX127X_LORA_HEADER_IMPLICIT => true
           | SX127X_LORA_HEADER_EXPLICIT => false
           end
      else Z.testbit (regs d REG_LORA_MODEM_CONFIG_1 mod 256) i.
Proof.
  pose proof (Z.mod_pos_bound (regs d REG_LORA_MODEM_CONFIG_1) 256 ltac:(lia)) as B.
  unfold sx127x_set_lora_header_mode, bind, sx127x_read_reg, sx127x_write_reg,
    Int.to_uint8.
  set (r := regs d REG_LORA_MODEM_CONFIG_1 mod 256) in *.
  set (b := match hm with
            | SX127X_LORA_HEADER_IMPLICIT => true
            | SX127X_LORA_HEADER_EXPLICIT => false
            end).
  pose proof (mask_byte_range b r 0x01 0xfe B ltac:(lia) ltac:(lia)) as V.
  assert (Hm : match hm with
               | SX127X_LORA_HEADER_IMPLICIT => Z.lor r 0x01
               | SX127X_LORA_HEADER_EXPLICIT => Z.land r 0xfe
               end = if b then Z.lor r 0x01 else Z.land r 0xfe)
    by (destruct hm; reflexivity).
  rewrite Hm.
  eexists. exists (if b then Z.lor r 0x01 else Z.land r 0xfe).
  split; [reflexivity |]. cbn.
  rewrite Z.mod_small by exact V. repeat split; try lia.
  intros i Hi. apply header_bit; assumption.
Qed.

(** ** Preamble length *)

Lemma byte_split (n : Z) :
  (n / 256) mod 256 = (n mod 65536) / 256 /\
  n mod 256 = (n mod 65536) mod 256 /\
  256 * ((n / 256) mod 256) + n mod 256 = n mod 65536.
Proof.
  pose proof (Z_div_mod_eq_full n 256).
  pose proof (Z.mod_pos_bound n 256 ltac:(lia)).
  pose proof (Z_div_mod_eq_full (n / 256) 256).
  pose proof (Z.mod_pos_bound (n / 256) 256 ltac:(lia)).
  assert (E : n mod 65536 = 256 * ((n / 256) mod 256) + n mod 256).
  { symmetry. apply (Z.mod_unique n 65536 (n / 256 / 256)); lia. }
  rewrite E. repeat split.
  - apply (Z.div_unique _ 256 _ (n mod 256)); lia.
  - apply (Z.mod_unique _ 256 ((n / 256) mod 256)); lia.
Qed.

(** X4.  Both preamble-length setters pass the write gate and then write the
    high and the low byte of the length reduced modulo 65536 to their MSB and
    LSB register, in that order. The driver state stays as the write gate left
    it. *)
Theorem set_preamble_length_bytes (length : Z) (d : device) :
  exists d0 d1 d2 hi lo,
    sx127x_prepare_write d = Some (tt, d0) /\
    sx127x_set_fsk_preamble_length length d = Some (tt, d1) /\
    spi_writes d1 =
      spi_writes d0 ++ [(REG_FSK_PREAMBLE_MSB, hi); (REG_FSK_PREAMBLE_LSB, lo)] /\
    sx127x_set_lora_preamble_length length d = Some (tt, d2) /\
    spi_writes d2 =
      spi_writes d0 ++ [(REG_LORA_PREAMBLE_MSB, hi); (REG_LORA_PREAMBLE_LSB, lo)] /\
    state d1 = state d0 /\ state d2 = state d0 /\
    0 <= hi < 256 /\ 0 <= lo < 256 /\
    256 * hi + lo = length mod 65536.
Proof.
  destruct (prepare_write_step d) as (d0 & E & _).
  destruct (byte_split length) as (H1 & H2 & H3).
  pose proof (Z.mod_pos_bound length 65536 ltac:(lia)) as B.
  pose proof (Z.mod_pos_bound length 256 ltac:(lia)) as B1.
  pose proof (Z.mod_pos_bound (length / 256) 256 ltac:(lia)) as B2.
  exists d0. unfold sx127x_set_fsk_preamble_length, sx127x_set_lora_preamble_length,
    bind. rewrite E. unfold sx127x_write_reg, Int.to_uint8, to_uint16.
  do 2 eexists. exists ((length / 256) mod 256), (length mod 256).
  split; [reflexivity |]. split; [reflexivity |]. cbn [spi_writes state].
  rewrite !Z.shiftr_div_pow2 by lia. change (2 ^ 8) with 256. change (2 ^ 0) with 1.
  rewrite Z.div_1_r.
  change 0xff with (Z.ones 8). rewrite Z.land_ones by lia. change (2 ^ 8) with 256.
  rewrite <- H1, <- H2, (Z.mod_small ((length / 256) mod 256)) by lia.
  rewrite Z.mod_mod by lia.
  rewrite <- !app_assoc. cbn [app].
  repeat split; try reflexivity; try lia.
Qed.

(** ** Output power *)

(** X5.  After the write gate sx127x_set_tx_power writes PA_CONFIG and then
    PA_DAC: on the RFO pin 0x70 plus the level clamped to 0..14 with PA_DAC
    0x84, on the PA_BOOST pin 0x80 plus the level clamped to 2..17 minus 2
    with PA_DAC 0x87 when the requested level exceeds 17 and 0x84 otherwise.
    For any other output type the call is a fatal error. *)
Theorem set_tx_power_writes (output_type : sx127x_output_type_e) (level : Z)
        (d : device) :
  exists d0,
    sx127x_prepare_write d = Some (tt, d0) /\
    match output_type with
    | SX127X_OUTPUT_RFO =>
        exists d',
          sx127x_set_tx_power output_type level d = Some (tt, d') /\
          spi_writes d' =
            spi_writes d0 ++ [(REG_PA_CONFIG, 0x70 + Z.max 0 (Z.min 14 level));
                              (REG_PA_DAC, 0x84)] /\
          state d' = state d0
    | SX127X_OUTPUT_PA_BOOST =>
        exists d',
          sx127x_set_tx_power output_type level d = Some (tt, d') /\
          spi_writes d' =
            spi_writes d0 ++ [(REG_PA_CONFIG, 0x80 + (Z.max 2 (Z.min 17 level) - 2));
                              (REG_PA_DAC, if 17 <? level then 0x87 else 0x84)] /\
          state d' = state d0
    | SX127X_OUTPUT_other =>
        sx127x_set_tx_power output_type level d = None
    end.
Proof.
  destruct (prepare_write_step d) as (d0 & E & _).
  exists d0. split; [exact E |].
  unfold sx127x_set_tx_power, bind. rewrite E.
  destruct output_type; [| | reflexivity].
  - set (l := Z.max 0 (Z.min 14 level)).
    assert (Hl : (if level <? 0 then 0 else if level >? 14 then 14 else level) = l).
    { unfold l. rewrite Z.gtb_ltb.
      destruct (level <? 0) eqn:A; destruct (14 <? level) eqn:B;
        rewrite ?Z.ltb_lt, ?Z.ltb_ge in A, B; lia. }
    rewrite Hl. clear Hl. assert (Hr : 0 <= l <= 14) by (unfold l; lia). clearbody l.
    assert (Hc : Z.lor 0x70 l = 0x70 + l).
    { assert (C : l = 0 \/ l = 1 \/ l = 2 \/ l = 3 \/ l = 4 \/ l = 5 \/ l = 6 \/ l = 7 \/
                  l = 8 \/ l = 9 \/ l = 10 \/ l = 11 \/ l = 12 \/ l = 13 \/ l = 14) by lia.
      repeat (destruct C as [C | C]; [subst l; reflexivity |]). subst l. reflexivity. }
    unfold ret, sx127x_write_reg, Int.to_uint8. rewrite Hc.
    eexists. split; [reflexivity |]. cbn [spi_writes state].
    rewrite (Z.mod_small (0x70 + l)) by lia. rewrite <- app_assoc. split; reflexivity.
  - set (l := Z.max 2 (Z.min 17 level)).
    assert (Hl : (if level <? 2 then (2, 0x84)
                  else if level >? 17 then (17, 0x87) else (level, 0x84))
                 = (l, if 17 <? level then 0x87 else 0x84)).
    { unfold l. rewrite Z.gtb_ltb.
      destruct (level <? 2) eqn:A; destruct (17 <? level) eqn:B;
        rewrite ?Z.ltb_lt, ?Z.ltb_ge in A, B; f_equal; lia. }
    rewrite Hl. clear Hl. assert (Hr : 2 <= l <= 17) by (unfold l; lia). clearbody l.
    assert (Hc : Z.lor PA_BOOST (l - 2) = 0x80 + (l - 2)).
    { assert (C : l = 2 \/ l = 3 \/ l = 4 \/ l = 5 \/ l = 6 \/ l = 7 \/
                  l = 8 \/ l = 9 \/ l = 10 \/ l = 11 \/ l = 12 \/ l = 13 \/ l = 14 \/
                  l = 15 \/ l = 16 \/ l = 17) by lia.
      repeat (destruct C as [C | C]; [subst l; reflexivity |]). subst l. reflexivity. }
    unfold ret, sx127x_write_reg, Int.to_uint8. rewrite Hc.
    eexists. split; [reflexivity |]. cbn [spi_writes state].
    rewrite (Z.mod_small (0x80 + (l - 2))) by lia.
    rewrite (Z.mod_small (if 17 <? level then 0x87 else 0x84)) by (destruct (17 <? level); lia).
    rewrite <- app_assoc. split; reflexivity.
Qed.

(** ** FSK receiver bandwidth *)

Lemma fsk_bandwidth_codes_valid :
  forallb (fun i => (1 <=? bandwidth_reg_value i) && (bandwidth_reg_value i <=? 0x17))
          (seq 0 21) = true.
Proof. reflexivity. Qed.

Lemma fsk_bandwidth_code_valid i :
  (i < 21)%nat -> 1 <= bandwidth_reg_value i <= 0x17.
Proof.
  intros H. pose proof fsk_bandwidth_codes_valid as T.
  rewrite forallb_forall in T. specialize (T i).
  rewrite andb_true_iff, !Z.leb_le in T. apply T, in_seq. lia.
Qed.

(** X6.  For a bandwidth from 2600 Hz to below 300000 Hz both FSK bandwidth
    setters return and write, after the write gate, the register code of the
    lookup table (a value from 1 to 0x17) to RX_BW, respectively RX_AFC_BW.
    Only sx127x_set_fsk_rx_bandwidth stores the requested bandwidth in the
    driver state; the AFC setter leaves the state as the write gate left it. *)
Theorem set_fsk_rx_bandwidth_caches (hz : Z) (d : device) :
  2600 <= hz < 300000 ->
  exists d0 d1 d2 v,
    sx127x_prepare_write d = Some (tt, d0) /\
    sx127x_get_fsk_bandwidth_reg_value hz = Some v /\
    1 <= v <= 0x17 /\
    sx127x_set_fsk_rx_bandwidth hz d = Some (tt, d1) /\
    spi_writes d1 = spi_writes d0 ++ [(REG_FSK_RX_BW, v)] /\
    state d1 = with_fsk (state d0) (with_fsk_rx_bandwidth (fsk (state d0)) hz) /\
    sx127x_set_fsk_rx_afc_bandwidth hz d = Some (tt, d2) /\
    spi_writes d2 = spi_writes d0 ++ [(REG_FSK_RX_AFC_BW, v)] /\
    state d2 = state d0.
Proof.
  intros H.
  destruct (prepare_write_step d) as (d0 & E & _).
  destruct (fsk_bandwidth_in_range hz H) as (i & Hi & _ & L).
  pose proof (fsk_bandwidth_code_valid i Hi) as V.
  exists d0. unfold sx127x_set_fsk_rx_bandwidth, sx127x_set_fsk_rx_afc_bandwidth, bind.
  rewrite E, L. unfold sx127x_write_reg, modify_state, Int.to_uint8.
  do 2 eexists. exists (bandwidth_reg_value i).
  split; [reflexivity |]. split; [reflexivity |]. split; [exact V |].
  split; [reflexivity |]. cbn [spi_writes state].
  rewrite (Z.mod_small (bandwidth_reg_value i)) by lia.
  repeat split; reflexivity.
Qed.

Lemma set_fsk_rx_bandwidth_caches_witness :
  2600 <= 50000 < 300000 /\
  exists d0 d1 d2 v,
    sx127x_prepare_write (fsk_device 433000000) = Some (tt, d0) /\
    sx127x_get_fsk_bandwidth_reg_value 50000 = Some v /\
    1 <= v <= 0x17 /\
    sx127x_set_fsk_rx_bandwidth 50000 (fsk_device 433000000) = Some (tt, d1) /\
    spi_writes d1 = spi_writes d0 ++ [(REG_FSK_RX_BW, v)] /\
    state d1 = with_fsk (state d0) (with_fsk_rx_bandwidth (fsk (state d0)) 50000) /\
    sx127x_set_fsk_rx_afc_bandwidth 50000 (fsk_device 433000000) = Some (tt, d2) /\
    spi_writes d2 = spi_writes d0 ++ [(REG_FSK_RX_AFC_BW, v)] /\
    state d2 = state d0.
Proof.
  split; [lia |].
  apply (set_fsk_rx_bandwidth_caches 50000 (fsk_device 433000000)). lia.
Defined.

(** ** Frequency error indicator *)







(** ** Link quality *)

Lemma link_quality_top min_dbm max_dbm :
  min_dbm < max_dbm -> link_quality min_dbm max_dbm max_dbm = 100.
Proof.
  intros H. unfold link_quality.
  replace (max_dbm - max_dbm) with 0 by lia.
  rewrite Z.mul_0_l, Z.sub_0_r.
  rewrite <- Z.mul_assoc. apply Z.quot_mul. nia.
Qed.

Lemma link_quality_bottom min_dbm max_dbm :
  min_dbm < max_dbm -> link_quality min_dbm max_dbm min_dbm = 0.
Proof.
  intros H. unfold link_quality.
  match goal with |- Z.quot ?n _ = 0 => replace n with 0 by ring end.
  apply Z.quot_0_l. nia.
Qed.

Lemma link_quality_monotone min_dbm max_dbm dbm dbm' :
  min_dbm < max_dbm -> min_dbm <= dbm -> dbm <= dbm' -> dbm' <= max_dbm ->
  link_quality min_dbm max_dbm dbm <= link_quality min_dbm max_dbm dbm'.
Proof.
  intros H L1 L2 L3. unfold link_quality.
  set (D := max_dbm - min_dbm). set (x := max_dbm - dbm). set (y := max_dbm - dbm').
  assert (HD : 0 < D) by (unfold D; lia).
  assert (Hx : 0 <= y <= x /\ x <= D) by (unfold x, y, D; lia).
  clearbody D x y.
  rewrite !Z.quot_div_nonneg by nia.
  apply Z.div_le_mono; nia.
Qed.

(** X8.  For a sensitivity min_dbm and a maximum max_dbm with -1000 <= min_dbm
    < max_dbm <= 1000 (a range in which the int arithmetic cannot overflow),
    link_quality is 0 at min_dbm, 100 at max_dbm and non-decreasing between
    them, so it lies in 0..100 for every signal strength from min_dbm to
    max_dbm. *)
Theorem link_quality_scale (min_dbm max_dbm dbm dbm' : Z) :
  -1000 <= min_dbm -> max_dbm <= 1000 ->
  min_dbm < max_dbm ->
  min_dbm <= dbm -> dbm <= dbm' -> dbm' <= max_dbm ->
  link_quality min_dbm max_dbm min_dbm = 0 /\
  link_quality min_dbm max_dbm max_dbm = 100 /\
  0 <= link_quality min_dbm max_dbm dbm
    <= link_quality min_dbm max_dbm dbm' /\
  link_quality min_dbm max_dbm dbm' <= 100.
Proof.
  intros _ _ H L1 L2 L3.
  split; [apply link_quality_bottom, H |].
  split; [apply link_quality_top, H |].
  pose proof (link_quality_monotone min_dbm max_dbm min_dbm dbm H) as M0.
  pose proof (link_quality_monotone min_dbm max_dbm dbm dbm' H) as M1.
  pose proof (link_quality_monotone min_dbm max_dbm dbm' max_dbm H) as M2.
  rewrite link_quality_bottom in M0 by exact H.
  rewrite link_quality_top in M2 by exact H.
  lia.
Qed.

Lemma link_quality_scale_witness :
  -1000 <= -95 /\ 0 <= 1000 /\ -95 < 0 /\ -95 <= -60 /\ -60 <= -30 /\ -30 <= 0 /\
  link_quality (-95) 0 (-95) = 0 /\
  link_quality (-95) 0 0 = 100 /\
  0 <= link_quality (-95) 0 (-60) <= link_quality (-95) 0 (-30) /\
  link_quality (-95) 0 (-30) <= 100.
Proof.
  repeat (split; [lia |]).
  apply (link_quality_scale (-95) 0 (-60) (-30)); lia.
Defined.

(** ** The FSK mode-ready poll *)

Lemma wait_for_mode_ready_loop_stuck fuel d :
  Z.land (regs d REG_FSK_IRQ_FLAGS_1 mod 256) (Z.lnot IRQ_FSK_MODE_READY) <> 0 ->
  sx127x_fsk_wait_for_mode_ready_loop fuel d = None.
Proof.
  intros H. induction fuel as [| fuel IH]; [reflexivity |].
  cbn [sx127x_fsk_wait_for_mode_ready_loop]. unfold bind, sx127x_read_reg, Int.to_uint8.
  apply Z.eqb_neq in H. rewrite H. exact IH.
Qed.

Lemma land_not_mode_ready v :
  0 <= v < 256 -> Z.land v (Z.lnot IRQ_FSK_MODE_READY) = v mod 128.
Proof.
  intros Hv. change 128 with (2 ^ 7). rewrite <- Z.land_ones by lia.
  apply Z.bits_inj'. intros i Hi. rewrite !Z.land_spec, Z.lnot_spec by lia.
  unfold IRQ_FSK_MODE_READY. change (Z.shiftl 1 7) with (2 ^ 7).
  rewrite Z.pow2_bits_eqb by lia.
  destruct (Z_lt_ge_dec i 7) as [L | G].
  - rewrite Z.ones_spec_low by lia.
    destruct (7 =? i) eqn:E; [apply Z.eqb_eq in E; lia | reflexivity].
  - rewrite Z.ones_spec_high by lia. rewrite andb_false_r.
    destruct (7 =? i) eqn:E; [apply andb_false_r |].
    apply Z.eqb_neq in E. rewrite (byte_testbit_high v i) by lia. reflexivity.
Qed.

(** X9.  The FSK mode-ready poll returns, at its first read and without
    changing the device, exactly when the IRQ-flags-1 register reads 0x00 or
    0x80, that is when every flag other than ModeReady is clear, whatever
    ModeReady is. While any other flag reads as set the poll does not return
    (in the chip model, where registers only change by writes, it never does). *)
Theorem fsk_wait_for_mode_ready_ignores_mode_ready (d : device) :
  let flags := regs d REG_FSK_IRQ_FLAGS_1 mod 256 in
  (flags mod 128 = 0 -> sx127x_fsk_wait_for_mode_ready d = Some (tt, d)) /\
  (flags mod 128 <> 0 -> sx127x_fsk_wait_for_mode_ready d = None) /\
  (sx127x_fsk_wait_for_mode_ready d = Some (tt, d) <-> flags = 0 \/ flags = 128).
Proof.
  intros flags.
  pose proof (Z.mod_pos_bound (regs d REG_FSK_IRQ_FLAGS_1) 256 ltac:(lia)) as B.
  fold flags in B.
  assert (A : flags mod 128 = 0 -> sx127x_fsk_wait_for_mode_ready d = Some (tt, d)).
  { intros H. unfold sx127x_fsk_wait_for_mode_ready, MODE_READY_FUEL.
    cbn [sx127x_fsk_wait_for_mode_ready_loop]. unfold bind, sx127x_read_reg, Int.to_uint8.
    fold flags. rewrite land_not_mode_ready by exact B. rewrite H. reflexivity. }
  assert (N : flags mod 128 <> 0 -> sx127x_fsk_wait_for_mode_ready d = None).
  { intros H. apply wait_for_mode_ready_loop_stuck. fold flags.
    rewrite land_not_mode_ready by exact B. exact H. }
  split; [exact A |]. split; [exact N |]. split.
  - intros R. destruct (Z.eq_dec (flags mod 128) 0) as [Z0 | NZ].
    + pose proof (Z_div_mod_eq_full flags 128). lia.
    + rewrite (N NZ) in R. discriminate.
  - intros [H | H]; apply A; rewrite H; reflexivity.
Qed.

(** ** The mode controller, as equations *)

Lemma set_mode_eq m d :
  0 <= m < 256 -> sx127x_set_mode m d = Some (tt, in_mode m d).
Proof.
  intros Hm. unfold sx127x_set_mode, in_mode, bind, get_state, when.
  destruct (mode (state d) =? m); [reflexivity |]. cbn.
  unfold Int.to_uint8. rewrite Z.mod_small by exact Hm. reflexivity.
Qed.

Lemma lora_bit_byte x :
  0 <= Z.land x MODE_LORA < 256 /\ 0 <= Z.land x MODE_LORA + 1 < 256.
Proof. destruct (land_mode_lora x) as [H | H]; rewrite H; lia. Qed.

Lemma sleep_eq d :
  sx127x_sleep d = Some (tt, in_mode (Z.land (mode (state d)) MODE_LORA) d).
Proof.
  unfold sx127x_sleep, bind, get_state. unfold MODE_SLEEP. rewrite Z.lor_0_r.
  apply set_mode_eq, lora_bit_byte.
Qed.

Lemma idle_eq d :
  sx127x_idle d = Some (tt, in_mode (Z.land (mode (state d)) MODE_LORA + 1) d).
Proof.
  unfold sx127x_idle, bind, get_state.
  replace (Z.lor (Z.land (mode (state d)) MODE_LORA) MODE_STDBY)
    with (Z.land (mode (state d)) MODE_LORA + 1)
    by (destruct (land_mode_lora (mode (state d))) as [H | H]; rewrite H; reflexivity).
  apply set_mode_eq, lora_bit_byte.
Qed.

Lemma in_mode_mode m d : mode (state (in_mode m d)) = m.
Proof.
  unfold in_mode. destruct (mode (state d) =? m) eqn:E; [| reflexivity].
  apply Z.eqb_eq, E.
Qed.

Lemma in_mode_writes m d :
  spi_writes (in_mode m d) =
  spi_writes d ++ mode_write_unless_cached (mode (state d)) m.
Proof.
  unfold in_mode, mode_write_unless_cached.
  destruct (mode (state d) =? m); [symmetry; apply app_nil_r | reflexivity].
Qed.

Lemma in_mode_config m d : same_config (state d) (state (in_mode m d)).
Proof.
  unfold in_mode. destruct (mode (state d) =? m);
    unfold same_config; cbn; repeat split; reflexivity.
Qed.

Lemma in_mode_regs m d a :
  a <> REG_OP_MODE -> regs (in_mode m d) a = regs d a.
Proof.
  intros H. unfold in_mode. destruct (mode (state d) =? m); [reflexivity |]. cbn.
  destruct (a =? REG_OP_MODE) eqn:E; [apply Z.eqb_eq in E; contradiction | reflexivity].
Qed.

Lemma in_mode_fifo m d : fifo (in_mode m d) = fifo d.
Proof. unfold in_mode. destruct (mode (state d) =? m); reflexivity. Qed.


(** Projections of the state after a mode change. *)
Ltac in_mode_fields m d :=
  let C := fresh "C" in
  pose proof (in_mode_config m d) as C;
  destruct C as (?C & ?C & ?C & ?C & ?C & ?C & ?C & ?C).

(** Running the first command of a sequence. *)
Lemma bind_eq {A B} (c : M A) (k : A -> M B) d a d' :
  c d = Some (a, d') -> bind c k d = k a d'.
Proof. intros H. unfold bind. rewrite H. reflexivity. Qed.

Lemma bind_none {A B} (c : M A) (k : A -> M B) d :
  c d = None -> bind c k d = None.
Proof. intros H. unfold bind. rewrite H. reflexivity. Qed.

Lemma bind_assoc {A B C} (c : M A) (k : A -> M B) (h : B -> M C) d :
  bind (bind c k) h d = bind c (fun a => bind (k a) h) d.
Proof. unfold bind. destruct (c d) as [[a d'] |]; reflexivity. Qed.

Lemma get_state_eq d : get_state d = Some (state d, d).
Proof. reflexivity. Qed.

Lemma write_reg_eq addr v d :
  sx127x_write_reg addr v d =
  Some (tt, mk_device (state d)
                      (fun a => if a =? addr then Int.to_uint8 v else regs d a)
                      (fifo d) (spi_writes d ++ [(addr, Int.to_uint8 v)]) (clock d)).
Proof. reflexivity. Qed.

Lemma modify_state_eq f d :
  modify_state f d = Some (tt, with_state d (f (state d))).
Proof. reflexivity. Qed.

Lemma read_reg_eq addr d : sx127x_read_reg addr d = Some (regs d addr, d).
Proof. reflexivity. Qed.

Ltac tidy := cbn [state regs fifo spi_writes clock with_state].
Ltac tidy_in H := cbn [state regs fifo spi_writes clock with_state] in H.
Ltac run_with L := erewrite bind_eq; [| apply L]; tidy.
Ltac run_state := erewrite bind_eq; [| apply get_state_eq]; tidy.
Ltac run_write := erewrite bind_eq; [| apply write_reg_eq]; tidy.
Ltac run_read := erewrite bind_eq; [| apply read_reg_eq]; tidy.
Ltac run_refl := erewrite bind_eq; [| reflexivity]; tidy.
Ltac run_set_mode :=
  erewrite bind_eq;
  [| apply set_mode_eq;
     first [apply lora_bit_byte
           | split; [vm_compute; discriminate | vm_compute; reflexivity]]];
  tidy.

(** ** Switching the modulation scheme *)

Lemma set_fsk_parameters_writes d :
  exists d',
    sx127x_set_fsk_parameters d = Some (tt, d') /\
    state d' = state d /\
    spi_writes d' = spi_writes d ++ fsk_parameter_writes.
Proof.
  eexists. split.
  - unfold sx127x_set_fsk_parameters. do 8 run_write. apply write_reg_eq.
  - cbn [state spi_writes]. rewrite <- !app_assoc. split; reflexivity.
Qed.

(** X10.  sx127x_set_op_mode always returns with the requested modulation
    scheme cached, and leaves the device unchanged when that scheme was
    already cached. Otherwise it puts the chip to sleep in the old scheme and
    then in the new one (a mode-register write is left out when the cache
    already holds the byte), follows with the nine fixed FSK parameter writes
    when the new scheme is FSK, ends with the mode cache at the new scheme's
    sleep byte and keeps every other state field. *)
Theorem set_op_mode_through_sleep (om : sx127x_op_mode_e) (d : device) :
  let old_sleep := Z.land (mode (state d)) MODE_LORA in
  exists d',
    sx127x_set_op_mode om d = Some (tt, d') /\
    op_mode (state d') = om /\
    (op_mode (state d) = om -> d' = d) /\
    (op_mode (state d) <> om ->
     mode (state d') = sleep_mode_of om /\
     spi_writes d' =
       spi_writes d
       ++ mode_write_unless_cached (mode (state d)) old_sleep
       ++ mode_write_unless_cached old_sleep (sleep_mode_of om)
       ++ (match om with
           | SX127X_OP_MODE_FSK => fsk_parameter_writes
           | SX127X_OP_MODE_LORA => []
           end) /\
     rx_done (state d') = rx_done (state d) /\
     tx_done (state d') = tx_done (state d) /\
     dio0_trigger (state d') = dio0_trigger (state d) /\
     callback (state d') = callback (state d) /\
     callback_data (state d') = callback_data (state d) /\
     fsk (state d') = fsk (state d) /\
     lora (state d') = lora (state d)).
Proof.
  intros old_sleep.
  assert (Same : op_mode (state d) = om ->
                 sx127x_set_op_mode om d = Some (tt, d)).
  { intros <-. unfold sx127x_set_op_mode, bind, get_state.
    destruct (op_mode (state d)); reflexivity. }
  destruct (op_mode (state d)) eqn:O, om;
    try (exists d; split; [apply Same; reflexivity |];
         split; [exact O |]; split; [reflexivity | intros N; contradiction]).
  - (* FSK to LoRa *)
    unfold sx127x_set_op_mode. run_state. rewrite O. cbn [op_mode_eqb negb when].
    unfold MODE_SLEEP at 1. rewrite Z.lor_0_r. fold old_sleep.
    run_set_mode. run_set_mode.
    eexists. split; [reflexivity |]. cbn [modify_state state with_state with_op_mode op_mode].
    split; [reflexivity |]. split; [intros N; discriminate |]. intros _.
    cbn [mode rx_done tx_done dio0_trigger callback callback_data fsk lora spi_writes
         state with_state with_op_mode].
    in_mode_fields old_sleep d.
    in_mode_fields (Z.lor MODE_LORA MODE_SLEEP) (in_mode old_sleep d).
    split; [apply in_mode_mode |].
    split; [rewrite !in_mode_writes, !in_mode_mode, <- !app_assoc, app_nil_r;
            reflexivity |].
    repeat split; congruence.
  - (* LoRa to FSK *)
    unfold sx127x_set_op_mode. run_state. rewrite O. cbn [op_mode_eqb negb when].
    unfold MODE_SLEEP at 1. rewrite Z.lor_0_r. fold old_sleep.
    run_set_mode. rewrite bind_assoc. run_set_mode.
    destruct (set_fsk_parameters_writes (in_mode MODE_SLEEP (in_mode old_sleep d)))
      as (d3 & E3 & S3 & W3).
    run_with E3.
    eexists. split; [reflexivity |]. cbn [modify_state state with_state with_op_mode op_mode].
    split; [reflexivity |]. split; [intros N; discriminate |]. intros _.
    cbn [mode rx_done tx_done dio0_trigger callback callback_data fsk lora spi_writes
         state with_state with_op_mode].
    in_mode_fields old_sleep d.
    in_mode_fields MODE_SLEEP (in_mode old_sleep d).
    rewrite S3, W3.
    split; [apply in_mode_mode |].
    split; [rewrite !in_mode_writes, !in_mode_mode, <- !app_assoc; reflexivity |].
    repeat split; congruence.
Qed.

(** ** The write gate *)

Lemma prepare_write_eq d : sx127x_prepare_write d = Some (tt, write_gate d).
Proof.
  unfold sx127x_prepare_write, write_gate, writable_mode, bind, get_state, when.
  destruct (op_mode (state d)).
  - apply sleep_eq.
  - destruct (_ =? MODE_SLEEP), (_ =? MODE_STDBY); cbn [negb andb orb];
      first [reflexivity | apply idle_eq].
Qed.

Lemma writable_lora_bit x :
  writable_mode (Z.land x MODE_LORA) = true /\
  writable_mode (Z.land x MODE_LORA + 1) = true.
Proof.
  destruct (land_mode_lora x) as [H | H]; rewrite H; split; reflexivity.
Qed.

Lemma land_lora_idem x :
  Z.land (Z.land x MODE_LORA) MODE_LORA = Z.land x MODE_LORA /\
  Z.land (Z.land x MODE_LORA + 1) MODE_LORA = Z.land x MODE_LORA.
Proof.
  destruct (land_mode_lora x) as [H | H]; rewrite H; split; reflexivity.
Qed.

Lemma write_gate_op_mode d : op_mode (state (write_gate d)) = op_mode (state d).
Proof.
  unfold write_gate. destruct (op_mode (state d)) eqn:O.
  - in_mode_fields (Z.land (mode (state d)) MODE_LORA) d. congruence.
  - destruct (writable_mode _); [exact O |].
    in_mode_fields (Z.land (mode (state d)) MODE_LORA + 1) d. congruence.
Qed.

Lemma write_gate_config d : same_config (state d) (state (write_gate d)).
Proof.
  unfold write_gate. destruct (op_mode (state d)).
  - apply in_mode_config.
  - destruct (writable_mode _); [apply same_config_refl | apply in_mode_config].
Qed.

Lemma write_gate_writable d :
  match op_mode (state d) with
  | SX127X_OP_MODE_FSK =>
      mode (state (write_gate d)) = Z.land (mode (state d)) MODE_LORA
  | SX127X_OP_MODE_LORA =>
      writable_mode (mode (state (write_gate d))) = true
  end.
Proof.
  unfold write_gate. destruct (op_mode (state d)).
  - apply in_mode_mode.
  - destruct (writable_mode (mode (state d))) eqn:W; [exact W |].
    rewrite in_mode_mode. apply writable_lora_bit.
Qed.



(** ** Payload length *)

Section PayloadFacts.

Variable FEC_ENCODED_SIZE : Z -> Z.

Lemma set_payload_size_eq size d :
  sx127x_set_payload_size FEC_ENCODED_SIZE size d =
  Some (tt, payload_length_set FEC_ENCODED_SIZE size d).
Proof.
  unfold sx127x_set_payload_size, payload_length_set. run_state.
  unfold cached_payload_length, wire_payload_length, payload_length_reg in *.
  destruct (op_mode (state d)) eqn:O;
    match goal with
    | |- context [negb (_ =? ?n)] =>
        assert (Hn : Int.to_uint8 n = n)
          by (unfold Int.to_uint8; apply Z.mod_mod; lia);
        remember n as k eqn:Ek; clear Ek
    end;
    (destruct (_ =? k) eqn:E; cbn [negb when]; [reflexivity |]);
    run_with prepare_write_eq; run_write;
    unfold modify_state, with_state; cbn [state regs fifo spi_writes clock];
    rewrite Hn; reflexivity.
Qed.

Lemma wire_payload_length_byte om size :
  0 <= wire_payload_length FEC_ENCODED_SIZE om size < 256.
Proof.
  unfold wire_payload_length, Int.to_uint8.
  destruct om; apply Z.mod_pos_bound; lia.
Qed.

Lemma payload_length_set_same size d :
  cached_payload_length (state d)
  = wire_payload_length FEC_ENCODED_SIZE (op_mode (state d)) size ->
  payload_length_set FEC_ENCODED_SIZE size d = d.
Proof.
  intros H. unfold payload_length_set. cbv zeta. rewrite H, Z.eqb_refl. reflexivity.
Qed.

Lemma payload_length_set_op_mode size d :
  op_mode (state (payload_length_set FEC_ENCODED_SIZE size d)) = op_mode (state d).
Proof.
  unfold payload_length_set. cbv zeta.
  pose proof (write_gate_op_mode d) as G.
  destruct (_ =? _); [reflexivity |]. cbn [state].
  destruct (op_mode (state d)); cbn; exact G.
Qed.

Lemma payload_length_set_cached size d :
  cached_payload_length (state (payload_length_set FEC_ENCODED_SIZE size d))
  = wire_payload_length FEC_ENCODED_SIZE (op_mode (state d)) size.
Proof.
  unfold payload_length_set. cbv zeta.
  pose proof (write_gate_op_mode d) as G.
  destruct (_ =? _) eqn:E; [apply Z.eqb_eq, E |].
  unfold cached_payload_length. cbn [state].
  destruct (op_mode (state d)); cbn; rewrite G; reflexivity.
Qed.

Lemma payload_length_set_writes size d :
  spi_writes (payload_length_set FEC_ENCODED_SIZE size d) =
  if cached_payload_length (state d)
     =? wire_payload_length FEC_ENCODED_SIZE (op_mode (state d)) size
  then spi_writes d
  else spi_writes (write_gate d)
       ++ [(payload_length_reg (op_mode (state d)),
            wire_payload_length FEC_ENCODED_SIZE (op_mode (state d)) size)].
Proof.
  unfold payload_length_set. cbv zeta. destruct (_ =? _); reflexivity.
Qed.

Lemma payload_length_set_idem size d :
  payload_length_set FEC_ENCODED_SIZE size
    (payload_length_set FEC_ENCODED_SIZE size d)
  = payload_length_set FEC_ENCODED_SIZE size d.
Proof.
  apply payload_length_set_same.
  rewrite payload_length_set_cached, payload_length_set_op_mode. reflexivity.
Qed.

(** X12.  sx127x_set_payload_size always returns with the cached payload
    length of the current scheme equal to the wire length: the size reduced to
    8 bits in LoRa mode, FEC_ENCODED_SIZE of it reduced to 8 bits in FSK mode.
    When the cache already held that length the device is unchanged; otherwise
    the only write after the write gate is that length to the scheme's
    payload-length register. Repeating the call changes nothing. *)
Theorem set_payload_size_cached (size : Z) (d : device) :
  let n := wire_payload_length FEC_ENCODED_SIZE (op_mode (state d)) size in
  exists d0 d',
    sx127x_prepare_write d = Some (tt, d0) /\
    sx127x_set_payload_size FEC_ENCODED_SIZE size d = Some (tt, d') /\
    0 <= n < 256 /\
    cached_payload_length (state d') = n /\
    (cached_payload_length (state d) = n -> d' = d) /\
    (cached_payload_length (state d) <> n ->
     spi_writes d' =
       spi_writes d0 ++ [(payload_length_reg (op_mode (state d)), n)]) /\
    sx127x_set_payload_size FEC_ENCODED_SIZE size d' = Some (tt, d').
Proof.
  intros n. exists (write_gate d), (payload_length_set FEC_ENCODED_SIZE size d).
  split; [apply prepare_write_eq |]. split; [apply set_payload_size_eq |].
  split; [apply wire_payload_length_byte |].
  split; [apply payload_length_set_cached |].
  split; [apply payload_length_set_same |].
  split.
  - intros K. rewrite payload_length_set_writes. fold n.
    apply Z.eqb_neq in K. rewrite K. reflexivity.
  - rewrite set_payload_size_eq, payload_length_set_idem. reflexivity.
Qed.

End PayloadFacts.

(** ** The interrupt task *)

Lemma callback_task_eq call d :
  sx127x_callback_task call d =
  if dio0_trigger (state d) =? DIO0_TRIGGER_RX_DONE then
    if callback (state d) =? 0 then Some (tt, rx_flagged d)
    else call (callback (state d)) AIR_RADIO_CALLBACK_REASON_RX_DONE
              (callback_data (state d)) (rx_flagged d)
  else if dio0_trigger (state d) =? DIO0_TRIGGER_TX_DONE then
    if callback (state d) =? 0 then Some (tt, tx_flagged d)
    else call (callback (state d)) AIR_RADIO_CALLBACK_REASON_TX_DONE
              (callback_data (state d)) (tx_flagged d)
  else Some (tt, d).
Proof.
  unfold sx127x_callback_task. run_state.
  destruct (dio0_trigger (state d) =? DIO0_TRIGGER_RX_DONE).
  - run_refl. run_refl. cbn [state with_state with_rx_done callback callback_data].
    destruct (callback (state d) =? 0); reflexivity.
  - destruct (dio0_trigger (state d) =? DIO0_TRIGGER_TX_DONE); [| reflexivity].
    run_refl. run_refl. cbn [state with_state with_tx_done callback callback_data].
    destruct (callback (state d) =? 0); reflexivity.
Qed.

(** X13.  sx127x_disable_dio0 clears the cached DIO0 trigger and writes the
    no-interrupt mapping of the current scheme (0x80 in FSK, 0xC0 in LoRa) to
    DIO_MAPPING_1, changing nothing else in the driver state. After it a turn
    of the interrupt task sets no flag, calls no callback and leaves the
    device unchanged. *)
Theorem disable_dio0_silences_task
        (call_callback : Z -> air_radio_callback_reason_e -> Z -> M unit)
        (d : device) :
  exists d',
    sx127x_disable_dio0 d = Some (tt, d') /\
    dio0_trigger (state d') = 0 /\
    spi_writes d' =
      spi_writes d ++ [(REG_DIO_MAPPING_1,
                        match op_mode (state d) with
                        | SX127X_OP_MODE_FSK => 0x80
                        | SX127X_OP_MODE_LORA => 0xC0
                        end)] /\
    state d' = with_dio0_trigger (state d) 0 /\
    sx127x_callback_task call_callback d' = Some (tt, d').
Proof.
  unfold sx127x_disable_dio0. run_refl. run_state.
  cbn [state with_state op_mode with_dio0_trigger].
  eexists. split; [apply write_reg_eq |].
  cbn [state spi_writes with_state dio0_trigger with_dio0_trigger].
  split; [reflexivity |].
  split; [destruct (op_mode (state d)); reflexivity |].
  split; [reflexivity |].
  rewrite callback_task_eq. reflexivity.
Qed.

(** ** Transmitting in LoRa mode *)



Section SendFacts.

Variable FEC_ENCODED_SIZE : Z -> Z.
Variable fec_encode : list Z -> Z -> Z -> list Z * Z.


End SendFacts.


(** ** Transmitting in FSK mode *)

Lemma wait_for_mode_ready_eq d :
  (regs d REG_FSK_IRQ_FLAGS_1 mod 256) mod 128 = 0 ->
  sx127x_fsk_wait_for_mode_ready d = Some (tt, d).
Proof.
  intros H. unfold sx127x_fsk_wait_for_mode_ready, MODE_READY_FUEL.
  cbn [sx127x_fsk_wait_for_mode_ready_loop]. unfold bind, sx127x_read_reg, Int.to_uint8.
  rewrite land_not_mode_ready by (apply Z.mod_pos_bound; lia).
  rewrite H. reflexivity.
Qed.

Lemma wait_for_mode_ready_none d :
  (regs d REG_FSK_IRQ_FLAGS_1 mod 256) mod 128 <> 0 ->
  sx127x_fsk_wait_for_mode_ready d = None.
Proof.
  intros H. apply wait_for_mode_ready_loop_stuck.
  rewrite land_not_mode_ready by (apply Z.mod_pos_bound; lia). exact H.
Qed.



Lemma mode_write_fsk_rx x :
  mode_write_unless_cached (Z.land x MODE_LORA + 1) MODE_RX_CONTINUOUS
  = [(REG_OP_MODE, MODE_RX_CONTINUOUS)].
Proof. destruct (land_mode_lora x) as [H | H]; rewrite H; reflexivity. Qed.

Section SendFskFacts.

Variable FEC_ENCODED_SIZE : Z -> Z.
Variable fec_encode : list Z -> Z -> Z -> list Z * Z.


End SendFskFacts.


(** ** Continuous receive *)

Lemma write_gate_writes d :
  spi_writes (write_gate d) = spi_writes d ++ gate_writes (state d).
Proof.
  unfold write_gate, gate_writes. destruct (op_mode (state d)).
  - apply in_mode_writes.
  - destruct (writable_mode _); [symmetry; apply app_nil_r | apply in_mode_writes].
Qed.

Lemma writable_not_rx m :
  writable_mode m = true ->
  mode_write_unless_cached m (Z.lor MODE_LORA MODE_RX_CONTINUOUS)
  = [(REG_OP_MODE, Z.lor MODE_LORA MODE_RX_CONTINUOUS)].
Proof.
  intros W. unfold mode_write_unless_cached.
  destruct (m =? Z.lor MODE_LORA MODE_RX_CONTINUOUS) eqn:E; [| reflexivity].
  apply Z.eqb_eq in E. subst m. discriminate W.
Qed.

(** X16.  sx127x_enable_continous_rx in LoRa mode passes the write gate, maps
    DIO0 to RxDone and writes the LoRa continuous-receive mode; in FSK mode it
    goes to standby, polls for mode ready (and does not return while that poll
    does not), maps DIO0 to PayloadReady, writes the continuous-receive mode
    and sets the FIFO threshold to 0x80 or'ed with the cached payload length.
    In both modes it leaves rx_done false and the trigger at RX_DONE, keeps
    the other state fields, and the next turn of the interrupt task sets
    rx_done and calls the registered callback, if any, with reason RX_DONE. *)
Theorem enable_continous_rx_arms_receiver (d : device) :
  match op_mode (state d) with
  | SX127X_OP_MODE_LORA =>
      exists d0 d',
        sx127x_prepare_write d = Some (tt, d0) /\
        sx127x_enable_continous_rx d = Some (tt, d') /\
        spi_writes d' =
          spi_writes d0
          ++ [(REG_DIO_MAPPING_1, DIO0_LORA_RX_DONE);
              (REG_OP_MODE, Z.lor MODE_LORA MODE_RX_CONTINUOUS)] /\
        mode (state d') = Z.lor MODE_LORA MODE_RX_CONTINUOUS /\
        rx_armed d d'
  | SX127X_OP_MODE_FSK =>
      exists d0,
        sx127x_idle d = Some (tt, d0) /\
        if (regs d REG_FSK_IRQ_FLAGS_1 mod 256) mod 128 =? 0 then
          exists d',
            sx127x_enable_continous_rx d = Some (tt, d') /\
            spi_writes d' =
              spi_writes d0
              ++ [(REG_DIO_MAPPING_1, DIO0_FSK_PAYLOAD_READY);
                  (REG_OP_MODE, MODE_RX_CONTINUOUS);
                  (REG_FSK_FIFO_THRESH,
                   Z.lor 0x80 (fsk_payload_length (fsk (state d))) mod 256)] /\
            mode (state d') = MODE_RX_CONTINUOUS /\
            rx_armed d d'
        else sx127x_enable_continous_rx d = None
  end.
Proof.
  destruct (op_mode (state d)) eqn:O.
  - (* FSK *)
    set (m1 := Z.land (mode (state d)) MODE_LORA + 1).
    exists (in_mode m1 d). split; [apply idle_eq |].
    set (dm := with_state d (with_dio0_trigger (with_rx_done (state d) false)
                                               DIO0_TRIGGER_RX_DONE)).
    assert (Em : in_mode m1 dm =
                 with_state (in_mode m1 d)
                   (with_dio0_trigger (with_rx_done (state (in_mode m1 d)) false)
                                      DIO0_TRIGGER_RX_DONE)).
    { unfold in_mode, dm. cbn [state with_state mode with_dio0_trigger with_rx_done].
      destruct (mode (state d) =? m1); reflexivity. }
    destruct (_ =? 0) eqn:F; [apply Z.eqb_eq in F | apply Z.eqb_neq in F].
    + eexists. unfold sx127x_enable_continous_rx. run_refl. run_state.
      cbn [state with_state op_mode with_dio0_trigger with_rx_done].
      rewrite O. fold dm.
      run_with idle_eq.
      cbn [state with_state mode with_dio0_trigger with_rx_done dm]. fold m1. fold dm.
      rewrite Em.
      in_mode_fields m1 d. pose proof (in_mode_mode m1 d) as M1.
      run_with wait_for_mode_ready_eq;
        [| cbn [regs with_state]; rewrite in_mode_regs by discriminate; exact F].
      run_write. tidy.
      run_set_mode. run_state.
      split; [apply write_reg_eq |]. tidy.
      match goal with
      | |- context [in_mode MODE_RX_CONTINUOUS ?x] =>
          set (d4 := x) in *; in_mode_fields MODE_RX_CONTINUOUS d4;
          pose proof (in_mode_writes MODE_RX_CONTINUOUS d4) as W4;
          pose proof (in_mode_mode MODE_RX_CONTINUOUS d4) as MT
      end.
      assert (S4 : state d4 =
                   with_dio0_trigger (with_rx_done (state (in_mode m1 d)) false)
                                     DIO0_TRIGGER_RX_DONE)
        by (subst d4; reflexivity).
      assert (M4 : mode (state d4) = m1) by (rewrite S4; exact M1).
      rewrite M4 in W4. unfold m1 in W4. rewrite mode_write_fsk_rx in W4.
      rewrite S4 in *.
      cbn [mode op_mode rx_done tx_done dio0_trigger callback callback_data fsk lora
           with_dio0_trigger with_rx_done] in *.
      assert (Hcb : callback (state (in_mode MODE_RX_CONTINUOUS d4))
                    = callback (state d)) by congruence.
      assert (Hcd : callback_data (state (in_mode MODE_RX_CONTINUOUS d4))
                    = callback_data (state d)) by congruence.
      assert (Htr : dio0_trigger (state (in_mode MODE_RX_CONTINUOUS d4))
                    = DIO0_TRIGGER_RX_DONE) by congruence.
      split.
      { assert (Hfsk : fsk (state (in_mode MODE_RX_CONTINUOUS d4)) = fsk (state d))
          by congruence.
        rewrite Hfsk, W4. subst d4. tidy. unfold Int.to_uint8.
        rewrite <- !app_assoc. reflexivity. }
      split; [exact MT |].
      unfold rx_armed. tidy.
      repeat (split; [congruence |]).
      intros call. rewrite callback_task_eq. tidy. rewrite Htr, Hcb, Hcd. reflexivity.
    + unfold sx127x_enable_continous_rx. run_refl. run_state.
      cbn [state with_state op_mode with_dio0_trigger with_rx_done].
      rewrite O. fold dm.
      run_with idle_eq.
      cbn [state with_state mode with_dio0_trigger with_rx_done dm]. fold m1. fold dm.
      rewrite Em.
      apply bind_none. apply wait_for_mode_ready_none.
      cbn [regs with_state]. rewrite in_mode_regs by discriminate. exact F.
  - (* LoRa *)
    exists (write_gate d).
    set (dm := with_state d (with_dio0_trigger (with_rx_done (state d) false)
                                               DIO0_TRIGGER_RX_DONE)).
    assert (Om : op_mode (state dm) = SX127X_OP_MODE_LORA) by exact O.
    pose proof (write_gate_writable dm) as Wm. rewrite Om in Wm.
    pose proof (write_gate_config dm) as (C1 & C2 & C3 & C4 & C5 & C6 & C7 & C8).
    pose proof (write_gate_writes dm) as Wg.
    assert (Gw : gate_writes (state dm) = gate_writes (state d)) by reflexivity.
    change (spi_writes dm) with (spi_writes d) in Wg.
    rewrite Gw, <- write_gate_writes in Wg.
    eexists. split; [apply prepare_write_eq |].
    unfold sx127x_enable_continous_rx. run_refl. run_state.
    cbn [state with_state op_mode with_dio0_trigger with_rx_done].
    rewrite O. fold dm.
    run_with prepare_write_eq. run_write. tidy.
    split; [apply set_mode_eq; split; [vm_compute; discriminate | vm_compute; reflexivity] |].
    match goal with
    | |- context [in_mode _ ?x] =>
        set (d4 := x) in *;
        in_mode_fields (Z.lor MODE_LORA MODE_RX_CONTINUOUS) d4;
        pose proof (in_mode_writes (Z.lor MODE_LORA MODE_RX_CONTINUOUS) d4) as W4;
        pose proof (in_mode_mode (Z.lor MODE_LORA MODE_RX_CONTINUOUS) d4) as MT
    end.
    assert (S4 : state d4 = state (write_gate dm)) by (subst d4; reflexivity).
    rewrite S4 in *. rewrite writable_not_rx in W4 by exact Wm.
    cbn [dm state with_state mode op_mode rx_done tx_done dio0_trigger callback
         callback_data fsk lora with_dio0_trigger with_rx_done] in C1, C2, C3, C4, C5, C6, C7, C8.
    assert (Hcb : callback (state (in_mode (Z.lor MODE_LORA MODE_RX_CONTINUOUS) d4))
                  = callback (state d)) by congruence.
    assert (Hcd : callback_data (state (in_mode (Z.lor MODE_LORA MODE_RX_CONTINUOUS) d4))
                  = callback_data (state d)) by congruence.
    assert (Htr : dio0_trigger (state (in_mode (Z.lor MODE_LORA MODE_RX_CONTINUOUS) d4))
                  = DIO0_TRIGGER_RX_DONE) by congruence.
    split.
    { rewrite W4. subst d4. tidy. rewrite Wg. unfold Int.to_uint8.
      rewrite <- !app_assoc. reflexivity. }
    split; [exact MT |].
    unfold rx_armed.
    repeat (split; [congruence |]).
    intros call. rewrite callback_task_eq. rewrite Htr, Hcb, Hcd. reflexivity.
Qed.

(** ** Bring-up *)

Lemma init_checks_version ot dio5 d :
  regs d REG_VERSION mod 256 <> SX127X_EXPECTED_VERSION ->
  sx127x_init ot dio5 d = None.
Proof.
  intros H. unfold sx127x_init. do 4 run_refl. run_read. tidy.
  apply bind_none. unfold Int.to_uint8. apply Z.eqb_neq in H. rewrite H. reflexivity.
Qed.

Lemma set_tx_power_17 ot d :
  ot <> SX127X_OUTPUT_other ->
  sx127x_set_tx_power ot 17 d =
  Some (tt, mk_device (state (write_gate d))
                      (fun a => if a =? REG_PA_DAC then 0x84
                                else if a =? REG_PA_CONFIG then init_pa_config ot
                                     else regs (write_gate d) a)
                      (fifo (write_gate d))
                      (spi_writes (write_gate d)
                       ++ [(REG_PA_CONFIG, init_pa_config ot); (REG_PA_DAC, 0x84)])
                      (clock (write_gate d))).
Proof.
  intros H. unfold sx127x_set_tx_power. run_with prepare_write_eq.
  destruct ot; [| | contradiction]; cbn; rewrite write_reg_eq; cbn;
    rewrite <- app_assoc; reflexivity.
Qed.

Lemma set_tx_power_other level d :
  sx127x_set_tx_power SX127X_OUTPUT_other level d = None.
Proof.
  unfold sx127x_set_tx_power. run_with prepare_write_eq. reflexivity.
Qed.

Ltac norm :=
  cbv beta delta
      [with_state with_mode with_op_mode with_rx_done with_tx_done
       with_dio0_trigger with_callback with_fsk with_lora with_fsk_freq
       with_fsk_payload_length with_fsk_rx_bandwidth with_lora_freq
       with_lora_ppm_correction with_lora_payload_length with_lora_sf
       with_lora_bw_workaround with_lora_signal_bw];
  cbn [state regs fifo spi_writes clock mode op_mode rx_done tx_done
       dio0_trigger callback callback_data fsk lora fsk_freq fsk_payload_length
       fsk_rx_bandwidth lora_freq lora_ppm_correction lora_payload_length
       lora_signal_bw lora_sf lora_bw_workaround].

Ltac use_mode H E :=
  unfold Int.to_uint8; rewrite ?E; rewrite ?H; rewrite ?E;
  change (Z.land 0 MODE_LORA) with 0;
  change (Z.land 128 MODE_LORA) with 128;
  change (Z.land 1 MODE_LORA) with 0;
  change (Z.land 129 MODE_LORA) with 128;
  change (writable_mode 128) with true;
  change (writable_mode 129) with true;
  cbn [negb Z.eqb Z.add Pos.eqb Pos.add Pos.succ].

Ltac init_steps V H E :=
  unfold sx127x_init; do 4 run_refl; run_read; norm;
  unfold Int.to_uint8 at 1; rewrite V;
  cbn [Z.eqb SX127X_EXPECTED_VERSION Pos.eqb];
  run_refl; run_read; norm; run_refl; run_state; norm;
  run_refl; run_refl; run_refl; norm; run_refl; norm;
  run_with sleep_eq; unfold in_mode at 1; norm; use_mode H E;
  run_write; run_write; run_read; run_write; run_write; norm.

Ltac init_tail T H E :=
  run_with set_tx_power_17; [| exact T];
  unfold write_gate, in_mode; norm; use_mode H E;
  run_with idle_eq; unfold in_mode; norm; use_mode H E;
  unfold sx127x_disable_dio0; run_refl; run_state; norm.

Lemma init_returns ot dio5 d :
  let m0 := regs d REG_OP_MODE mod 256 in
  regs d REG_VERSION mod 256 = SX127X_EXPECTED_VERSION ->
  ot <> SX127X_OUTPUT_other ->
  exists d',
    sx127x_init ot dio5 d = Some (tt, d') /\
    state d' = init_state m0 (state d) /\
    regs d' REG_OP_MODE = mode (state d') /\
    spi_writes d' =
      spi_writes d
      ++ mode_write_unless_cached m0 (Z.land m0 MODE_LORA)
      ++ [(REG_LORA_FIFO_TX_BASE_ADDR, TX_FIFO_ADDR);
          (REG_LORA_FIFO_RX_BASE_ADDR, RX_FIFO_ADDR);
          (REG_LNA, Z.lor (regs d REG_LNA) 0x03 mod 256);
          (REG_LORA_MODEM_CONFIG_3, 0x04)]
      ++ (if dio5
          then [(REG_DIO_MAPPING_2, Z.lor (regs d REG_DIO_MAPPING_2) 0x20 mod 256)]
          else [])
      ++ [(REG_PA_CONFIG, init_pa_config ot);
          (REG_PA_DAC, 0x84);
          (REG_OP_MODE, Z.land m0 MODE_LORA + 1);
          (REG_DIO_MAPPING_1,
           if Z.land m0 MODE_LORA =? 0 then DIO0_FSK_NONE else DIO0_LORA_NONE)].
Proof.
  intros m0 V T. subst m0. unfold init_state, mode_write_unless_cached.
  destruct (land_mode_lora (regs d REG_OP_MODE mod 256)) as [H | H];
    destruct (regs d REG_OP_MODE mod 256 =? Z.land (regs d REG_OP_MODE mod 256) MODE_LORA) eqn:E;
    rewrite H in E; try (apply Z.eqb_eq in E); rewrite ?H;
    destruct dio5;
    (eexists; split;
     [ init_steps V H E; cbn [when];
       first [rewrite bind_assoc; run_read; run_write; norm | run_refl];
       init_tail T H E; apply write_reg_eq
     | norm; rewrite ?E; cbn [Z.eqb]; rewrite <- ?app_assoc;
       repeat split; reflexivity ]).
Qed.

(** X17.  sx127x_init is a fatal error exactly when the version register does
    not read 18 or the output type is neither RFO nor PA_BOOST. Otherwise it
    returns with the scheme taken from the LoRa bit of the mode register, the
    chip in standby of that scheme with the mode cache equal to the mode
    register, flags, callback, trigger, frequencies, PPM correction and
    payload lengths reset, and having written in order: sleep (unless the chip
    was asleep), the FIFO base addresses, the LNA register or'ed with 0x03,
    modem-config-3 0x04, optionally the DIO5 clock output bit, PA_CONFIG and
    PA_DAC for 17 dBm, standby, and the no-interrupt DIO0 mapping. *)
Theorem init_postcondition (ot : sx127x_output_type_e) (dio5 : bool) (d : device) :
  let version := regs d REG_VERSION mod 256 in
  let m0 := regs d REG_OP_MODE mod 256 in
  (sx127x_init ot dio5 d = None <->
   version <> SX127X_EXPECTED_VERSION \/ ot = SX127X_OUTPUT_other) /\
  (version = SX127X_EXPECTED_VERSION -> ot <> SX127X_OUTPUT_other ->
   exists d',
     sx127x_init ot dio5 d = Some (tt, d') /\
     state d' = init_state m0 (state d) /\
     regs d' REG_OP_MODE = mode (state d') /\
     spi_writes d' =
       spi_writes d
       ++ mode_write_unless_cached m0 (Z.land m0 MODE_LORA)
       ++ [(REG_LORA_FIFO_TX_BASE_ADDR, TX_FIFO_ADDR);
           (REG_LORA_FIFO_RX_BASE_ADDR, RX_FIFO_ADDR);
           (REG_LNA, Z.lor (regs d REG_LNA) 0x03 mod 256);
           (REG_LORA_MODEM_CONFIG_3, 0x04)]
       ++ (if dio5
           then [(REG_DIO_MAPPING_2, Z.lor (regs d REG_DIO_MAPPING_2) 0x20 mod 256)]
           else [])
       ++ [(REG_PA_CONFIG, init_pa_config ot);
           (REG_PA_DAC, 0x84);
           (REG_OP_MODE, Z.land m0 MODE_LORA + 1);
           (REG_DIO_MAPPING_1,
            if Z.land m0 MODE_LORA =? 0 then DIO0_FSK_NONE else DIO0_LORA_NONE)]).
Proof.
  intros version m0. split; [| apply init_returns].
  split.
  - intros N. destruct (Z.eq_dec version SX127X_EXPECTED_VERSION) as [V | V];
      [| left; exact V].
    right. destruct ot; try reflexivity;
      match goal with
      | |- ?x = _ =>
          destruct (init_returns x dio5 d V ltac:(discriminate)) as (d' & R & _)
      end;
      rewrite R in N; discriminate.
  - intros [V | T]; [apply init_checks_version, V |].
    destruct (Z.eq_dec version SX127X_EXPECTED_VERSION) as [V | V];
      [| apply init_checks_version, V].
    subst ot. unfold version in V.
    destruct (land_mode_lora (regs d REG_OP_MODE mod 256)) as [H | H];
      destruct (regs d REG_OP_MODE mod 256 =? Z.land (regs d REG_OP_MODE mod 256) MODE_LORA) eqn:E;
      rewrite H in E; try (apply Z.eqb_eq in E);
      destruct dio5;
      init_steps V H E; cbn [when];
      first [rewrite bind_assoc; run_read; run_write; norm | run_refl];
      apply bind_none, set_tx_power_other.
Qed.

(** ** Signal strength and link quality *)

(** The single-precision expression [min + raw + snr * 0.25f], converted to
    [int], for every raw byte, every negative SNR byte and both floors. *)
Lemma rssi_snr_neg_table :
  forallb (fun raw =>
     forallb (fun k =>
        let snr := - Z.of_nat k - 1 in
        (rssi_snr_neg (-157) raw snr =? Z.quot (4 * (-157 + raw) + snr) 4)
        && (rssi_snr_neg (-164) raw snr =? Z.quot (4 * (-164 + raw) + snr) 4))
       (seq 0 128))
    (map Z.of_nat (seq 0 256)) = true.
Proof. vm_compute. reflexivity. Qed.

Lemma rssi_snr_neg_value floor raw snr :
  floor = -157 \/ floor = -164 -> 0 <= raw < 256 -> -128 <= snr < 0 ->
  rssi_snr_neg floor raw snr = Z.quot (4 * (floor + raw) + snr) 4.
Proof.
  intros Hf Hr Hs. pose proof rssi_snr_neg_table as T.
  rewrite forallb_forall in T. specialize (T raw (byte_in_table raw Hr)).
  rewrite forallb_forall in T. specialize (T (Z.to_nat (- snr - 1))).
  cbv zeta in T. rewrite Z2Nat.id in T by lia.
  replace (- (- snr - 1) - 1) with snr in T by lia.
  assert (I : In (Z.to_nat (- snr - 1)) (seq 0 128)) by (apply in_seq; lia).
  specialize (T I). apply andb_true_iff in T. destruct T as [T1 T2].
  apply Z.eqb_eq in T1, T2. destruct Hf as [-> | ->]; assumption.
Qed.

Lemma rssi_snr_nonneg_value floor raw :
  floor = -157 \/ floor = -164 -> 0 <= raw < 256 ->
  rssi_snr_nonneg floor raw = Z.quot (16 * raw + 15 * floor) 15.
Proof.
  intros Hf Hr. pose proof rssi_snr_nonneg_table as T.
  rewrite forallb_forall in T. specialize (T raw (byte_in_table raw Hr)).
  apply andb_true_iff in T. destruct T as [T1 T2].
  apply Z.eqb_eq in T1, T2.
  destruct Hf as [-> | ->]; [rewrite T1 | rewrite T2]; f_equal; lia.
Qed.

Lemma rx_sensitivity_eq d :
  sx127x_rx_sensitivity d =
  Some (match op_mode (state d) with
        | SX127X_OP_MODE_FSK => -95
        | SX127X_OP_MODE_LORA =>
            spec_lora_sensitivity (lora_signal_bw (lora (state d)))
                                  (lora_sf (lora (state d)))
        end, d).
Proof.
  unfold sx127x_rx_sensitivity, spec_lora_sensitivity, bind, get_state, ret.
  destruct (op_mode (state d)); [reflexivity |].
  destruct (is_bw_500 _); [| reflexivity].
  repeat match goal with
         | |- context [if ?b then _ else _] => destruct b
         end; reflexivity.
Qed.

Lemma spec_lora_sensitivity_range bw sf :
  spec_lora_sensitivity bw sf = 0 \/
  -128 <= spec_lora_sensitivity bw sf <= -109.
Proof.
  unfold spec_lora_sensitivity. destruct (is_bw_500 bw); [| left; reflexivity].
  repeat match goal with
         | |- context [if ?b then _ else _] => destruct b
         end; first [left; reflexivity | right; lia].
Qed.

Lemma clamp_link_quality a :
  Int.MAX 0 (Int.MIN a 100) = Z.max 0 (Z.min 100 a).
Proof.
  unfold Int.MAX, Int.MIN. rewrite Z.gtb_ltb.
  destruct (a <? 100) eqn:A; [apply Z.ltb_lt in A | apply Z.ltb_ge in A].
  - destruct (a <? 0) eqn:B; [apply Z.ltb_lt in B | apply Z.ltb_ge in B]; lia.
  - cbn. lia.
Qed.

Lemma to_int8_range x : -128 <= Int.to_int8 x < 128.
Proof.
  unfold Int.to_int8. pose proof (Z.mod_pos_bound x 256 ltac:(lia)).
  destruct (x mod 256 <? 128) eqn:E; [apply Z.ltb_lt in E | apply Z.ltb_ge in E]; lia.
Qed.

(** X18.  In LoRa mode sx127x_rssi leaves the device unchanged and returns,
    for the SNR byte s read as a signed 8-bit value and the packet-RSSI byte
    r: the strength floor + 16*r/15 for s >= 0 and floor + r + s/4 for s < 0,
    truncated toward zero (floor is -157 or -164), the SNR s, and the link
    quality between the sensitivity of the cached bandwidth and spreading
    factor and 1 dBm, clamped to 0..100. When the sensitivity table has no
    entry (the value 0) the link quality is 0 for every strength up to 0 dBm. *)
Theorem lora_rssi_value (d : device) :
  op_mode (state d) = SX127X_OP_MODE_LORA ->
  let snr := Int.to_int8 (regs d REG_LORA_PKT_SNR_VALUE) in
  let raw := regs d REG_LORA_PKT_RSSI_VALUE mod 256 in
  let floor := lora_rssi_floor (lora_freq (lora (state d))) in
  let sens := spec_lora_sensitivity (lora_signal_bw (lora (state d)))
                                    (lora_sf (lora (state d))) in
  let rssi := spec_lora_rssi floor raw snr in
  let lq := spec_link_quality sens 1 rssi in
  sx127x_rssi d = Some ((rssi, snr, lq), d) /\
  -128 <= snr < 128 /\ 0 <= lq <= 100 /\ 0 < 1 - sens /\
  (sens = 0 -> rssi <= 0 -> lq = 0).
Proof.
  intros O snr raw floor sens rssi lq.
  pose proof (to_int8_range (regs d REG_LORA_PKT_SNR_VALUE)) as Hs. fold snr in Hs.
  pose proof (Z.mod_pos_bound (regs d REG_LORA_PKT_RSSI_VALUE) 256 ltac:(lia)) as Hr.
  fold raw in Hr.
  assert (Hf : floor = -157 \/ floor = -164)
    by (unfold floor, lora_rssi_floor; destruct (_ >? _); auto).
  split.
  - unfold sx127x_rssi. run_with rx_sensitivity_eq. rewrite O. fold sens.
    run_state. rewrite O. rewrite bind_assoc. run_read. rewrite bind_assoc. run_read.
    rewrite bind_assoc. run_with lora_min_rssi_value.
    fold (lora_rssi_floor (lora_freq (lora (state d)))). fold floor.
    fold snr. unfold Int.to_uint8. fold raw. run_refl.
    unfold ret. rewrite clamp_link_quality.
    assert (E : (if snr >=? 0 then rssi_snr_nonneg floor raw
                 else if snr <? 0 then rssi_snr_neg floor raw snr
                      else floor + raw) = rssi).
    { unfold rssi, spec_lora_rssi. rewrite Z.geb_leb.
      destruct (0 <=? snr) eqn:A; [apply rssi_snr_nonneg_value; assumption |].
      apply Z.leb_gt in A.
      destruct (snr <? 0) eqn:B; [| apply Z.ltb_ge in B; lia].
      apply rssi_snr_neg_value; [assumption | assumption | lia]. }
    rewrite E. reflexivity.
  - split; [exact Hs |].
    split; [unfold lq, spec_link_quality; lia |].
    pose proof (spec_lora_sensitivity_range (lora_signal_bw (lora (state d)))
                                            (lora_sf (lora (state d)))) as R.
    fold sens in R. split; [lia |].
    intros S0 Hneg. unfold lq, spec_link_quality, link_quality. rewrite S0.
    replace (1 - 0) with 1 by lia. rewrite !Z.mul_1_r, Z.quot_1_r.
    nia.
Qed.

Lemma lora_rssi_value_witness :
  sx127x_rssi lora_device_rssi_100
  = Some ((spec_lora_rssi (-157) 100 0, 0,
           spec_link_quality (-114) 1 (spec_lora_rssi (-157) 100 0)),
          lora_device_rssi_100) /\
  -128 <= 0 < 128 /\
  0 <= spec_link_quality (-114) 1 (spec_lora_rssi (-157) 100 0) <= 100 /\
  0 < 1 - -114 /\
  (-114 = 0 -> spec_lora_rssi (-157) 100 0 <= 0 ->
   spec_link_quality (-114) 1 (spec_lora_rssi (-157) 100 0) = 0).
Proof.
  apply (lora_rssi_value lora_device_rssi_100). reflexivity.
Defined.

(** ** FSK signal strength *)

Lemma fsk_link_quality_table :
  forallb (fun v =>
             let lq := spec_link_quality (-95) 0 (- (v / 2)) in
             (0 <=? lq) && (lq <=? 100)
             && Bool.eqb (lq =? 100) (v <=? 1)
             && Bool.eqb (lq =? 0) (190 <=? v))
          (map Z.of_nat (seq 0 256)) = true.
Proof. vm_compute. reflexivity. Qed.

(** X19.  In FSK mode, for an RSSI register byte v, sx127x_rssi leaves the
    device unchanged and returns the strength -(v/2), the substitute SNR 4*(95
    - v/2) and the link quality between -95 and 0 dBm clamped to 0..100. The
    strength lies in -127..0; the link quality is 100 exactly for v <= 1 and 0
    exactly for v >= 190. *)
Theorem fsk_rssi_value (d : device) :
  op_mode (state d) = SX127X_OP_MODE_FSK ->
  let v := regs d REG_FSK_RSSI_VALUE in
  0 <= v < 256 ->
  let rssi := - (v / 2) in
  let lq := spec_link_quality (-95) 0 rssi in
  sx127x_rssi d = Some ((rssi, 4 * (95 - v / 2), lq), d) /\
  -127 <= rssi <= 0 /\ 0 <= lq <= 100 /\
  (lq = 100 <-> v <= 1) /\ (lq = 0 <-> 190 <= v).
Proof.
  intros O v Hv rssi lq. split.
  - unfold sx127x_rssi. run_with rx_sensitivity_eq. rewrite O.
    run_state. rewrite O. rewrite bind_assoc. run_read. fold v. run_refl.
    unfold ret. rewrite clamp_link_quality.
    assert (Q : Z.quot v (-2) = rssi).
    { unfold rssi. change (Z.quot v (-2)) with (Z.quot v (Z.opp 2)).
      rewrite Z.quot_opp_r by lia. rewrite Z.quot_div_nonneg by lia.
      reflexivity. }
    rewrite Q. unfold lq, spec_link_quality.
    replace ((- -95 + rssi) * 4) with (4 * (95 - v / 2)) by (unfold rssi; lia).
    reflexivity.
  - pose proof fsk_link_quality_table as T. rewrite forallb_forall in T.
    specialize (T v (byte_in_table v Hv)). cbv zeta in T. fold rssi in T. fold lq in T.
    rewrite !andb_true_iff in T. destruct T as (((T1 & T2) & T3) & T4).
    apply Z.leb_le in T1, T2. apply eqb_prop in T3, T4.
    assert (0 <= v / 2 <= 127).
    { pose proof (Z_div_mod_eq_full v 2). pose proof (Z.mod_pos_bound v 2). lia. }
    split; [unfold rssi; lia |]. split; [lia |]. split.
    + rewrite <- Z.eqb_eq, T3, Z.leb_le. reflexivity.
    + rewrite <- Z.eqb_eq, T4, Z.leb_le. reflexivity.
Qed.

Lemma fsk_rssi_value_witness :
  sx127x_rssi (fsk_device 433000000)
  = Some ((- (0 / 2), 4 * (95 - 0 / 2), spec_link_quality (-95) 0 (- (0 / 2))),
          fsk_device 433000000) /\
  -127 <= - (0 / 2) <= 0 /\
  0 <= spec_link_quality (-95) 0 (- (0 / 2)) <= 100 /\
  (spec_link_quality (-95) 0 (- (0 / 2)) = 100 <-> 0 <= 1) /\
  (spec_link_quality (-95) 0 (- (0 / 2)) = 0 <-> 190 <= 0).
Proof.
  apply (fsk_rssi_value (fsk_device 433000000)); [reflexivity | cbn; lia].
Defined.

(** ** Invariants of the interface

    The rules by which a command keeps an invariant: the structural ones
    hold for every invariant, those of the commands that change the device
    for an invariant with a footprint. *)

Section Keeps.

Variables P Q : device -> Prop.
Variable om : sx127x_op_mode_e.

Lemma keeps_ret {A} (a : A) : keeps P om (ret a).
Proof. intros d a' d' I O E. injection E as <- <-. auto. Qed.

Lemma keeps_fatal {A} : keeps P om (@fatal A).
Proof. intros d a d' I O E. discriminate E. Qed.

Lemma keeps_bind {A B} (c : M A) (k : A -> M B) :
  keeps P om c -> (forall a, keeps P om (k a)) -> keeps P om (bind c k).
Proof.
  intros Hc Hk d b d' I O E. unfold bind in E.
  destruct (c d) as [[a d1] |] eqn:C; [| discriminate].
  destruct (Hc d a d1 I O C) as (I1 & O1).
  exact (Hk a d1 b d' I1 O1 E).
Qed.

Lemma leads_bind {A B} (c : M A) (k : A -> M B) :
  keeps P om c -> (forall a, leads P Q om (k a)) -> leads P Q om (bind c k).
Proof.
  intros Hc Hk d b d' I O E. unfold bind in E.
  destruct (c d) as [[a d1] |] eqn:C; [| discriminate].
  destruct (Hc d a d1 I O C) as (I1 & O1).
  exact (Hk a d1 b d' I1 O1 E).
Qed.

Lemma keeps_get_state_bind {B} (k : sx127x_state -> M B) :
  (forall st, op_mode st = om -> keeps P om (k st)) ->
  keeps P om (bind get_state k).
Proof. intros Hk d b d' I O E. exact (Hk (state d) O d b d' I O E). Qed.

Lemma leads_get_state_bind {B} (k : sx127x_state -> M B) :
  (forall st, op_mode st = om -> leads P Q om (k st)) ->
  leads P Q om (bind get_state k).
Proof. intros Hk d b d' I O E. exact (Hk (state d) O d b d' I O E). Qed.

Lemma keeps_when b c : keeps P om c -> keeps P om (when b c).
Proof. intros H. destruct b; [exact H | apply keeps_ret]. Qed.

Lemma keeps_get_state : keeps P om get_state.
Proof. intros d a d' I O E. injection E as <- <-. auto. Qed.

Lemma keeps_read_reg addr : keeps P om (sx127x_read_reg addr).
Proof. intros d a d' I O E. injection E as <- <-. auto. Qed.

Section Footprint.

Variable fr : sx127x_state -> sx127x_state -> Prop.
Variable watched : Z -> bool.
Hypothesis F : footprint P fr watched.

Lemma keeps_write_reg addr v :
  watched addr = false -> keeps P om (sx127x_write_reg addr v).
Proof.
  intros Ha d a d' I O E. injection E as <- <-. split; [| exact O].
  apply (fp_keep _ _ _ F d); [apply (fp_refl _ _ _ F) | | exact I].
  intros a W. cbn [regs]. destruct (a =? addr) eqn:Q0; [| reflexivity].
  apply Z.eqb_eq in Q0. subst a. congruence.
Qed.

Lemma keeps_modify_state f :
  (forall s, fr s (f s) /\ op_mode (f s) = op_mode s) ->
  keeps P om (modify_state f).
Proof.
  intros Hf d a d' I O E. injection E as <- <-.
  destruct (Hf (state d)) as (R & M).
  split; [| cbn [state with_state]; congruence].
  apply (fp_keep _ _ _ F d); [exact R | reflexivity | exact I].
Qed.

Lemma keeps_spi_read_fifo n : keeps P om (spi_read_fifo n).
Proof.
  intros d a d' I O E. injection E as <- <-. split; [| exact O].
  apply (fp_keep _ _ _ F d); [apply (fp_refl _ _ _ F) | reflexivity | exact I].
Qed.

Lemma keeps_spi_write_fifo l : keeps P om (spi_write_fifo l).
Proof.
  intros d a d' I O E. injection E as <- <-. split; [| exact O].
  apply (fp_keep _ _ _ F d); [apply (fp_refl _ _ _ F) | reflexivity | exact I].
Qed.

Lemma keeps_time_micros_now : keeps P om time_micros_now.
Proof.
  intros d a d' I O E. injection E as <- <-. split; [| exact O].
  apply (fp_keep _ _ _ F d); [apply (fp_refl _ _ _ F) | reflexivity | exact I].
Qed.

Lemma keeps_spin_until fuel deadline : keeps P om (spin_until fuel deadline).
Proof.
  revert deadline. induction fuel as [| fuel IH]; intros deadline;
    cbn [spin_until]; [apply keeps_fatal |].
  apply keeps_bind; [apply keeps_time_micros_now |]. intros t.
  destruct (t <? deadline); [apply IH | apply keeps_ret].
Qed.

Lemma keeps_wait_for_mode_ready : keeps P om sx127x_fsk_wait_for_mode_ready.
Proof.
  unfold sx127x_fsk_wait_for_mode_ready.
  induction MODE_READY_FUEL as [| fuel IH];
    cbn [sx127x_fsk_wait_for_mode_ready_loop]; [apply keeps_fatal |].
  apply keeps_bind; [apply keeps_read_reg |]. intros v.
  destruct (negb _); [exact IH | apply keeps_ret].
Qed.

End Footprint.

End Keeps.

(** *** The power-mode cache *)

Lemma mode_footprint : footprint mode_inv mode_frame mode_watched.
Proof.
  split; [intros s; split; reflexivity |].
  intros d d' (M & O) R (I1 & I2 & I3). unfold mode_inv.
  rewrite M, O, (R REG_OP_MODE eq_refl). auto.
Qed.

Section ModeCache.

Variable om : sx127x_op_mode_e.

Lemma keeps_in_mode m d :
  0 <= m < 256 ->
  Z.land m MODE_LORA = (if is_lora om then MODE_LORA else 0) ->
  mode_inv d -> op_mode (state d) = om ->
  mode_inv (in_mode m d) /\ op_mode (state (in_mode m d)) = om.
Proof.
  intros Hm Hb (I1 & I2 & I3) O. unfold in_mode.
  destruct (mode (state d) =? m); [split; [split; auto | exact O] |].
  unfold mode_inv. cbn [state regs mode op_mode with_mode].
  rewrite Z.eqb_refl, O. auto.
Qed.

Lemma keeps_set_mode m :
  0 <= m < 256 ->
  Z.land m MODE_LORA = (if is_lora om then MODE_LORA else 0) ->
  keeps mode_inv om (sx127x_set_mode m).
Proof.
  intros Hm Hb d a d' I O E. rewrite set_mode_eq in E by exact Hm.
  injection E as <- <-. apply keeps_in_mode; assumption.
Qed.

Lemma keeps_sleep : keeps mode_inv om sx127x_sleep.
Proof.
  intros d a d' I O E. rewrite sleep_eq in E. injection E as <- <-.
  apply keeps_in_mode; try assumption; [apply lora_bit_byte |].
  destruct I as (_ & _ & I3). rewrite O in I3.
  rewrite (proj1 (land_lora_idem _)). exact I3.
Qed.

Lemma keeps_idle : keeps mode_inv om sx127x_idle.
Proof.
  intros d a d' I O E. rewrite idle_eq in E. injection E as <- <-.
  apply keeps_in_mode; try assumption; [apply lora_bit_byte |].
  destruct I as (_ & _ & I3). rewrite O in I3.
  rewrite (proj2 (land_lora_idem _)). exact I3.
Qed.

Lemma keeps_prepare_write : keeps mode_inv om sx127x_prepare_write.
Proof.
  unfold sx127x_prepare_write. apply keeps_get_state_bind. intros st Hst.
  destruct (op_mode st); [apply keeps_sleep |]. apply keeps_when, keeps_idle.
Qed.

End ModeCache.

(** One step of a symbolic run with the footprint [F]: the rule of the head
    command.  [special] comes first, for the commands an invariant has rules
    of its own for. *)
Ltac keeps_step F special :=
  cbv iota;
  first
    [ special
    | match goal with
      | H : op_mode ?st = _ |- context [op_mode ?st] =>
          rewrite H; cbn [is_lora when]
      | |- keeps _ _ (bind get_state _) =>
          apply keeps_get_state_bind; intros ? ?
      | |- keeps _ _ (bind _ _) => apply keeps_bind; [| intros ?]
      | |- keeps _ _ (ret _) => apply keeps_ret
      | |- keeps _ _ fatal => apply keeps_fatal
      | |- keeps _ _ (when _ _) => apply keeps_when
      | |- keeps _ _ get_state => apply keeps_get_state
      | |- keeps _ _ (sx127x_read_reg _) => apply keeps_read_reg
      | |- keeps _ _ (sx127x_write_reg _ _) =>
          apply (keeps_write_reg _ _ _ _ F); reflexivity
      | |- keeps _ _ (modify_state _) =>
          apply (keeps_modify_state _ _ _ _ F); intros; repeat split; reflexivity
      | |- keeps _ _ (spi_read_fifo _) => apply (keeps_spi_read_fifo _ _ _ _ F)
      | |- keeps _ _ (spi_write_fifo _) => apply (keeps_spi_write_fifo _ _ _ _ F)
      | |- keeps _ _ time_micros_now => apply (keeps_time_micros_now _ _ _ _ F)
      | |- keeps _ _ (spin_until _ _) => apply (keeps_spin_until _ _ _ _ F)
      | |- keeps _ _ sx127x_fsk_wait_for_mode_ready =>
          apply keeps_wait_for_mode_ready
      | |- keeps _ _ sx127x_sleep => unfold sx127x_sleep; cbv zeta
      | |- keeps _ _ sx127x_idle => unfold sx127x_idle; cbv zeta
      | |- keeps _ _ sx127x_prepare_write => unfold sx127x_prepare_write
      | |- keeps _ _ (sx127x_set_mode _) => unfold sx127x_set_mode
      | |- keeps _ ?om (match ?x with _ => _ end) =>
          is_var om;
          match x with context [om] => destruct om; cbn [is_lora op_mode_eqb] end
      | |- keeps _ _ (match ?x with _ => _ end) => destruct x
      | |- keeps _ _ (let '(_, _) := ?p in _) => destruct p
      end ].

Ltac mode_special :=
  idtac;
  match goal with
  | |- keeps _ _ sx127x_sleep => apply keeps_sleep
  | |- keeps _ _ sx127x_idle => apply keeps_idle
  | |- keeps _ _ sx127x_prepare_write => apply keeps_prepare_write
  | |- keeps _ _ (sx127x_set_mode _) =>
      apply keeps_set_mode;
      [ split; [vm_compute; discriminate | vm_compute; reflexivity]
      | reflexivity ]
  end.

Ltac keeps_mode := repeat keeps_step mode_footprint mode_special.

Section ApiInvariant.

Variable lrintf_unspecified : spec_float -> Z.
Variable FEC_ENCODED_SIZE : Z -> Z.
Variable fec_encode : list Z -> Z -> Z -> list Z * Z.
Variable fec_decode : list Z -> Z -> Z -> list Z.
Variable lora_signal_bw_value : sx127x_lora_signal_bw_e -> Z.
Variable SX127X_LORA_CODING_RATE_4_5 : Z.
Variable SX127X_LORA_CODING_RATE_4_8 : Z.
Variable output_type : sx127x_output_type_e.

Let run := run_call lrintf_unspecified FEC_ENCODED_SIZE fec_encode fec_decode
                    lora_signal_bw_value SX127X_LORA_CODING_RATE_4_5
                    SX127X_LORA_CODING_RATE_4_8 output_type.

(** Every function is unfolded to the commands the rules are about. *)
Ltac unfold_call :=
  unfold sx127x_set_frequency, sx127x_set_payload_size, sx127x_set_tx_power,
    sx127x_send, sx127x_read, sx127x_enable_continous_rx, sx127x_is_tx_done,
    sx127x_is_rx_done, sx127x_set_callback, sx127x_frequency_error,
    sx127x_rssi, sx127x_rx_sensitivity, sx127x_lora_min_rssi, sx127x_shutdown,
    sx127x_set_fsk_fdev, sx127x_set_fsk_bitrate, sx127x_set_fsk_rx_bandwidth,
    sx127x_set_fsk_rx_afc_bandwidth, sx127x_set_fsk_preamble_length,
    sx127x_set_lora_spreading_factor, sx127x_set_lora_signal_bw,
    sx127x_set_lora_coding_rate, sx127x_set_lora_preamble_length,
    sx127x_set_lora_crc, sx127x_set_lora_header_mode,
    sx127x_set_lora_sync_word, sx127x_set_payload_size,
    sx127x_apply_bw500_sensitivity_workaround;
  cbv zeta.

Lemma keeps_call om c :
  (forall m, c <> Call_set_op_mode m) -> keeps mode_inv om (run c).
Proof.
  intros N. destruct c; unfold run, run_call;
    try (exfalso; eapply N; reflexivity);
    unfold_call; keeps_mode.
Qed.

Lemma set_fsk_parameters_mode_reg d d' :
  sx127x_set_fsk_parameters d = Some (tt, d') ->
  regs d' REG_OP_MODE = regs d REG_OP_MODE /\ state d' = state d.
Proof.
  unfold sx127x_set_fsk_parameters. intros E.
  do 8 (erewrite bind_eq in E; [| apply write_reg_eq]; tidy_in E).
  rewrite write_reg_eq in E. injection E as <-. split; reflexivity.
Qed.

Lemma in_mode_synced m d :
  regs d REG_OP_MODE = mode (state d) ->
  regs (in_mode m d) REG_OP_MODE = m /\ mode (state (in_mode m d)) = m.
Proof.
  intros S. unfold in_mode. destruct (mode (state d) =? m) eqn:Q.
  - apply Z.eqb_eq in Q. split; congruence.
  - cbn [regs state mode with_mode]. rewrite Z.eqb_refl. split; reflexivity.
Qed.

Lemma set_op_mode_keeps_mode_inv om d a d' :
  mode_inv d -> sx127x_set_op_mode om d = Some (a, d') -> mode_inv d'.
Proof.
  intros (I1 & I2 & I3) E. unfold sx127x_set_op_mode in E.
  erewrite bind_eq in E; [| apply get_state_eq].
  destruct (op_mode (state d)) eqn:O, om; cbn [op_mode_eqb negb when] in E;
    try (injection E as <- <-; unfold mode_inv; rewrite O; auto).
  - (* FSK to LoRa *)
    unfold MODE_SLEEP at 1 in E. rewrite Z.lor_0_r in E.
    erewrite bind_eq in E; [| apply set_mode_eq, lora_bit_byte].
    erewrite bind_eq in E;
      [| apply set_mode_eq; split; [vm_compute; discriminate | vm_compute; reflexivity]].
    injection E as <- <-.
    destruct (in_mode_synced (Z.land (mode (state d)) MODE_LORA) d I2) as (R1 & M1).
    destruct (in_mode_synced MODE_LORA _ (eq_trans R1 (eq_sym M1)))
      as (R2 & M2).
    unfold mode_inv. cbn [state regs with_state with_op_mode mode op_mode is_lora].
    rewrite R2, M2. split; [vm_compute; split; [discriminate | reflexivity] |].
    split; reflexivity.
  - (* LoRa to FSK *)
    unfold MODE_SLEEP at 1 in E. rewrite Z.lor_0_r in E.
    erewrite bind_eq in E; [| apply set_mode_eq, lora_bit_byte].
    rewrite bind_assoc in E.
    erewrite bind_eq in E;
      [| apply set_mode_eq; split; [vm_compute; discriminate | vm_compute; reflexivity]].
    destruct (in_mode_synced (Z.land (mode (state d)) MODE_LORA) d I2) as (R1 & M1).
    destruct (in_mode_synced MODE_SLEEP _ (eq_trans R1 (eq_sym M1))) as (R2 & M2).
    unfold bind in E.
    destruct (sx127x_set_fsk_parameters _) as [[u d3] |] eqn:F; [| discriminate].
    destruct u. apply set_fsk_parameters_mode_reg in F. destruct F as (R3 & S3).
    injection E as <- <-.
    unfold mode_inv. cbn [state regs with_state with_op_mode mode op_mode is_lora].
    rewrite R3, S3, R2, M2. split; [vm_compute; split; [discriminate | reflexivity] |].
    split; reflexivity.
Qed.

Lemma run_call_keeps_mode_inv c d a d' :
  mode_inv d -> run c d = Some (a, d') -> mode_inv d'.
Proof.
  intros I E. destruct c;
    try (refine (proj1 (keeps_call (op_mode (state d)) _ _ d a d' I eq_refl E));
         intros m; discriminate).
  exact (set_op_mode_keeps_mode_inv _ _ _ _ I E).
Qed.

Lemma run_calls_keep_mode_inv cs : forall d a d',
  mode_inv d ->
  run_calls lrintf_unspecified FEC_ENCODED_SIZE fec_encode fec_decode
            lora_signal_bw_value SX127X_LORA_CODING_RATE_4_5
            SX127X_LORA_CODING_RATE_4_8 output_type cs d = Some (a, d') ->
  mode_inv d'.
Proof.
  induction cs as [| c cs IH]; intros d a d' I E; cbn [run_calls] in E.
  - injection E as <- <-. exact I.
  - unfold bind in E. fold run in E.
    destruct (run c d) as [[u d1] |] eqn:C; [| discriminate].
    exact (IH d1 a d' (run_call_keeps_mode_inv c d u d1 I C) E).
Qed.

(** X20.  When the version register reads 18 and the output type is RFO or
    PA_BOOST, sx127x_init returns, and from then on, after every sequence of
    calls of the driver's public functions that return, the cached mode is a
    byte, the mode register holds that byte (in the chip model, where
    registers only change by the driver's writes), and its LoRa bit is set
    exactly when the cached modulation scheme is LoRa. *)
Theorem mode_cache_coherent (dio5 : bool) (d : device) :
  regs d REG_VERSION mod 256 = SX127X_EXPECTED_VERSION ->
  output_type <> SX127X_OUTPUT_other ->
  exists d0,
    sx127x_init output_type dio5 d = Some (tt, d0) /\
    forall cs d',
      run_calls lrintf_unspecified FEC_ENCODED_SIZE fec_encode fec_decode
                lora_signal_bw_value SX127X_LORA_CODING_RATE_4_5
                SX127X_LORA_CODING_RATE_4_8 output_type cs d0 = Some (tt, d') ->
      mode_inv d'.
Proof.
  intros V T. destruct (init_returns output_type dio5 d V T) as (d0 & E & S & R & _).
  exists d0. split; [exact E |]. intros cs d' C.
  apply (run_calls_keep_mode_inv cs d0 tt d'); [| exact C].
  unfold mode_inv. rewrite R, S. unfold init_state. cbn [mode op_mode].
  destruct (land_mode_lora (regs d REG_OP_MODE mod 256)) as [H | H]; rewrite H;
    repeat split; try reflexivity; try discriminate.
Qed.

(** *** The errata workaround *)

Lemma errata_regs_footprint :
  footprint errata_regs errata_cache_frame errata_watched.
Proof.
  split; [intros s; reflexivity |].
  intros d d' C R W c Hc a v Hin. unfold errata_cache_frame in C.
  rewrite C in Hc. rewrite R; [exact (W c Hc a v Hin) |].
  destruct c; cbn [spec_bw500_writes In] in Hin;
    repeat (destruct Hin as [Hin | Hin]; [injection Hin as <- <-; reflexivity |]);
    contradiction.
Qed.

Lemma errata_footprint : footprint errata_inv errata_frame errata_watched.
Proof.
  split; [intros s; repeat split; reflexivity |].
  intros d d' (C & Fq & B) R (S & W). split.
  - unfold device_bw500_class. rewrite C, Fq, B. exact S.
  - exact (fp_keep _ _ _ errata_regs_footprint d d' C R W).
Qed.

(** The re-evaluation brings the cache in step, whatever the cached
    bandwidth and frequency have become. *)
Lemma leads_apply_bw500 om :
  leads errata_regs errata_inv om sx127x_apply_bw500_sensitivity_workaround.
Proof.
  intros d a d' W O E.
  unfold sx127x_apply_bw500_sensitivity_workaround, bind, get_state in E.
  rewrite workaround_code_is_spec_class in E.
  fold (device_bw500_class d) in E.
  destruct (bw500_class_code (device_bw500_class d)
            =? lora_bw_workaround (lora (state d))) eqn:Q0.
  - apply Z.eqb_eq in Q0. cbn [negb when ret] in E. injection E as <- <-.
    split; [| exact O]. split; [symmetry; exact Q0 | exact W].
  - cbn [negb when] in E.
    destruct (device_bw500_class d) eqn:C; cbn in E; injection E as <- <-;
      (split; [| exact O]); unfold errata_inv, errata_regs, device_bw500_class in *;
      cbn [state lora lora_bw_workaround lora_freq lora_signal_bw regs
           with_state with_lora with_lora_bw_workaround];
      rewrite C; (split; [reflexivity |]);
      intros c Hc a0 v Hin; destruct c; try discriminate Hc;
      cbn [spec_bw500_writes In] in Hin;
      repeat (destruct Hin as [Hin | Hin]; [injection Hin as <- <-; reflexivity |]);
      contradiction.
Qed.

Lemma errata_inv_regs d : errata_inv d -> errata_regs d.
Proof. intros (_ & W). exact W. Qed.

Ltac no_special := fail.
Ltac keeps_errata := repeat keeps_step errata_footprint no_special.
Ltac keeps_errata_regs := repeat keeps_step errata_regs_footprint no_special.

(** One step toward the closing re-evaluation. *)
Ltac leads_step :=
  cbv iota;
  match goal with
  | H : op_mode ?st = _ |- context [op_mode ?st] => rewrite H; cbn [is_lora when]
  | |- leads _ _ _ (bind get_state _) =>
      apply leads_get_state_bind; intros ? ?
  | |- leads _ _ _ (bind _ _) =>
      apply leads_bind; [unfold_call; keeps_errata_regs | intros ?]
  | |- leads _ _ _ sx127x_apply_bw500_sensitivity_workaround =>
      apply leads_apply_bw500
  end.

Lemma set_lora_signal_bw_errata om sbw :
  leads errata_regs errata_inv om
        (sx127x_set_lora_signal_bw lora_signal_bw_value sbw).
Proof. unfold sx127x_set_lora_signal_bw. cbv zeta. repeat leads_step. Qed.

Lemma set_frequency_lora_errata freq error :
  leads errata_regs errata_inv SX127X_OP_MODE_LORA
        (sx127x_set_frequency lrintf_unspecified freq error).
Proof. unfold sx127x_set_frequency. cbv zeta. repeat leads_step. Qed.

Lemma set_frequency_fsk_errata freq error :
  keeps errata_inv SX127X_OP_MODE_FSK
        (sx127x_set_frequency lrintf_unspecified freq error).
Proof. unfold sx127x_set_frequency. cbv zeta. keeps_errata. Qed.

Lemma keeps_call_errata om c :
  (forall m, c <> Call_set_op_mode m) ->
  (forall f e, c <> Call_set_frequency f e) ->
  (forall b, c <> Call_set_lora_signal_bw b) ->
  keeps errata_inv om (run c).
Proof.
  intros N1 N2 N3. destruct c; unfold run, run_call;
    try solve [ exfalso; eapply N1; reflexivity
              | exfalso; eapply N2; reflexivity
              | exfalso; eapply N3; reflexivity ];
    unfold_call; keeps_errata.
Qed.

Lemma set_op_mode_errata om d a d' :
  errata_inv d -> sx127x_set_op_mode om d = Some (a, d') -> errata_inv d'.
Proof.
  intros I E. unfold sx127x_set_op_mode in E.
  erewrite bind_eq in E; [| apply get_state_eq].
  destruct (negb (op_mode_eqb (op_mode (state d)) om));
    [| injection E as <- <-; exact I].
  cbn [when] in E. rewrite <- bind_assoc in E. unfold bind at 1 in E.
  match type of E with
  | match ?c d with _ => _ end = _ =>
      assert (K : keeps errata_inv (op_mode (state d)) c);
      [| destruct (c d) as [[u d1] |] eqn:C; [| discriminate];
         destruct (K d u d1 I eq_refl C) as (I1 & _)]
  end.
  - destruct om; unfold sx127x_set_fsk_parameters; keeps_errata.
  - injection E as <- <-.
    apply (fp_keep _ _ _ errata_footprint d1); [| reflexivity | exact I1].
    repeat split; reflexivity.
Qed.

Lemma run_call_errata c d a d' :
  errata_inv d -> run c d = Some (a, d') -> errata_inv d'.
Proof.
  intros I E.
  destruct c;
    try (refine (proj1 (keeps_call_errata (op_mode (state d)) _ _ _ _ d a d' I eq_refl E));
         intros; discriminate).
  - unfold run, run_call in E. destruct (op_mode (state d)) eqn:O.
    + exact (proj1 (set_frequency_fsk_errata freq error d a d' I O E)).
    + exact (proj1 (set_frequency_lora_errata freq error d a d'
                      (errata_inv_regs d I) O E)).
  - exact (set_op_mode_errata _ _ _ _ I E).
  - exact (proj1 (set_lora_signal_bw_errata (op_mode (state d)) sbw d a d'
                    (errata_inv_regs d I) eq_refl E)).
Qed.

(** X21.  The bandwidth-500 errata workaround stays in step through every
    sequence of calls of the driver's public functions that return: if the
    cached class is the class of the cached LoRa bandwidth and frequency and
    the errata registers 0x36 and 0x3A hold the values of that class, the same
    holds afterwards (in the chip model, where registers only change by the
    driver's writes). *)
Theorem errata_workaround_in_step (cs : list api_call) : forall d d',
  errata_inv d ->
  run_calls lrintf_unspecified FEC_ENCODED_SIZE fec_encode fec_decode
            lora_signal_bw_value SX127X_LORA_CODING_RATE_4_5
            SX127X_LORA_CODING_RATE_4_8 output_type cs d = Some (tt, d') ->
  errata_inv d'.
Proof.
  induction cs as [| c cs IH]; intros d d' I E; cbn [run_calls] in E.
  - injection E as <-. exact I.
  - unfold bind in E. fold run in E.
    destruct (run c d) as [[u d1] |] eqn:C; [| discriminate].
    exact (IH d1 d' (run_call_errata c d u d1 I C) E).
Qed.

End ApiInvariant.

Lemma mode_cache_coherent_witness :
  regs reset_chip REG_VERSION mod 256 = SX127X_EXPECTED_VERSION /\
  SX127X_OUTPUT_PA_BOOST <> SX127X_OUTPUT_other /\
  exists d0,
    sx127x_init SX127X_OUTPUT_PA_BOOST false reset_chip = Some (tt, d0) /\
    forall cs d', sample_run_calls cs d0 = Some (tt, d') -> mode_inv d'.
Proof.
  split; [reflexivity |]. split; [discriminate |].
  apply (mode_cache_coherent (fun _ => 0) (fun n => n) (fun buf _ n => (buf, n))
           (fun buf _ _ => buf) datasheet_bw_code 1 4 SX127X_OUTPUT_PA_BOOST
           false reset_chip); [reflexivity | discriminate].
Defined.

Lemma errata_inv_bw250 : errata_inv lora_device_bw250.
Proof.
  split; [reflexivity |]. intros c Hc a v Hin.
  destruct c; try discriminate Hc.
  destruct Hin as [Hin | []]. injection Hin as <- <-. reflexivity.
Defined.

Lemma errata_workaround_in_step_witness :
  errata_inv lora_device_bw250 /\
  exists d',
    sample_run_calls sample_calls lora_device_bw250 = Some (tt, d') /\
    lora_bw_workaround (lora (state d')) = 2 /\
    errata_inv d'.
Proof.
  split; [exact errata_inv_bw250 |].
  eexists. split; [vm_compute; reflexivity |]. split; [reflexivity |].
  apply (errata_workaround_in_step (fun _ => 0) (fun n => n)
           (fun buf _ n => (buf, n)) (fun buf _ _ => buf) datasheet_bw_code 1 4
           SX127X_OUTPUT_PA_BOOST sample_calls lora_device_bw250);
    [exact errata_inv_bw250 | vm_compute; reflexivity].
Defined.

(** ** FSK bit rate *)

Lemma of_Z_FXOSC :
  Float.of_Z Float.binary32 SX127X_FXOSC = S754_finite false 16000000 1.
Proof. reflexivity. Qed.

Lemma mag_FXOSC : mag 16000000 1 = 32000000%R.
Proof. unfold mag, powerRZ. simpl. lra. Qed.

(** The two roundings of [(float)SX127X_FXOSC / bps] move the quotient by
    less than a twentieth for a quotient below 65536. *)
Lemma bitrate_chain (b x1 x2 : R) :
  (489 <= b)%R ->
  rel_close u23 x1 b ->
  rel_close u22 x2 (32000000 / x1) ->
  (Rabs (x2 - 32000000 / b) <= / 20)%R.
Proof.
  intros Hb C1 C2. apply PpmAccuracy.rel_close_bounds in C1, C2.
  unfold u23, u22 in *.
  set (q := (32000000 / b)%R) in *.
  assert (Pb : (0 < b)%R) by lra.
  assert (Hq : (0 < q <= 32000000 / 489)%R).
  { subst q. split; [apply Rdiv_lt_0_compat; lra |].
    destruct (PpmAccuracy.div_interval 32000000 b 32000000 32000000 489 b); lra. }
  set (l1 := (1 - / 8388608)%R). set (h1 := (1 + / 8388608)%R).
  assert (B1 : (l1 * b <= x1 <= h1 * b)%R) by (unfold l1, h1; lra).
  assert (Pl1 : (0 < l1)%R) by (unfold l1; lra).
  destruct (PpmAccuracy.div_interval 32000000 x1 32000000 32000000 (l1 * b) (h1 * b))
    as [T1 T2]; [apply Rmult_lt_0_compat; lra | exact B1 | lra | lra |].
  assert (E1 : (32000000 / (h1 * b) = / h1 * q)%R)
    by (unfold q; field; unfold h1; lra).
  assert (E2 : (32000000 / (l1 * b) = / l1 * q)%R)
    by (unfold q; field; unfold l1; lra).
  rewrite E1 in T1. rewrite E2 in T2.
  assert (N1 : (1 - 2 / 10000000 <= / h1)%R).
  { apply Rmult_le_reg_r with h1; [unfold h1; lra |].
    rewrite Rinv_l by (unfold h1; lra). unfold h1. lra. }
  assert (N2 : (/ l1 <= 1 + 2 / 10000000)%R).
  { apply Rmult_le_reg_r with l1; [exact Pl1 |].
    rewrite Rinv_l by lra. unfold l1. lra. }
  assert (M1 : ((1 - 2 / 10000000) * q <= / h1 * q)%R)
    by (apply Rmult_le_compat_r; lra).
  assert (M2 : (/ l1 * q <= (1 + 2 / 10000000) * q)%R)
    by (apply Rmult_le_compat_r; lra).
  set (y := (32000000 / x1)%R) in *.
  apply Rabs_le. lra.
Qed.

Section Bitrate.

Variable lrintf_unspecified : spec_float -> Z.

Lemma fsk_bitrate_value_close bps :
  489 <= bps < 2 ^ 32 ->
  0 <= fsk_bitrate_value lrintf_unspecified bps < 65536 /\
  20 * Z.abs (fsk_bitrate_value lrintf_unspecified bps * bps - SX127X_FXOSC)
  <= 11 * bps.
Proof.
  intros Hb. unfold fsk_bitrate_value.
  destruct (PpmAccuracy.of_Z_R bps) as (m1 & e1 & E1 & [N1 X1] & R1); [lia | lia |].
  replace (bps <? 0) with false in E1 by (symmetry; apply Z.ltb_ge; lia).
  rewrite (Z.abs_eq bps) in R1 by lia.
  rewrite of_Z_FXOSC, E1.
  unfold Float.div. cbn [Float.prec Float.emax Float.binary32].
  destruct (PpmAccuracy.div_R false 16000000 1 m1 e1) as (m2 & e2 & E2 & _ & R2);
    [cbn; lia | exact N1 | lia | lia |].
  rewrite E2. rewrite mag_FXOSC in R2.
  destruct (PpmAccuracy.nearest_even_R false m2 e2) as (a & Ea & Ha).
  assert (Rb : (489 <= IZR bps)%R) by (apply IZR_le; lia).
  pose proof (bitrate_chain (IZR bps) (mag m1 e1) (mag m2 e2) Rb R1 R2) as C.
  apply PpmAccuracy.Rabs_le_bounds in Ha, C.
  cbn [B2R] in Ha.
  set (q := (32000000 / IZR bps)%R) in *.
  assert (Hq : (0 < q <= 32000000 / 489)%R).
  { subst q. split; [apply Rdiv_lt_0_compat; lra |].
    destruct (PpmAccuracy.div_interval 32000000 (IZR bps) 32000000 32000000 489 (IZR bps));
      lra. }
  assert (A1 : (-1 < IZR a < 65536)%R) by lra.
  destruct A1 as [A1 A2]. apply lt_IZR in A1, A2.
  assert (La : lrintf_defined (S754_finite false m2 e2) = Some a).
  { unfold lrintf_defined. rewrite Ea. unfold Int.LONG_MIN, Int.LONG_MAX.
    replace (- 2 ^ 31 <=? a) with true by (symmetry; apply Z.leb_le; lia).
    replace (a <=? 2 ^ 31 - 1) with true by (symmetry; apply Z.leb_le; lia).
    reflexivity. }
  unfold lrintf. rewrite La. unfold to_uint16. rewrite Z.mod_small by lia.
  split; [lia |].
  assert (D : (IZR (- (11 * bps)) <= IZR (20 * (a * bps - SX127X_FXOSC))
               <= IZR (11 * bps))%R).
  { rewrite opp_IZR, !mult_IZR, minus_IZR, mult_IZR. unfold SX127X_FXOSC.
    assert (Q : (32000000 = q * IZR bps)%R) by (unfold q; field; lra).
    rewrite Q.
    assert (T : (- (11 / 20) <= IZR a - q <= 11 / 20)%R) by lra.
    split; nra. }
  destruct D as [D1 D2]. apply le_IZR in D1, D2. lia.
Qed.

(** X22.  For a bit rate from 489 bit/s to below 2^32, sx127x_set_fsk_bitrate
    returns and writes, after the write gate, the high and the low byte of a
    16-bit divider to BITRATE_MSB and BITRATE_LSB; the divider differs from
    the exact quotient 32000000 / bps by at most 0.55. The driver state stays
    as the write gate left it. *)
Theorem set_fsk_bitrate_divider (bps : Z) (d : device) :
  489 <= bps < 2 ^ 32 ->
  exists d0 d' br,
    sx127x_prepare_write d = Some (tt, d0) /\
    sx127x_set_fsk_bitrate lrintf_unspecified bps d = Some (tt, d') /\
    spi_writes d' =
      spi_writes d0 ++ [(REG_FSK_BITRATE_MSB, br / 256);
                        (REG_FSK_BITRATE_LSB, br mod 256)] /\
    state d' = state d0 /\
    0 <= br < 65536 /\
    20 * Z.abs (br * bps - SX127X_FXOSC) <= 11 * bps.
Proof.
  intros Hb. destruct (prepare_write_step d) as (d0 & E & _).
  destruct (fsk_bitrate_value_close bps Hb) as (R & C).
  set (br := fsk_bitrate_value lrintf_unspecified bps) in *.
  exists d0. unfold sx127x_set_fsk_bitrate, bind. rewrite E. cbv zeta. fold br.
  unfold sx127x_write_reg, Int.to_uint8.
  eexists. exists br. split; [reflexivity |]. split; [reflexivity |].
  cbn [spi_writes state].
  rewrite Z.shiftr_div_pow2 by lia. change (2 ^ 8) with 256.
  change 0xff with (Z.ones 8). rewrite Z.land_ones by lia. change (2 ^ 8) with 256.
  assert (Hd : 0 <= br / 256 < 256)
    by (split; [apply Z.div_pos; lia | apply Z.div_lt_upper_bound; lia]).
  rewrite (Z.mod_small (br / 256)) by exact Hd. rewrite Z.mod_mod by lia.
  rewrite <- app_assoc. cbn [app].
  repeat split; try reflexivity; try lia; exact C.
Qed.

End Bitrate.

Lemma set_fsk_bitrate_divider_witness :
  489 <= 50000 < 2 ^ 32 /\
  exists d0 d' br,
    sx127x_prepare_write (fsk_device 868000000) = Some (tt, d0) /\
    sx127x_set_fsk_bitrate lrintf_zero 50000 (fsk_device 868000000)
    = Some (tt, d') /\
    spi_writes d' =
      spi_writes d0 ++ [(REG_FSK_BITRATE_MSB, br / 256);
                        (REG_FSK_BITRATE_LSB, br mod 256)] /\
    state d' = state d0 /\
    0 <= br < 65536 /\
    20 * Z.abs (br * 50000 - SX127X_FXOSC) <= 11 * 50000.
Proof.
  split; [lia |].
  apply (set_fsk_bitrate_divider lrintf_zero 50000 (fsk_device 868000000)). lia.
Defined.

(** ** Bandwidth and coding rate in modem-config-1 *)

Lemma in_range_table (n : nat) v :
  0 <= v < Z.of_nat n -> In v (map Z.of_nat (seq 0 n)).
Proof.
  intros H. rewrite <- (Z2Nat.id v) by lia. apply in_map, in_seq. lia.
Qed.

Lemma bandwidth_field_table :
  forallb (fun r =>
    forallb (fun v =>
      Int.to_uint8 (Z.lor (Z.land r 0x0f) (Z.shiftl v 4)) =? 16 * v + r mod 16)
      (map Z.of_nat (seq 0 16)))
    (map Z.of_nat (seq 0 256)) = true.
Proof. vm_compute. reflexivity. Qed.

Lemma bandwidth_field r v :
  0 <= v < 16 ->
  Int.to_uint8 (Z.lor (Z.land (Int.to_uint8 r) 0x0f) (Z.shiftl v 4))
  = 16 * v + r mod 16.
Proof.
  intros Hv. pose proof bandwidth_field_table as T.
  rewrite forallb_forall in T.
  pose proof (Z.mod_pos_bound r 256 ltac:(lia)) as Hr.
  specialize (T (r mod 256) (in_range_table 256 _ Hr)).
  rewrite forallb_forall in T. specialize (T v (in_range_table 16 v Hv)).
  apply Z.eqb_eq in T. unfold Int.to_uint8 at 2. rewrite T.
  replace ((r mod 256) mod 16) with (r mod 16); [reflexivity |].
  pose proof (Z_div_mod_eq_full r 256) as D1.
  pose proof (Z_div_mod_eq_full (r mod 256) 16) as D2.
  pose proof (Z.mod_pos_bound (r mod 256) 16 ltac:(lia)) as B2.
  symmetry.
  apply (Z.mod_unique r 16 (16 * (r / 256) + (r mod 256) / 16)); lia.
Qed.



Section ModemConfig1.

Variable lora_signal_bw_value : sx127x_lora_signal_bw_e -> Z.
Variable SX127X_LORA_CODING_RATE_4_5 : Z.
Variable SX127X_LORA_CODING_RATE_4_8 : Z.

(** X23.  When the bandwidth enumerators are numbered from
    SX127X_LORA_SIGNAL_BW_7_8 (lowest, at least 0) to
    SX127X_LORA_SIGNAL_BW_500 (highest, at most 15), sx127x_set_lora_signal_bw
    returns and, after the write gate, rewrites modem-config-1 with the
    bandwidth's number in the high nibble and the low nibble the register
    held, caches the bandwidth, and then re-evaluates the errata workaround:
    only errata registers are written after it, the cached frequency is kept
    and the cached workaround class is the class of the new bandwidth and the
    cached frequency. *)
Theorem set_lora_signal_bw_field (sbw : sx127x_lora_signal_bw_e) (d : device) :
  (forall b, lora_signal_bw_value SX127X_LORA_SIGNAL_BW_7_8
             <= lora_signal_bw_value b
             <= lora_signal_bw_value SX127X_LORA_SIGNAL_BW_500) ->
  0 <= lora_signal_bw_value SX127X_LORA_SIGNAL_BW_7_8 ->
  lora_signal_bw_value SX127X_LORA_SIGNAL_BW_500 < 16 ->
  exists d0 d' ws,
    sx127x_prepare_write d = Some (tt, d0) /\
    sx127x_set_lora_signal_bw lora_signal_bw_value sbw d = Some (tt, d') /\
    spi_writes d' =
      spi_writes d0
      ++ (REG_LORA_MODEM_CONFIG_1,
          16 * lora_signal_bw_value sbw + regs d REG_LORA_MODEM_CONFIG_1 mod 16)
         :: ws /\
    errata_writes ws /\
    lora_signal_bw (lora (state d')) = sbw /\
    lora_freq (lora (state d')) = lora_freq (lora (state d)) /\
    lora_bw_workaround (lora (state d'))
    = bw500_class_code (spec_bw500_class sbw (lora_freq (lora (state d)))).
Proof.
  intros Hord Hlo Hhi.
  destruct (prepare_write_step d) as (d0 & E & (C & _ & _ & R & _)).
  destruct C as (_ & _ & _ & _ & _ & _ & _ & CL).
  assert (R' : regs d0 REG_LORA_MODEM_CONFIG_1 = regs d REG_LORA_MODEM_CONFIG_1)
    by (apply R; discriminate).
  pose proof (Hord sbw) as Hs.
  assert (Hc : (if lora_signal_bw_value sbw
                   <? lora_signal_bw_value SX127X_LORA_SIGNAL_BW_7_8
                then SX127X_LORA_SIGNAL_BW_7_8
                else if lora_signal_bw_value sbw
                        >? lora_signal_bw_value SX127X_LORA_SIGNAL_BW_500
                     then SX127X_LORA_SIGNAL_BW_500 else sbw) = sbw).
  { destruct (lora_signal_bw_value sbw
                <? lora_signal_bw_value SX127X_LORA_SIGNAL_BW_7_8) eqn:A;
      [apply Z.ltb_lt in A; lia |].
    rewrite Z.gtb_ltb.
    destruct (lora_signal_bw_value SX127X_LORA_SIGNAL_BW_500
              <? lora_signal_bw_value sbw) eqn:B;
      [apply Z.ltb_lt in B; lia | reflexivity]. }
  exists d0. unfold sx127x_set_lora_signal_bw. cbv zeta. rewrite Hc.
  run_with E. run_read. run_write. run_refl.
  rewrite R', bandwidth_field by lia.
  match goal with
  | |- context [sx127x_apply_bw500_sensitivity_workaround ?x] =>
      destruct (apply_bw500_step x) as (d' & ws & A & S & W & EW & _)
  end.
  assert (Hb : 0 <= 16 * lora_signal_bw_value sbw
                    + regs d REG_LORA_MODEM_CONFIG_1 mod 16 < 256).
  { pose proof (Z.mod_pos_bound (regs d REG_LORA_MODEM_CONFIG_1) 16). lia. }
  exists d', ws. split; [exact E |]. split; [exact A |].
  rewrite W, S. cbn [spi_writes state lora lora_signal_bw lora_freq
                     lora_bw_workaround with_state with_lora
                     with_lora_signal_bw with_lora_bw_workaround].
  unfold Int.to_uint8. rewrite Z.mod_small by exact Hb.
  rewrite <- app_assoc. cbn [app].
  split; [reflexivity |]. split; [exact EW |]. split; [reflexivity |].
  rewrite CL. split; reflexivity.
Qed.


End ModemConfig1.

Lemma set_lora_signal_bw_field_witness :
  (forall b, datasheet_bw_code SX127X_LORA_SIGNAL_BW_7_8
             <= datasheet_bw_code b
             <= datasheet_bw_code SX127X_LORA_SIGNAL_BW_500) /\
  0 <= datasheet_bw_code SX127X_LORA_SIGNAL_BW_7_8 /\
  datasheet_bw_code SX127X_LORA_SIGNAL_BW_500 < 16 /\
  exists d',
    sx127x_set_lora_signal_bw datasheet_bw_code SX127X_LORA_SIGNAL_BW_500
                              lora_device_bw250 = Some (tt, d') /\
    spi_writes d' =
      [(REG_LORA_MODEM_CONFIG_1, 0x90);
       (REG_LORA_DETECTION_BW500_OPTIMIZE_1, 0x02);
       (REG_LORA_DETECTION_BW500_OPTIMIZE_2, 0x64)] /\
    lora_bw_workaround (lora (state d')) = 1.
Proof.
  assert (H : forall b, datasheet_bw_code SX127X_LORA_SIGNAL_BW_7_8
                        <= datasheet_bw_code b
                        <= datasheet_bw_code SX127X_LORA_SIGNAL_BW_500)
    by (intros b; destruct b; cbn; lia).
  split; [exact H |]. split; [cbn; lia |]. split; [cbn; lia |].
  destruct (set_lora_signal_bw_field datasheet_bw_code SX127X_LORA_SIGNAL_BW_500
              lora_device_bw250 H)
    as (d0 & d' & ws & E0 & E & W & _ & _ & _ & C); [cbn; lia | cbn; lia |].
  exists d'. split; [exact E |]. split; [| exact C].
  vm_compute in E. injection E as <-. reflexivity.
Defined.


(** ** FSK frequency deviation *)

(** Conversion of a positive [double] with a long mantissa to [float]. *)
Lemma double_to_float_R (m : positive) e :
  24 <= Zdigits2 (Zpos m) ->
  -149 <= e + (Zdigits2 (Zpos m) - 24) -> e + (Zdigits2 (Zpos m) - 24) < 104 ->
  exists m' e',
    double_to_float (S754_finite false m e) = S754_finite false m' e' /\
    rel_close u23 (mag m' e') (IZR (Zpos m) * powerRZ 2 e)%R.
Proof.
  intros Hd Hl Hh.
  unfold double_to_float, binary_normalize, binary_round, shl_align.
  cbn [Zdigits2] in *. set (d := Zpos (digits2_pos m)) in *.
  replace (fexp 24 128 (d + e)) with (d + e - 24) by (unfold fexp, emin; lia).
  destruct (PpmAccuracy.round_R false (Zpos m) e loc_Exact)
    as (m' & e' & E & _ & A & B); cbn [Zdigits2]; fold d; try lia.
  cbn [Zdigits2] in A, B. fold d in A, B.
  exists m', e'. split.
  - rewrite <- E. destruct (d + e - 24 - e) as [| k | k] eqn:K; try reflexivity.
    lia.
  - unfold rel_close. eapply Rle_trans; [exact A |].
    rewrite <- Rmult_assoc.
    apply Rmult_le_compat_r; [left; apply PpmAccuracy.pow2_pos | exact B].
Qed.

(** The double quotient [hz / SX127X_FSK_FREQ_STEP] against the exact one. *)
Lemma fdev_quotient_R hz :
  0 < hz < 2 ^ 22 ->
  exists m e,
    Float.div Float.binary64 (Float.of_Z Float.binary64 hz) SX127X_FSK_FREQ_STEP
    = S754_finite false m e /\
    2 ^ 49 <= Zpos m < 2 ^ 55 /\ -58 <= e <= -35 /\
    (Rabs (IZR (Zpos m) * powerRZ 2 e - IZR hz * 256 / 15625) <= / 1000000)%R.
Proof.
  intros Hf.
  destruct (TuningWord.of_Z_binary64 hz) as (m1 & E1 & V1 & B1); [lia |].
  pose proof (Binary64Facts.Zdigits2_bounds hz ltac:(lia)) as Bd.
  pose proof (Binary64Facts.Zdigits2_pos hz ltac:(lia)) as Pd.
  set (d := Zdigits2 hz) in *.
  assert (Hd : 1 <= d <= 22).
  { split; [lia |].
    destruct (Z_le_gt_dec d 22) as [L | G]; [exact L | exfalso].
    assert (2 ^ 22 <= 2 ^ (d - 1)) by (apply Z.pow_le_mono_r; lia). lia. }
  rewrite E1, TuningWord.fsk_freq_step_value. unfold Float.div.
  cbn [Float.prec Float.emax Float.binary64].
  destruct (TuningWord.SFdiv_value m1 (d - 53) 8589934592000000 (-47))
    as (m & j & E & Hj & V & _); [exact B1 | cbn; lia | lia |].
  set (P := 2 ^ (59 - d)).
  assert (HP : 2 ^ 37 <= P) by (apply Z.pow_le_mono_r; lia).
  assert (A : Zpos m1 * 2 ^ 53 = (hz * 256 * P) * 2 ^ 39).
  { rewrite V1. subst P. change 256 with (2 ^ 8).
    rewrite <- !Z.mul_assoc, <- !Z.pow_add_r by lia.
    do 2 f_equal. lia. }
  assert (B : Zpos 8589934592000000 = 15625 * 2 ^ 39) by reflexivity.
  assert (Q : (Zpos m1 * 2 ^ 53) / Zpos 8589934592000000 = (hz * 256 * P) / 15625)
    by (rewrite A, B; apply Z.div_mul_cancel_r; lia).
  rewrite Q in V.
  pose proof (Z_div_mod_eq_full (hz * 256 * P) 15625) as DQ.
  pose proof (Z.mod_pos_bound (hz * 256 * P) 15625 ltac:(lia)) as BQ.
  set (q := hz * 256 * P / 15625) in *.
  set (a := Zpos m * 2 ^ j) in *.
  assert (Hj2 : 1 <= 2 ^ j <= 4).
  { assert (J : j = 0 \/ j = 1 \/ j = 2) by lia.
    destruct J as [-> | [-> | ->]]; cbn; lia. }
  assert (Hq : 2 ^ 52 / 2 <= q < 2 ^ 54 + 1).
  { assert (L : 2 ^ (d - 1) * 256 * P = 2 ^ 66).
    { subst P. change 256 with (2 ^ 8). rewrite <- !Z.pow_add_r by lia.
      f_equal. lia. }
    assert (U : 2 ^ d * 256 * P = 2 ^ 67).
    { subst P. change 256 with (2 ^ 8). rewrite <- !Z.pow_add_r by lia.
      f_equal. lia. }
    assert (L1 : 2 ^ 66 <= hz * 256 * P) by (rewrite <- L; nia).
    assert (U1 : hz * 256 * P < 2 ^ 67) by (rewrite <- U; nia).
    change (2 ^ 66) with 73786976294838206464 in L1.
    change (2 ^ 67) with 147573952589676412928 in U1.
    change (2 ^ 52 / 2) with 2251799813685248.
    change (2 ^ 54 + 1) with 18014398509481985. lia. }
  exists m, (d - 53 - -47 - 53 + j). split; [exact E |].
  split.
  { change (2 ^ 49) with 562949953421312. change (2 ^ 55) with 36028797018963968.
    change (2 ^ 52 / 2) with 2251799813685248 in Hq.
    change (2 ^ 54 + 1) with 18014398509481985 in Hq.
    unfold a in V. nia. }
  split; [lia |].
  assert (X : (IZR (Zpos m) * powerRZ 2 (d - 53 - -47 - 53 + j)
               = IZR a / IZR P)%R).
  { replace (d - 53 - -47 - 53 + j) with (j + - (59 - d)) by lia.
    rewrite powerRZ_add by lra. rewrite powerRZ_neg'.
    rewrite <- (PpmAccuracy.pow2_IZR j) by lia.
    rewrite <- (PpmAccuracy.pow2_IZR (59 - d)) by lia. fold P.
    unfold a. rewrite mult_IZR. unfold Rdiv. symmetry. apply Rmult_assoc. }
  rewrite X.
  assert (RP : (137438953472 <= IZR P)%R)
    by (apply IZR_le; change (2 ^ 37) with 137438953472 in HP; exact HP).
  assert (D : (-31250 <= 15625 * IZR a - IZR hz * 256 * IZR P <= 31250)%R).
  { rewrite <- !mult_IZR, <- minus_IZR. split; apply IZR_le; lia. }
  replace (IZR a / IZR P - IZR hz * 256 / 15625)%R
    with ((15625 * IZR a - IZR hz * 256 * IZR P) * / (15625 * IZR P))%R
    by (field; lra).
  assert (I : (0 < / (15625 * IZR P))%R) by (apply Rinv_0_lt_compat; lra).
  apply Rabs_le. split.
  - apply Rmult_le_reg_r with (15625 * IZR P)%R; [lra |].
    rewrite Rmult_assoc, Rinv_l by lra. lra.
  - apply Rmult_le_reg_r with (15625 * IZR P)%R; [lra |].
    rewrite Rmult_assoc, Rinv_l by lra. lra.
Qed.

Section Fdev.

Variable lrintf_unspecified : spec_float -> Z.

Lemma fsk_fdev_value_close hz :
  0 < hz <= 3999000 ->
  0 <= fsk_fdev_value lrintf_unspecified hz < 65536 /\
  20 * Z.abs (fsk_fdev_value lrintf_unspecified hz * 15625 - hz * 256)
  <= 11 * 15625.
Proof.
  intros Hf. unfold fsk_fdev_value.
  destruct (fdev_quotient_R hz) as (m & e & E & Bm & Be & C);
    [change (2 ^ 22) with 4194304; lia |].
  destruct (PpmAccuracy.Zdigits2_range (Zpos m) 49 55) as [D1 D2]; [lia | exact Bm |].
  destruct (double_to_float_R m e) as (m' & e' & E' & R); [lia | lia | lia |].
  rewrite E, E'.
  destruct (PpmAccuracy.nearest_even_R false m' e') as (a & Ea & Ha).
  apply PpmAccuracy.rel_close_bounds in R.
  apply PpmAccuracy.Rabs_le_bounds in Ha, C.
  cbn [B2R] in Ha. unfold u23 in R.
  set (X := (IZR (Zpos m) * powerRZ 2 e)%R) in *.
  set (Y := (IZR hz * 256 / 15625)%R) in *.
  assert (Rh : (1 <= IZR hz <= 3999000)%R) by (split; apply IZR_le; lia).
  assert (HY : (0 < Y <= 65520)%R) by (unfold Y; lra).
  assert (T : (- (11 / 20) <= IZR a - Y <= 11 / 20)%R) by lra.
  assert (A1 : (-1 < IZR a < 65536)%R) by lra.
  destruct A1 as [A1 A2]. apply lt_IZR in A1, A2.
  assert (La : lrintf_defined (S754_finite false m' e') = Some a).
  { unfold lrintf_defined. rewrite Ea. unfold Int.LONG_MIN, Int.LONG_MAX.
    replace (- 2 ^ 31 <=? a) with true by (symmetry; apply Z.leb_le; lia).
    replace (a <=? 2 ^ 31 - 1) with true by (symmetry; apply Z.leb_le; lia).
    reflexivity. }
  unfold lrintf. rewrite La. unfold to_uint16. rewrite Z.mod_small by lia.
  split; [lia |].
  assert (D : (IZR (- (11 * 15625)) <= IZR (20 * (a * 15625 - hz * 256))
               <= IZR (11 * 15625))%R).
  { rewrite opp_IZR, !mult_IZR, minus_IZR, !mult_IZR.
    assert (Q : (IZR hz * 256 = Y * 15625)%R) by (unfold Y; field).
    rewrite Q. lra. }
  destruct D as [D1' D2']. apply le_IZR in D1', D2'. lia.
Qed.

(** X25.  For a deviation from 1 Hz to 3999000 Hz, sx127x_set_fsk_fdev returns
    and writes, after the write gate, the high and the low byte of a 16-bit
    word to FDEV_MSB and FDEV_LSB; the word differs from the exact quotient hz
    / 61.03515625 (= hz * 256 / 15625) by at most 0.55. The driver state stays
    as the write gate left it. *)
Theorem set_fsk_fdev_word (hz : Z) (d : device) :
  0 < hz <= 3999000 ->
  exists d0 d' dev,
    sx127x_prepare_write d = Some (tt, d0) /\
    sx127x_set_fsk_fdev lrintf_unspecified hz d = Some (tt, d') /\
    spi_writes d' =
      spi_writes d0 ++ [(REG_FSK_FDEV_MSB, dev / 256);
                        (REG_FSK_FDEV_LSB, dev mod 256)] /\
    state d' = state d0 /\
    0 <= dev < 65536 /\
    20 * Z.abs (dev * 15625 - hz * 256) <= 11 * 15625.
Proof.
  intros Hb. destruct (prepare_write_step d) as (d0 & E & _).
  destruct (fsk_fdev_value_close hz Hb) as (R & C).
  set (dev := fsk_fdev_value lrintf_unspecified hz) in *.
  exists d0. unfold sx127x_set_fsk_fdev, bind. rewrite E. cbv zeta. fold dev.
  unfold sx127x_write_reg, Int.to_uint8.
  eexists. exists dev. split; [reflexivity |]. split; [reflexivity |].
  cbn [spi_writes state].
  rewrite Z.shiftr_div_pow2 by lia. change (2 ^ 8) with 256.
  change 0xff with (Z.ones 8). rewrite Z.land_ones by lia. change (2 ^ 8) with 256.
  assert (Hd : 0 <= dev / 256 < 256)
    by (split; [apply Z.div_pos; lia | apply Z.div_lt_upper_bound; lia]).
  rewrite (Z.mod_small (dev / 256)) by exact Hd. rewrite Z.mod_mod by lia.
  rewrite <- app_assoc. cbn [app].
  repeat split; try reflexivity; try lia; exact C.
Qed.

End Fdev.

Lemma set_fsk_fdev_word_witness :
  0 < 25000 <= 3999000 /\
  exists d0 d' dev,
    sx127x_prepare_write (fsk_device 868000000) = Some (tt, d0) /\
    sx127x_set_fsk_fdev lrintf_zero 25000 (fsk_device 868000000)
    = Some (tt, d') /\
    spi_writes d' =
      spi_writes d0 ++ [(REG_FSK_FDEV_MSB, dev / 256);
                        (REG_FSK_FDEV_LSB, dev mod 256)] /\
    state d' = state d0 /\
    0 <= dev < 65536 /\
    20 * Z.abs (dev * 15625 - 25000 * 256) <= 11 * 15625.
Proof.
  split; [lia |].
  apply (set_fsk_fdev_word lrintf_zero 25000 (fsk_device 868000000)). lia.
Defined.
